(** * WeComRobotMCP: the JSON-RPC router, the tool dispatcher and the
      webhook client, embedded as Rocq functions.

    Sources: the server entry point (class MCPServer), src/tools.js (class
    ToolHandler) and src/wecom-client.js (class WeComClient).

    Modelling conventions.
    - A JavaScript string is represented by its UTF-8 encoding, a Rocq
      [string] of bytes, so [Buffer.byteLength(s, 'utf8')] is
      [String.length]; strings are well-formed Unicode.
    - A JavaScript number is an integer [Z]: the numbers the program
      handles are sizes, status codes, error codes and request
      identifiers. A JSON text with a fraction, an exponent or an integer
      beyond 2^53 - 1 is outside the model.
    - A JavaScript object is an association list in insertion order.
    - [async]/[await] is sequentialised: one line is handled to completion
      before the next.
    - A raised exception is a value of type [exn]; a computation is a
      function from the state to an outcome and the state it leaves. The
      message of an exception of the engine is in the wording of V8.
    - The file system, the remote servers and the library functions are
      the fields of an environment [Env]. *)

From Stdlib Require Import String Ascii List ZArith Lia Bool DecimalString.
Import ListNotations.
Open Scope string_scope.
Open Scope Z_scope.

(** ** JavaScript values *)

Module JS.

#[warnings="-register-all"]
Inductive jsval : Type :=
| JUndefined
| JNull
| JBool (b : bool)
| JNum (n : Z)
| JStr (s : string)
| JArr (l : list jsval)
| JObj (fields : list (string * jsval)).

(** [!v] is [negb (truthy v)]. *)
Definition truthy (v : jsval) : bool :=
  match v with
  | JUndefined | JNull => false
  | JBool b => b
  | JNum n => negb (n =? 0)
  | JStr s => negb (String.eqb s "")
  | JArr _ | JObj _ => true
  end.

(** [a || b] *)
Definition js_or (a b : jsval) : jsval := if truthy a then a else b.

Definition is_string (v : jsval) : bool :=
  match v with JStr _ => true | _ => false end.

Definition nullish (v : jsval) : bool :=
  match v with JUndefined | JNull => true | _ => false end.

Fixpoint lookup (k : string) (fs : list (string * jsval)) : option jsval :=
  match fs with
  | [] => None
  | (k', v) :: fs' => if String.eqb k k' then Some v else lookup k fs'
  end.

(** Assignment [o[k] = v]: replaces the value in place or appends. *)
Fixpoint set_field (k : string) (v : jsval) (fs : list (string * jsval))
  : list (string * jsval) :=
  match fs with
  | [] => [(k, v)]
  | (k', v') :: fs' =>
      if String.eqb k k' then (k, v) :: fs' else (k', v') :: set_field k v fs'
  end.

(** Property read [v.k] for a key that no prototype defines (all the keys
    the program reads are of that kind): the own property of an object,
    [undefined] on every other value. The read of a property of [null] or
    [undefined] raises; callers test [nullish] first. *)
Definition get (k : string) (v : jsval) : jsval :=
  match v with
  | JObj fs => match lookup k fs with Some x => x | None => JUndefined end
  | _ => JUndefined
  end.

(** [a === b] against a string constant. *)
Definition is_str (c : string) (v : jsval) : bool :=
  match v with JStr s => String.eqb s c | _ => false end.

(** [v !== 0] *)
Definition not_zero (v : jsval) : bool :=
  match v with JNum n => negb (n =? 0) | _ => true end.

Definition string_of_Z (n : Z) : string :=
  NilZero.string_of_int (Z.to_int n).

Fixpoint join (sep : string) (l : list string) : string :=
  match l with
  | [] => ""
  | [x] => x
  | x :: rest => x ++ sep ++ join sep rest
  end.

(** [ToString] of ECMAScript, as a template literal applies it. An object
    that JSON.parse built has no callable member: with an own [toString]
    key the conversion finds no method that returns a primitive and raises
    a TypeError ([None] here); without one it is Object.prototype.toString.
    An array is joined with commas, [null] and [undefined] elements giving
    the empty string. *)
Fixpoint ToString (v : jsval) : option string :=
  match v with
  | JUndefined => Some "undefined"
  | JNull => Some "null"
  | JBool true => Some "true"
  | JBool false => Some "false"
  | JNum n => Some (string_of_Z n)
  | JStr s => Some s
  | JArr l =>
      let fix elems (l : list jsval) : option (list string) :=
        match l with
        | [] => Some []
        | x :: rest =>
            match (if nullish x then Some "" else ToString x), elems rest with
            | Some s, Some ss => Some (s :: ss)
            | _, _ => None
            end
        end in
      option_map (join ",") (elems l)
  | JObj fs =>
      match lookup "toString" fs with
      | Some _ => None
      | None => Some "[object Object]"
      end
  end.

End JS.
Export JS.

(** ** JSON text *)

Module JSON.

Definition dquote : string := String "034"%char "".
Definition newline : string := String "010"%char "".

Definition hex_digit (n : nat) : ascii :=
  match n with
  | 0 => "0" | 1 => "1" | 2 => "2" | 3 => "3" | 4 => "4" | 5 => "5"
  | 6 => "6" | 7 => "7" | 8 => "8" | 9 => "9" | 10 => "a" | 11 => "b"
  | 12 => "c" | 13 => "d" | 14 => "e" | _ => "f"
  end%nat%char.

(** QuoteJSONString, one byte at a time; bytes of a multi-byte UTF-8
    sequence pass through. *)
Definition quote_char (c : ascii) : string :=
  let n := nat_of_ascii c in
  if (n =? 34)%nat then "\" ++ dquote
  else if (n =? 92)%nat then "\\"
  else if (n =? 8)%nat then "\b"
  else if (n =? 12)%nat then "\f"
  else if (n =? 10)%nat then "\n"
  else if (n =? 13)%nat then "\r"
  else if (n =? 9)%nat then "\t"
  else if (n <? 32)%nat then
    "\u00" ++ String (hex_digit (n / 16)) (String (hex_digit (n mod 16)) "")
  else String c "".

Fixpoint quote_body (s : string) : string :=
  match s with
  | EmptyString => ""
  | String c rest => quote_char c ++ quote_body rest
  end.

Definition quote (s : string) : string := dquote ++ quote_body s ++ dquote.

(** SerializeJSONProperty with the gap [gap] ([""] for JSON.stringify(v),
    two spaces for JSON.stringify(v, null, 2)) at the indentation [indent].
    [None] is the result [undefined]. The function is total; the engine
    raises a RangeError on a value nested deeper than its stack allows. *)
Fixpoint serialize (gap indent : string) (v : jsval) : option string :=
  match v with
  | JUndefined => None
  | JNull => Some "null"
  | JBool true => Some "true"
  | JBool false => Some "false"
  | JNum n => Some (string_of_Z n)
  | JStr s => Some (quote s)
  | JArr l =>
      let inner := indent ++ gap in
      let fix elems (l : list jsval) : list string :=
        match l with
        | [] => []
        | x :: rest =>
            match serialize gap inner x with
            | Some s => s
            | None => "null"
            end :: elems rest
        end in
      match elems l with
      | [] => Some "[]"
      | parts =>
          if String.eqb gap "" then Some ("[" ++ join "," parts ++ "]")
          else Some ("[" ++ newline ++ inner
                       ++ join ("," ++ newline ++ inner) parts
                       ++ newline ++ indent ++ "]")
      end
  | JObj fs =>
      let inner := indent ++ gap in
      let fix members (fs : list (string * jsval)) : list string :=
        match fs with
        | [] => []
        | (k, x) :: rest =>
            match serialize gap inner x with
            | Some s =>
                (quote k ++ ":" ++ (if String.eqb gap "" then "" else " ") ++ s)
                  :: members rest
            | None => members rest
            end
        end in
      match members fs with
      | [] => Some "{}"
      | parts =>
          if String.eqb gap "" then Some ("{" ++ join "," parts ++ "}")
          else Some ("{" ++ newline ++ inner
                       ++ join ("," ++ newline ++ inner) parts
                       ++ newline ++ indent ++ "}")
      end
  end.

(** [JSON.stringify(v)] *)
Definition stringify (v : jsval) : option string := serialize "" "" v.
(** [JSON.stringify(v, null, 2)] *)
Definition stringify2 (v : jsval) : option string := serialize "  " "" v.

(** *** JSON.parse

    A recursive-descent reader of the JSON grammar; [None] is the
    SyntaxError. The reader covers a fragment of the grammar on which it
    returns the value that the engine returns: numbers are integer
    literals of magnitude at most 2^53 - 1 (larger ones are rounded by the
    engine), a [\u] escape is a code point outside the surrogate range,
    and no key of an object is written with digits only (the engine
    lists such keys first, in ascending order). A text outside that
    fragment reads as [None]. The fuel bounds the nesting depth and the
    number of members. *)

Definition MAX_SAFE_INTEGER : Z := 9007199254740991.

Definition is_ws (c : ascii) : bool :=
  let n := nat_of_ascii c in
  ((n =? 32) || (n =? 9) || (n =? 10) || (n =? 13))%nat.

Fixpoint skip_ws (s : string) : string :=
  match s with
  | String c rest => if is_ws c then skip_ws rest else s
  | EmptyString => s
  end.

Fixpoint strip_prefix (p s : string) : option string :=
  match p, s with
  | EmptyString, _ => Some s
  | String a p', String b s' => if Ascii.eqb a b then strip_prefix p' s' else None
  | String _ _, EmptyString => None
  end.

Definition digit_val (c : ascii) : option Z :=
  let n := nat_of_ascii c in
  if ((48 <=? n) && (n <=? 57))%nat then Some (Z.of_nat (n - 48)) else None.

Definition hex_val (c : ascii) : option N :=
  let n := N_of_ascii c in
  (if (48 <=? n) && (n <=? 57) then Some (n - 48)
   else if (97 <=? n) && (n <=? 102) then Some (n - 87)
   else if (65 <=? n) && (n <=? 70) then Some (n - 55)
   else None)%N.

Fixpoint read_digits (acc : Z) (s : string) : Z * string :=
  match s with
  | String c rest =>
      match digit_val c with
      | Some d => read_digits (10 * acc + d) rest
      | None => (acc, s)
      end
  | EmptyString => (acc, s)
  end.

(** After the integer part: a fraction or an exponent is outside the
    modelled numbers. *)
Definition no_fraction (s : string) : bool :=
  match s with
  | String c _ =>
      negb (Ascii.eqb c "." || Ascii.eqb c "e" || Ascii.eqb c "E")%char
  | EmptyString => true
  end.

Definition read_nat_literal (s : string) : option (Z * string) :=
  match s with
  | String c rest =>
      match digit_val c with
      | Some 0 => if no_fraction rest then Some (0, rest) else None
      | Some d =>
          let '(n, rest') := read_digits d rest in
          if no_fraction rest' && (n <=? MAX_SAFE_INTEGER)
          then Some (n, rest') else None
      | None => None
      end
  | EmptyString => None
  end.

(** A key written with digits only. *)
Fixpoint all_digits (s : string) : bool :=
  match s with
  | EmptyString => true
  | String c rest =>
      match digit_val c with
      | Some _ => all_digits rest
      | None => false
      end
  end.

Definition integer_key (k : string) : bool :=
  negb (String.eqb k "") && all_digits k.

Definition read_number (s : string) : option (Z * string) :=
  match s with
  | String "-" rest =>
      match read_nat_literal rest with
      | Some (n, rest') => Some (- n, rest')
      | None => None
      end
  | _ => read_nat_literal s
  end.

(** UTF-8 encoding of a code point of the basic plane. *)
Definition utf8 (n : N) : string :=
  (if n <? 128 then String (ascii_of_N n) ""
   else if n <? 2048 then
     String (ascii_of_N (192 + n / 64))
       (String (ascii_of_N (128 + n mod 64)) "")
   else
     String (ascii_of_N (224 + n / 4096))
       (String (ascii_of_N (128 + (n / 64) mod 64))
          (String (ascii_of_N (128 + n mod 64)) "")))%N.

Definition read_u4 (s : string) : option (string * string) :=
  match s with
  | String a (String b (String c (String d rest))) =>
      match hex_val a, hex_val b, hex_val c, hex_val d with
      | Some x, Some y, Some z, Some w =>
          let n := (((x * 16 + y) * 16 + z) * 16 + w)%N in
          if ((55296 <=? n) && (n <=? 57343))%N then None
          else Some (utf8 n, rest)
      | _, _, _, _ => None
      end
  | _ => None
  end.

(** The characters of a string literal after its opening quote. The
    recursion is on the fuel, which the caller sets to the length of the
    text. *)
Fixpoint read_string (fuel : nat) (s : string) : option (string * string) :=
  match fuel with
  | O => None
  | S fuel' =>
      match s with
      | EmptyString => None
      | String c rest =>
          let n := nat_of_ascii c in
          if (n =? 34)%nat then Some ("", rest)
          else if (n =? 92)%nat then
            match rest with
            | String e rest' =>
                let k := nat_of_ascii e in
                let lit (x : string) :=
                  match read_string fuel' rest' with
                  | Some (body, r) => Some (x ++ body, r)
                  | None => None
                  end in
                if (k =? 34)%nat then lit dquote
                else if (k =? 92)%nat then lit "\"
                else if (k =? 47)%nat then lit "/"
                else if (k =? 98)%nat then lit (String (ascii_of_nat 8) "")
                else if (k =? 102)%nat then lit (String (ascii_of_nat 12) "")
                else if (k =? 110)%nat then lit (String (ascii_of_nat 10) "")
                else if (k =? 114)%nat then lit (String (ascii_of_nat 13) "")
                else if (k =? 116)%nat then lit (String (ascii_of_nat 9) "")
                else if (k =? 117)%nat then
                  match read_u4 rest' with
                  | Some (x, r4) =>
                      match read_string fuel' r4 with
                      | Some (body, r) => Some (x ++ body, r)
                      | None => None
                      end
                  | None => None
                  end
                else None
            | EmptyString => None
            end
          else if (n <? 32)%nat then None
          else
            match read_string fuel' rest with
            | Some (body, r) => Some (String c body, r)
            | None => None
            end
      end
  end.

Definition head_is (c : ascii) (s : string) : option string :=
  match s with
  | String a rest => if Ascii.eqb a c then Some rest else None
  | EmptyString => None
  end.

Fixpoint read_value (fuel : nat) (s : string) : option (jsval * string) :=
  match fuel with
  | O => None
  | S fuel' =>
      let s := skip_ws s in
      match s with
      | EmptyString => None
      | String c rest =>
          let n := nat_of_ascii c in
          if (n =? 110)%nat then
            option_map (fun r => (JNull, r)) (strip_prefix "null" s)
          else if (n =? 116)%nat then
            option_map (fun r => (JBool true, r)) (strip_prefix "true" s)
          else if (n =? 102)%nat then
            option_map (fun r => (JBool false, r)) (strip_prefix "false" s)
          else if (n =? 34)%nat then
            option_map (fun '(x, r) => (JStr x, r))
                       (read_string (String.length s) rest)
          else if (n =? 91)%nat then
            match head_is "]" (skip_ws rest) with
            | Some r => Some (JArr [], r)
            | None =>
                option_map (fun '(l, r) => (JArr l, r)) (read_elements fuel' rest)
            end
          else if (n =? 123)%nat then
            match head_is "}" (skip_ws rest) with
            | Some r => Some (JObj [], r)
            | None =>
                option_map (fun '(fs, r) => (JObj fs, r))
                           (read_members fuel' [] rest)
            end
          else option_map (fun '(x, r) => (JNum x, r)) (read_number s)
      end
  end

with read_elements (fuel : nat) (s : string) : option (list jsval * string) :=
  match fuel with
  | O => None
  | S fuel' =>
      match read_value fuel' s with
      | Some (v, r) =>
          let r := skip_ws r in
          match head_is "," r with
          | Some r' =>
              option_map (fun '(l, r2) => (v :: l, r2)) (read_elements fuel' r')
          | None => option_map (fun r' => ([v], r')) (head_is "]" r)
          end
      | None => None
      end
  end

with read_members (fuel : nat) (acc : list (string * jsval)) (s : string)
  : option (list (string * jsval) * string) :=
  match fuel with
  | O => None
  | S fuel' =>
      match head_is "034" (skip_ws s) with
      | Some r =>
          match read_string (String.length r) r with
          | Some (k, r1) =>
              if integer_key k then None
              else
                match head_is ":" (skip_ws r1) with
                | Some r2 =>
                    match read_value fuel' r2 with
                    | Some (v, r3) =>
                        let acc := set_field k v acc in
                        let r3 := skip_ws r3 in
                        match head_is "," r3 with
                        | Some r4 => read_members fuel' acc r4
                        | None =>
                            option_map (fun r4 => (acc, r4)) (head_is "}" r3)
                        end
                    | None => None
                    end
                | None => None
                end
          | None => None
          end
      | None => None
      end
  end.

(** [JSON.parse(text)] *)
Definition parse (text : string) : option jsval :=
  match read_value (2 * String.length text + 2) text with
  | Some (v, r) =>
      match skip_ws r with
      | EmptyString => Some v
      | String _ _ => None
      end
  | None => None
  end.

End JSON.

(** ** Exceptions and computations *)

(** The exceptions that occur: the program's own [WeComError], the
    engine's TypeError, a file-system error of Node (with its [code], such
    as ENOENT) and a failure of the HTTP library (with its [code] and, when
    the server answered, the response: status, status text, body). *)
Inductive exn : Type :=
| WeComError (code : jsval) (message : string) (data : jsval)
| TypeError (message : string)
| SystemError (code : string) (message : string)
| AxiosError (code : option string) (message : string)
             (response : option (Z * string * jsval)).

Definition is_WeComError (e : exn) : bool :=
  match e with WeComError _ _ _ => true | _ => false end.

Definition exn_name (e : exn) : string :=
  match e with
  | WeComError _ _ _ => "WeComError"
  | TypeError _ => "TypeError"
  | SystemError _ _ => "Error"
  | AxiosError _ _ _ => "AxiosError"
  end.

Definition exn_message (e : exn) : string :=
  match e with
  | WeComError _ m _ | TypeError m | SystemError _ m | AxiosError _ m _ => m
  end.

Definition exn_code (e : exn) : jsval :=
  match e with
  | WeComError c _ _ => c
  | TypeError _ => JUndefined
  | SystemError c _ => JStr c
  | AxiosError (Some c) _ _ => JStr c
  | AxiosError None _ _ => JUndefined
  end.

Definition exn_data (e : exn) : jsval :=
  match e with WeComError _ _ d => d | _ => JUndefined end.

Definition exn_response (e : exn) : option (Z * string * jsval) :=
  match e with AxiosError _ _ r => r | _ => None end.

Definition cannot_convert : exn :=
  TypeError "Cannot convert object to primitive value".

Definition cannot_read (of_what key : string) : exn :=
  TypeError ("Cannot read properties of " ++ of_what
               ++ " (reading '" ++ key ++ "')").

(** A computation over a state [S]: the state it leaves is kept when it
    raises, as the effects of JavaScript code are. *)
Definition M (S A : Type) : Type := S -> (exn + A) * S.

Definition ret {S A} (a : A) : M S A := fun s => (inr a, s).
Definition throw {S A} (e : exn) : M S A := fun s => (inl e, s).

Definition bind {S A B} (m : M S A) (k : A -> M S B) : M S B :=
  fun s =>
    match m s with
    | (inr a, s') => k a s'
    | (inl e, s') => (inl e, s')
    end.

Definition try_catch {S A} (m : M S A) (handler : exn -> M S A) : M S A :=
  fun s =>
    match m s with
    | (inr a, s') => (inr a, s')
    | (inl e, s') => handler e s'
    end.

Declare Scope js_scope.
Delimit Scope js_scope with js.
Notation "x <- m ;; k" := (bind m (fun x => k))
  (at level 61, m at next level, right associativity) : js_scope.
Notation "' pat <- m ;; k" := (bind m (fun x => match x with pat => k end))
  (at level 61, pat pattern, m at next level, right associativity) : js_scope.
Notation "m ;; k" := (bind m (fun _ => k))
  (at level 61, right associativity) : js_scope.
Open Scope js_scope.

(** The substitution [${v}] of a template literal. *)
Definition template {S} (v : jsval) : M S string :=
  match ToString v with
  | Some s => ret s
  | None => throw cannot_convert
  end.

(** [new WeComError(code, message, data = {})]: the value that a [throw]
    of this expression raises. [super(message)] converts the message to a
    string, which can itself raise. *)
Definition new_WeComError (code message data : jsval) : exn :=
  match ToString message with
  | Some m =>
      WeComError code m (match data with JUndefined => JObj [] | _ => data end)
  | None => cannot_convert
  end.

(** [new WeComError(-1, message)] with a string message. *)
Definition invalid (message : string) : exn :=
  new_WeComError (JNum (-1)) (JStr message) JUndefined.

(** ** The world outside the program *)

Definition Buffer : Type := list Byte.byte.

Definition buf_length (b : Buffer) : Z := Z.of_nat (List.length b).

(** What the HTTP library gives back: the response it resolves with, or
    the error it rejects with. *)
Inductive axios_result (D : Type) : Type :=
| Resolved (status : Z) (data : D)
| Rejected (code : option string) (message : string)
           (response : option (Z * string * jsval)).
Arguments Resolved {D} status data.
Arguments Rejected {D} code message response.

(** The network requests the program issues, in order. *)
Inductive call : Type :=
| PostSend (key : string) (body : jsval)
| PostUpload (key type filename : string) (contentType : option string)
             (file : Buffer)
| GetUrl (url : string).

(** The environment: the process configuration, the file system, the
    remote servers (their answer may depend on the requests made so far)
    and the library functions the program calls. *)
Record Env : Type := {
  WECOM_WEBHOOK_KEY : option string;
  readFile : string -> (string * string) + Buffer;
  post_send : list call -> string -> jsval -> axios_result jsval;
  post_upload : list call -> string -> string -> string -> option string
                -> Buffer -> axios_result jsval;
  get_url : list call -> string -> axios_result Buffer;
  url_parses : string -> bool;
  extname : string -> string;
  basename : string -> string;
  md5_hex : Buffer -> string;
  base64 : Buffer -> string;
  syntax_error_message : string -> string
}.

(** ** src/wecom-client.js *)

Module WeComClient.

Definition FILE_TYPE : list (string * string) :=
  [("FILE", "file"); ("VOICE", "voice")].

Definition SUPPORTED_IMAGE_FORMATS : list string := ["jpg"; "jpeg"; "png"].

Definition FILE_SIZE_LIMITS : list (string * Z) :=
  [("FILE", 20 * 1024 * 1024);
   ("VOICE", 2 * 1024 * 1024);
   ("IMAGE", 2 * 1024 * 1024)].

Definition MARKDOWN_MAX_BYTES : Z := 4096.

(** [table[key]] on a table of numbers; [None] is [undefined]. *)
Fixpoint index {A} (table : list (string * A)) (key : string) : option A :=
  match table with
  | [] => None
  | (k, v) :: rest => if String.eqb key k then Some v else index rest key
  end.

(** [n > m] where [m] may be [undefined]: the comparison with NaN is
    false. *)
Definition gt (n : Z) (m : option Z) : bool :=
  match m with
  | Some m => m <? n
  | None => false
  end.

(** [list.includes(s)] *)
Definition includes (l : list string) (s : string) : bool :=
  existsb (String.eqb s) l.

Definition lower_char (c : ascii) : ascii :=
  let n := nat_of_ascii c in
  if ((65 <=? n) && (n <=? 90))%nat then ascii_of_nat (n + 32) else c.

(** [s.toLowerCase()] on extensions (ASCII letters). *)
Fixpoint toLowerCase (s : string) : string :=
  match s with
  | EmptyString => ""
  | String c rest => String (lower_char c) (toLowerCase rest)
  end.

(** [s.slice(1)] *)
Definition slice1 (s : string) : string :=
  match s with
  | EmptyString => ""
  | String _ rest => rest
  end.

Definition byteLength (s : string) : Z := Z.of_nat (String.length s).

Definition mimeTypes : list (string * string) :=
  [("pdf", "application/pdf");
   ("doc", "application/msword");
   ("docx", "application/vnd.openxmlformats-officedocument.wordprocessingml.document");
   ("xls", "application/vnd.ms-excel");
   ("xlsx", "application/vnd.openxmlformats-officedocument.spreadsheetml.sheet");
   ("ppt", "application/vnd.ms-powerpoint");
   ("pptx", "application/vnd.openxmlformats-officedocument.presentationml.presentation");
   ("txt", "text/plain");
   ("csv", "text/csv");
   ("md", "text/markdown");
   ("zip", "application/zip");
   ("rar", "application/x-rar-compressed");
   ("7z", "application/x-7z-compressed");
   ("jpg", "image/jpeg");
   ("jpeg", "image/jpeg");
   ("png", "image/png");
   ("gif", "image/gif");
   ("webp", "image/webp");
   ("mp3", "audio/mpeg");
   ("wav", "audio/wav");
   ("amr", "audio/amr");
   ("mp4", "video/mp4");
   ("avi", "video/x-msvideo");
   ("mov", "video/quicktime")].

Section Client.

Variable env : Env.

(** [calculateMD5(buffer)] *)
Definition calculateMD5 (buffer : Buffer) : string := md5_hex env buffer.

(** The constructor: the instance is its [webhookKey]. *)
Definition new (webhookKey : jsval) : exn + string :=
  match webhookKey with
  | JStr k =>
      if String.eqb k "" then inl (invalid "webhookKey 是必需的字符串参数")
      else inr k
  | _ => inl (invalid "webhookKey 是必需的字符串参数")
  end.

(** [await this._readFile(filePath)] *)
Definition _readFile (filePath : string) : M (list call) Buffer :=
  match readFile env filePath with
  | inr buffer => ret buffer
  | inl (code, message) => throw (SystemError code message)
  end.

(** [mimeTypes[ext] || 'application/octet-stream']. The table is an object
    literal: for the two lower-case names that Object.prototype defines the
    lookup gives that member, which is not a string ([None]). *)
Definition _getMimeType (filePath : string) : option string :=
  let ext := toLowerCase (slice1 (extname env filePath)) in
  if String.eqb ext "constructor" || String.eqb ext "__proto__" then None
  else
    match index mimeTypes ext with
    | Some m => Some m
    | None => Some "application/octet-stream"
    end.

(** [await axios(...)] for each of the three requests: the request is
    appended to the trace and the remote answer is returned or raised. *)
Definition settle {D} (c : call) (r : axios_result D) : M (list call) (Z * D) :=
  fun trace =>
    match r with
    | Resolved status data => (inr (status, data), (trace ++ [c])%list)
    | Rejected code message response =>
        (inl (AxiosError code message response), (trace ++ [c])%list)
    end.

Definition axios_post_send (key : string) (body : jsval)
  : M (list call) (Z * jsval) :=
  fun trace => settle (PostSend key body) (post_send env trace key body) trace.

Definition axios_post_upload (key type filename : string)
  (contentType : option string) (file : Buffer) : M (list call) (Z * jsval) :=
  fun trace =>
    settle (PostUpload key type filename contentType file)
           (post_upload env trace key type filename contentType file) trace.

Definition axios_get (url : string) : M (list call) (Z * Buffer) :=
  fun trace => settle (GetUrl url) (get_url env trace url) trace.

(** [data.errcode !== 0] followed by the [throw]: reading a property of a
    [null] or [undefined] body raises a TypeError. *)
Definition check_errcode (data : jsval) (fallback : string)
  : M (list call) unit :=
  match data with
  | JUndefined => throw (cannot_read "undefined" "errcode")
  | JNull => throw (cannot_read "null" "errcode")
  | _ =>
      if not_zero (get "errcode" data) then
        throw (new_WeComError (get "errcode" data)
                 (js_or (get "errmsg" data) (JStr fallback)) data)
      else ret tt
  end.

Definition sendMessage (key msgType : string) (content : jsval)
  : M (list call) jsval :=
  try_catch
    ('(_, data) <- axios_post_send key
         (JObj (set_field msgType content [("msgtype", JStr msgType)])) ;;
     check_errcode data "发送消息失败" ;;
     ret (JObj [("success", JBool true);
                ("message", JStr "消息发送成功");
                ("data", data)]))
    (fun error =>
       if is_WeComError error then throw error
       else
         match exn_response error with
         | Some (status, statusText, data) =>
             throw (new_WeComError (JNum status)
                      (JStr ("API 响应错误：" ++ string_of_Z status ++ " "
                               ++ statusText))
                      (JObj [("status", JNum status); ("data", data)]))
         | None =>
             throw (new_WeComError (JNum (-1))
                      (JStr ("网络请求失败：" ++ exn_message error))
                      (JObj [("originalError", JStr (exn_message error))]))
         end).

Definition sendMarkdownV2 (key : string) (content : jsval)
  : M (list call) jsval :=
  match content with
  | JStr c =>
      if String.eqb c "" then throw (invalid "content 参数不能为空且必须是字符串")
      else
        let byteLength := byteLength c in
        if byteLength >? MARKDOWN_MAX_BYTES then
          throw (invalid ("内容长度超出限制：当前 " ++ string_of_Z byteLength
                            ++ " 字节，最大 " ++ string_of_Z MARKDOWN_MAX_BYTES
                            ++ " 字节"))
        else sendMessage key "markdown_v2" (JObj [("content", content)])
  | _ => throw (invalid "content 参数不能为空且必须是字符串")
  end.

Definition uploadMedia_body (key filePath type : string)
  : M (list call) jsval :=
  fileBuffer <- _readFile filePath ;;
  let fileSize := buf_length fileBuffer in
  if fileSize <=? 5 then throw (invalid "文件大小必须大于 5 字节")
  else
    let maxSize := index FILE_SIZE_LIMITS type in
    if gt fileSize maxSize then
      let maxMB := match maxSize with
                   | Some m => string_of_Z (m / 1024 / 1024)
                   | None => "NaN"
                   end in
      throw (invalid ("文件大小超出限制：最大 " ++ maxMB ++ "MB"))
    else
      '(_, data) <- axios_post_upload key type (basename env filePath)
                      (_getMimeType filePath) fileBuffer ;;
      check_errcode data "文件上传失败" ;;
      ret (JObj [("success", JBool true);
                 ("message", JStr "文件上传成功");
                 ("media_id", get "media_id" data);
                 ("type", get "type" data);
                 ("created_at", get "created_at" data)]).

(** [uploadMedia(filePath, type = FILE_TYPE.FILE)] *)
Definition uploadMedia (key : string) (filePath type : jsval)
  : M (list call) jsval :=
  let type := match type with JUndefined => JStr "file" | _ => type end in
  match filePath with
  | JStr path =>
      if String.eqb path "" then throw (invalid "filePath 参数必须是有效的字符串")
      else
        match type with
        | JStr t =>
            if includes (map snd FILE_TYPE) t then
              try_catch (uploadMedia_body key path t)
                (fun error =>
                   if is_WeComError error then throw error
                   else if is_str "ENOENT" (exn_code error) then
                     throw (invalid ("文件不存在：" ++ path))
                   else
                     throw (new_WeComError (JNum (-1))
                              (JStr ("文件上传失败：" ++ exn_message error))
                              (JObj [("originalError",
                                      JStr (exn_message error))])))
            else throw (invalid ("type 参数必须是 " ++ JSON.dquote ++ "file"
                                   ++ JSON.dquote ++ " 或 " ++ JSON.dquote
                                   ++ "voice" ++ JSON.dquote))
        | _ => throw (invalid ("type 参数必须是 " ++ JSON.dquote ++ "file"
                                 ++ JSON.dquote ++ " 或 " ++ JSON.dquote
                                 ++ "voice" ++ JSON.dquote))
        end
  | _ => throw (invalid "filePath 参数必须是有效的字符串")
  end.

Definition sendFile (key : string) (mediaId : jsval) : M (list call) jsval :=
  match mediaId with
  | JStr m =>
      if String.eqb m "" then throw (invalid "mediaId 参数必须是有效的字符串")
      else sendMessage key "file" (JObj [("media_id", mediaId)])
  | _ => throw (invalid "mediaId 参数必须是有效的字符串")
  end.

Definition image_too_large : exn :=
  invalid ("图片大小超出限制：最大 "
             ++ match index FILE_SIZE_LIMITS "IMAGE" with
                | Some m => string_of_Z (m / 1024 / 1024)
                | None => "NaN"
                end ++ "MB").

(** The message content built from the bytes of an image. *)
Definition image_content (imageBuffer : Buffer) : jsval :=
  JObj [("base64", JStr (base64 env imageBuffer));
        ("md5", JStr (calculateMD5 imageBuffer))].

(** In [sendImage] and [sendImageFromUrl] the final
    [return this.sendMessage(...)] is not awaited: what it raises passes by
    the [catch] of the function. *)
Definition sendImage (key : string) (imagePath : jsval) : M (list call) jsval :=
  match imagePath with
  | JStr path =>
      if String.eqb path "" then throw (invalid "imagePath 参数必须是有效的字符串")
      else
        content <- try_catch
          (imageBuffer <- _readFile path ;;
           let fileExt := toLowerCase (slice1 (extname env path)) in
           if negb (includes SUPPORTED_IMAGE_FORMATS fileExt) then
             throw (invalid ("不支持的图片格式：" ++ fileExt ++ "，仅支持 "
                               ++ join ", " SUPPORTED_IMAGE_FORMATS))
           else if gt (buf_length imageBuffer) (index FILE_SIZE_LIMITS "IMAGE")
           then throw image_too_large
           else ret (image_content imageBuffer))
          (fun error =>
             if is_WeComError error then throw error
             else if is_str "ENOENT" (exn_code error) then
               throw (invalid ("图片文件不存在：" ++ path))
             else
               throw (new_WeComError (JNum (-1))
                        (JStr ("发送图片失败：" ++ exn_message error))
                        (JObj [("originalError", JStr (exn_message error))]))) ;;
        sendMessage key "image" content
  | _ => throw (invalid "imagePath 参数必须是有效的字符串")
  end.

Definition sendImageFromUrl (key : string) (imageUrl : jsval)
  : M (list call) jsval :=
  match imageUrl with
  | JStr url =>
      if String.eqb url "" then throw (invalid "imageUrl 参数必须是有效的字符串")
      else if negb (url_parses env url) then throw (invalid "无效的 URL 格式")
      else
        content <- try_catch
          ('(status, data) <- axios_get url ;;
           if negb (status =? 200) then
             throw (invalid ("下载图片失败：HTTP " ++ string_of_Z status))
           else if gt (buf_length data) (index FILE_SIZE_LIMITS "IMAGE")
           then throw image_too_large
           else ret (image_content data))
          (fun error =>
             if is_WeComError error then throw error
             else
               throw (new_WeComError (JNum (-1))
                        (JStr ("下载或发送图片失败：" ++ exn_message error))
                        (JObj [("originalError", JStr (exn_message error))]))) ;;
        sendMessage key "image" content
  | _ => throw (invalid "imageUrl 参数必须是有效的字符串")
  end.

End Client.

End WeComClient.

(** ** src/tools.js *)

Module Tools.

Definition webhook_key_schema : string * jsval :=
  ("webhook_key",
   JObj [("type", JStr "string");
         ("description", JStr "企业微信机器人的 webhook key。如果未设置 WECOM_WEBHOOK_KEY 环境变量，则此参数必填。")]).

Definition tools : list jsval :=
  [JObj
     [("name", JStr "send_message");
      ("description", JStr "发送 Markdown V2 格式的消息到企业微信机器人。支持标题、加粗、斜体、列表、引用、链接、代码块、表格等语法。内容最大 4096 字节。如果配置了 WECOM_WEBHOOK_KEY 环境变量，webhook_key 参数可选。");
      ("inputSchema",
       JObj [("type", JStr "object");
             ("properties",
              JObj [webhook_key_schema;
                    ("content",
                     JObj [("type", JStr "string");
                           ("description", JStr "Markdown V2 格式的消息内容。支持语法：# 标题、**加粗**、*斜体*、- 列表、> 引用、[链接](url)、`代码`、```代码块```、|表格| 等")])]);
             ("required", JArr [JStr "content"]);
             ("additionalProperties", JBool false)])];
   JObj
     [("name", JStr "send_file");
      ("description", JStr "发送文件到企业微信机器人。先上传文件到企业微信服务器，然后发送文件消息。支持 PDF、Word、Excel、PPT、TXT、ZIP 等格式，最大 20MB。如果配置了 WECOM_WEBHOOK_KEY 环境变量，webhook_key 参数可选。");
      ("inputSchema",
       JObj [("type", JStr "object");
             ("properties",
              JObj [webhook_key_schema;
                    ("file_path",
                     JObj [("type", JStr "string");
                           ("description", JStr "本地文件的绝对路径或相对路径（例如：/path/to/document.pdf 或 ./files/report.xlsx）")])]);
             ("required", JArr [JStr "file_path"]);
             ("additionalProperties", JBool false)])];
   JObj
     [("name", JStr "send_image");
      ("description", JStr "发送图片到企业微信机器人。支持本地图片文件路径或网络图片 URL。仅支持 JPG 和 PNG 格式，最大 2MB。如果配置了 WECOM_WEBHOOK_KEY 环境变量，webhook_key 参数可选。");
      ("inputSchema",
       JObj [("type", JStr "object");
             ("properties",
              JObj [webhook_key_schema;
                    ("image_path",
                     JObj [("type", JStr "string");
                           ("description", JStr "本地图片文件的路径（可选，与 image_url 二选一）")]);
                    ("image_url",
                     JObj [("type", JStr "string");
                           ("description", JStr "网络图片的 URL 地址（可选，与 image_path 二选一）")])]);
             ("required", JArr []);
             ("oneOf", JArr [JObj [("required", JArr [JStr "image_path"])];
                             JObj [("required", JArr [JStr "image_url"])]]);
             ("additionalProperties", JBool false)])]].

(** The text member of an envelope: [JSON.stringify(data, null, 2)]. *)
Definition text_of (data : jsval) : jsval :=
  match JSON.stringify2 data with
  | Some s => JStr s
  | None => JUndefined
  end.

Definition _formatSuccess (data : jsval) : jsval :=
  JObj [("content", JArr [JObj [("type", JStr "text");
                                ("text", text_of data)]])].

Definition _formatError (error : exn) : jsval :=
  let errorData :=
    [("error", js_or (JStr (exn_name error)) (JStr "Error"));
     ("message", JStr (exn_message error));
     ("code", exn_code error)] in
  let errorData :=
    if truthy (exn_data error) then set_field "data" (exn_data error) errorData
    else errorData in
  JObj [("isError", JBool true);
        ("content", JArr [JObj [("type", JStr "text");
                                ("text", text_of (JObj errorData))]])].

Section Handler.

Variable env : Env.

(** [process.env.WECOM_WEBHOOK_KEY || null] *)
Definition DEFAULT_WEBHOOK_KEY : jsval :=
  match WECOM_WEBHOOK_KEY env with
  | Some k => js_or (JStr k) JNull
  | None => JNull
  end.

Definition _getWebhookKey (providedKey : jsval) : M (list call) jsval :=
  let key := js_or providedKey DEFAULT_WEBHOOK_KEY in
  if negb (truthy key) then
    throw (invalid "未提供 webhook_key 参数，且未设置 WECOM_WEBHOOK_KEY 环境变量")
  else ret key.

(** [const client = new WeComClient(key)] *)
Definition new_client (key : jsval) : M (list call) string :=
  match WeComClient.new key with
  | inr client => ret client
  | inl e => throw e
  end.

(** The parameter pattern [{ webhook_key, ... }] of the three handlers:
    binding it to [null] or [undefined] raises before the body runs. *)
Definition destructure {A} (args : jsval) (first : string)
  (body : M (list call) A) : M (list call) A :=
  match args with
  | JUndefined =>
      throw (TypeError ("Cannot destructure property '" ++ first
                          ++ "' of 'undefined' as it is undefined."))
  | JNull =>
      throw (TypeError ("Cannot destructure property '" ++ first
                          ++ "' of 'object null' as it is null."))
  | _ => body
  end.

Definition handleSendMessage (args : jsval) : M (list call) jsval :=
  let webhook_key := get "webhook_key" args in
  let content := get "content" args in
  destructure args "webhook_key"
    (try_catch
       (key <- _getWebhookKey webhook_key ;;
        if negb (truthy content) || negb (is_string content) then
          throw (invalid "content 参数不能为空且必须是字符串")
        else
          client <- new_client key ;;
          result <- WeComClient.sendMarkdownV2 env client content ;;
          ret (_formatSuccess result))
       (fun error => ret (_formatError error))).

Definition handleSendFile (args : jsval) : M (list call) jsval :=
  let webhook_key := get "webhook_key" args in
  let file_path := get "file_path" args in
  destructure args "webhook_key"
    (try_catch
       (key <- _getWebhookKey webhook_key ;;
        if negb (truthy file_path) || negb (is_string file_path) then
          throw (invalid "file_path 参数不能为空且必须是字符串")
        else
          client <- new_client key ;;
          uploadResult <- WeComClient.uploadMedia env client file_path
                            (JStr "file") ;;
          sendResult <- WeComClient.sendFile env client
                          (get "media_id" uploadResult) ;;
          ret (_formatSuccess (JObj [("upload", uploadResult);
                                     ("send", sendResult)])))
       (fun error => ret (_formatError error))).

Definition handleSendImage (args : jsval) : M (list call) jsval :=
  let webhook_key := get "webhook_key" args in
  let image_path := get "image_path" args in
  let image_url := get "image_url" args in
  destructure args "webhook_key"
    (try_catch
       (key <- _getWebhookKey webhook_key ;;
        if negb (truthy image_path) && negb (truthy image_url) then
          throw (invalid "必须提供 image_path 或 image_url 参数")
        else if truthy image_path && truthy image_url then
          throw (invalid "image_path 和 image_url 只能提供一个")
        else
          client <- new_client key ;;
          result <-
            (if truthy image_path then
               WeComClient.sendImage env client image_path
             else if truthy image_url then
               WeComClient.sendImageFromUrl env client image_url
             else ret JUndefined) ;;
          ret (_formatSuccess result))
       (fun error => ret (_formatError error))).

Definition unknown_tool (name : string) : exn :=
  invalid ("未知工具：" ++ name
             ++ "。可用工具：send_message, send_file, send_image").

Definition handle (name args : jsval) : M (list call) jsval :=
  if negb (truthy name) || negb (is_string name) then
    throw (invalid "工具名称必须是有效的字符串")
  else
    match name with
    | JStr n =>
        if String.eqb n "send_message" then handleSendMessage args
        else if String.eqb n "send_file" then handleSendFile args
        else if String.eqb n "send_image" then handleSendImage args
        else throw (unknown_tool n)
    | _ => throw (invalid "工具名称必须是有效的字符串")
    end.

End Handler.

End Tools.

(** ** index.js *)

Module Server.

Definition MCP_VERSION : string := "2024-11-05".

Definition SERVER_INFO : jsval :=
  JObj [("name", JStr "wecom-robot-mcp");
        ("version", JStr "1.0.0");
        ("description", JStr "企业微信机器人 MCP 服务，支持发送消息、文件和图片")].

Definition PARSE_ERROR : Z := -32700.
Definition INVALID_REQUEST : Z := -32600.
Definition METHOD_NOT_FOUND : Z := -32601.
Definition INVALID_PARAMS : Z := -32602.
Definition INTERNAL_ERROR : Z := -32603.

(** The state of an [MCPServer]: its readiness flag, what it has written
    to the standard output, and the network requests made on its behalf. *)
Record state : Type := {
  isInitialized : bool;
  stdout : list string;
  network : list call
}.

Definition lift {A} (m : M (list call) A) : M state A :=
  fun s =>
    let '(r, trace) := m (network s) in
    (r, {| isInitialized := isInitialized s;
           stdout := stdout s;
           network := trace |}).

Definition write_stdout (text : string) : M state unit :=
  fun s =>
    (inr tt, {| isInitialized := isInitialized s;
                stdout := (stdout s ++ [text])%list;
                network := network s |}).

Definition set_initialized : M state unit :=
  fun s =>
    (inr tt, {| isInitialized := true;
                stdout := stdout s;
                network := network s |}).

(** [this.log(message)] writes to the standard error, which is not part
    of the state; the evaluation of its argument is kept where it can
    raise. *)
Definition log (message : string) : M state unit := ret tt.

(** [_truncateString(str, maxLength)]; the argument is [undefined] when
    JSON.stringify returned [undefined]. *)
Definition _truncateString (str : option string) (maxLength : nat)
  : M state string :=
  match str with
  | Some s =>
      if (String.length s <=? maxLength)%nat then ret s
      else ret (substring 0 maxLength s)
  | None => throw (cannot_read "undefined" "length")
  end.

Definition _sendJSON (obj : jsval) : M state unit :=
  let json := JSON.stringify obj in
  write_stdout (match json with Some j => j | None => "undefined" end
                  ++ JSON.newline) ;;
  t <- _truncateString json 100 ;;
  log ("发送响应：" ++ t ++ "...").

Definition response (id result : jsval) : jsval :=
  JObj [("jsonrpc", JStr "2.0"); ("id", id); ("result", result)].

Definition sendResponse (id result : jsval) : M state unit :=
  _sendJSON (response id result).

(** [sendError(id, code, message, data = null)] *)
Definition error_response (id : jsval) (code : Z) (message : string)
  (data : jsval) : jsval :=
  let data := match data with JUndefined => JNull | _ => data end in
  let error := [("code", JNum code); ("message", JStr message)] in
  let error :=
    match data with
    | JNull => error
    | _ => set_field "data" data error
    end in
  JObj [("jsonrpc", JStr "2.0"); ("id", id); ("error", JObj error)].

Definition sendError (id : jsval) (code : Z) (message : string) (data : jsval)
  : M state unit :=
  _sendJSON (error_response id code message data).

Section Router.

Variable env : Env.

Definition handleInitialize (request : jsval) : M state unit :=
  let params := get "params" request in
  let clientInfo :=
    if nullish params then JUndefined else get "clientInfo" params in
  log ("客户端初始化："
         ++ match JSON.stringify (js_or clientInfo (JObj [])) with
            | Some t => t
            | None => "undefined"
            end) ;;
  sendResponse (get "id" request)
    (JObj [("protocolVersion", JStr MCP_VERSION);
           ("capabilities", JObj [("tools", JObj []);
                                  ("resources", JObj []);
                                  ("prompts", JObj [])]);
           ("serverInfo", SERVER_INFO)]).

Definition handleToolsList (request : jsval) : M state unit :=
  let toolsInfo :=
    map (fun tool => JObj [("name", get "name" tool);
                           ("description", get "description" tool);
                           ("inputSchema", get "inputSchema" tool)])
        Tools.tools in
  sendResponse (get "id" request) (JObj [("tools", JArr toolsInfo)]).

Definition handleToolsCall (request : jsval) : M state unit :=
  let params := get "params" request in
  let name := get "name" (js_or params (JObj [])) in
  let args := get "arguments" (js_or params (JObj [])) in
  if negb (truthy name) then
    sendError (get "id" request) INVALID_PARAMS "Invalid params"
              (JStr "缺少工具名称")
  else
    n <- template name ;;
    a <- _truncateString (JSON.stringify args) 200 ;;
    log ("调用工具：" ++ n ++ ", 参数：" ++ a) ;;
    try_catch
      (result <- lift (Tools.handle env name (js_or args (JObj []))) ;;
       sendResponse (get "id" request) result)
      (fun error =>
         log ("工具执行失败：" ++ exn_message error) ;;
         sendError (get "id" request) INTERNAL_ERROR "Tool execution failed"
                   (JStr (exn_message error))).

Definition routeRequest (request : jsval) : M state unit :=
  let method := get "method" request in
  let id := get "id" request in
  m <- template method ;;
  log ("路由请求：method=" ++ m) ;;
  if is_str "initialize" method then handleInitialize request
  else if is_str "initialized" method then
    set_initialized ;; log "客户端已初始化"
  else if is_str "ping" method then sendResponse id (JObj [])
  else if is_str "tools/list" method then handleToolsList request
  else if is_str "tools/call" method then handleToolsCall request
  else if is_str "resources/list" method then
    sendResponse id (JObj [("resources", JArr [])])
  else if is_str "resources/read" method then
    sendError id METHOD_NOT_FOUND "Method not found"
              (JStr "本服务不支持资源读取")
  else if is_str "prompts/list" method then
    sendResponse id (JObj [("prompts", JArr [])])
  else if is_str "prompts/get" method then
    sendError id METHOD_NOT_FOUND "Method not found"
              (JStr "本服务不支持提示功能")
  else
    m <- template method ;;
    log ("未知方法：" ++ m) ;;
    m <- template method ;;
    sendError id METHOD_NOT_FOUND "Method not found" (JStr ("未知方法：" ++ m)).

(** The bytes of the white space and line terminators of ECMAScript, in
    UTF-8: [s.trim()] is empty when [s] consists of them. *)
Fixpoint is_blank (s : string) : bool :=
  match s with
  | EmptyString => true
  | String a rest =>
      let x := nat_of_ascii a in
      if ((x =? 9) || (x =? 10) || (x =? 11) || (x =? 12) || (x =? 13)
          || (x =? 32))%nat then is_blank rest
      else
        match rest with
        | String b rest2 =>
            let y := nat_of_ascii b in
            if ((x =? 194) && (y =? 160))%nat then is_blank rest2
            else
              match rest2 with
              | String c rest3 =>
                  let z := nat_of_ascii c in
                  if (((x =? 225) && (y =? 154) && (z =? 128))
                      || ((x =? 226) && (y =? 128)
                          && ((128 <=? z) && (z <=? 138) || (z =? 168)
                              || (z =? 169) || (z =? 175)))
                      || ((x =? 226) && (y =? 129) && (z =? 159))
                      || ((x =? 227) && (y =? 128) && (z =? 128))
                      || ((x =? 239) && (y =? 187) && (z =? 191)))%nat
                  then is_blank rest3
                  else false
              | EmptyString => false
              end
        | EmptyString => false
        end
  end.

(** [handleLine] from the version check on, for the parsed request. The
    reads [request.jsonrpc] and [request.id] raise on [null]. *)
Definition handleRequest (request : jsval) : M state unit :=
  match request with
  | JNull => throw (cannot_read "null" "jsonrpc")
  | JUndefined => throw (cannot_read "undefined" "jsonrpc")
  | _ =>
      if negb (is_str "2.0" (get "jsonrpc" request)) then
        v <- template (get "jsonrpc" request) ;;
        log ("不支持的 JSON-RPC 版本：" ++ v) ;;
        sendError (get "id" request) INVALID_REQUEST "Invalid Request"
                  (JStr "不支持的 JSON-RPC 版本，仅支持 2.0")
      else
        try_catch (routeRequest request)
          (fun error =>
             log ("请求处理失败：" ++ exn_message error) ;;
             sendError (get "id" request) INTERNAL_ERROR "Internal error"
                       (JStr (exn_message error)))
  end.

(** [handleLine(line)]. An exception it lets through rejects the promise
    of this [async] function, with no handler attached. *)
Definition handleLine (line : string) : M state unit :=
  if is_blank line then ret tt
  else
    t <- _truncateString (Some line) 100 ;;
    log ("收到请求：" ++ t ++ "...") ;;
    match JSON.parse line with
    | None =>
        log ("JSON 解析失败：" ++ syntax_error_message env line) ;;
        sendError JNull PARSE_ERROR "Parse error"
                  (JStr (syntax_error_message env line))
    | Some request => handleRequest request
    end.

End Router.

End Server.

(** ** Fixtures: an environment and requests to run the program on *)

Module Fixtures.

Definition q (s : string) : string := JSON.dquote ++ s ++ JSON.dquote.

(** The remote body [{errcode: 0, errmsg: "ok"}]. *)
Definition ok_body : jsval :=
  JObj [("errcode", JNum 0); ("errmsg", JStr "ok")].

(** The body of a successful upload. *)
Definition uploaded_body : jsval :=
  JObj [("errcode", JNum 0); ("errmsg", JStr "ok"); ("type", JStr "file");
        ("media_id", JStr "3a8asd892asd8asd"); ("created_at", JStr "1380000000")].

Definition bytes (n : Z) : Buffer := repeat Byte.x00 (Z.to_nat n).

(** Files of 5 bytes, of 6 bytes and of one byte more than 20 MB; every
    other path does not resolve. The remote servers accept everything. *)
Definition files (path : string) : (string * string) + Buffer :=
  if String.eqb path "/tmp/five.bin" then inr (bytes 5)
  else if String.eqb path "/tmp/six.bin" then inr (bytes 6)
  else if String.eqb path "/tmp/big.bin" then inr (bytes (20 * 1024 * 1024 + 1))
  else inl ("ENOENT", "ENOENT: no such file or directory, open '" ++ path ++ "'").

Definition world (key : option string) : Env := {|
  WECOM_WEBHOOK_KEY := key;
  readFile := files;
  post_send := fun _ _ _ => Resolved 200 ok_body;
  post_upload := fun _ _ _ _ _ _ => Resolved 200 uploaded_body;
  get_url := fun _ _ => Resolved 200 (bytes 8);
  url_parses := fun _ => true;
  extname := fun _ => ".bin";
  basename := fun _ => "file.bin";
  md5_hex := fun _ => "d41d8cd98f00b204e9800998ecf8427e";
  base64 := fun _ => "AAAAAAAAAAA=";
  syntax_error_message := fun _ => "Unexpected token"
|}.

Definition fresh : Server.state :=
  {| Server.isInitialized := false; Server.stdout := []; Server.network := [] |}.

Definition member (k v : string) : string := q k ++ ":" ++ v.

(** [{"jsonrpc":"1.0","id":2,"method":"ping"}] *)
Definition ping_v1 : string :=
  "{" ++ member "jsonrpc" (q "1.0") ++ "," ++ member "id" "2" ++ ","
      ++ member "method" (q "ping") ++ "}".

(** [{"jsonrpc":"2.0","id":1,"method":"ping"}] *)
Definition ping_v2 : string :=
  "{" ++ member "jsonrpc" (q "2.0") ++ "," ++ member "id" "1" ++ ","
      ++ member "method" (q "ping") ++ "}".

(** [{"jsonrpc":{"toString":1},"id":2,"method":"ping"}] *)
Definition ping_odd_version : string :=
  "{" ++ member "jsonrpc" ("{" ++ member "toString" "1" ++ "}") ++ ","
      ++ member "id" "2" ++ "," ++ member "method" (q "ping") ++ "}".

(** [{"jsonrpc":"2.0","id":1,"method":"tools/call","params":p}] *)
Definition tools_call (p : string) : string :=
  "{" ++ member "jsonrpc" (q "2.0") ++ "," ++ member "id" "1" ++ ","
      ++ member "method" (q "tools/call") ++ "," ++ member "params" p ++ "}".


(** [{"arguments":{"content":"hi"}}] *)
Definition call_unnamed : string :=
  tools_call ("{" ++ member "arguments"
                       ("{" ++ member "content" (q "hi") ++ "}") ++ "}").

(** [{"name":"send_image"}]: no [arguments] member. *)
Definition call_no_arguments : string :=
  tools_call ("{" ++ member "name" (q "send_image") ++ "}").

Fixpoint replicate (n : nat) (c : ascii) : string :=
  match n with
  | O => ""
  | S n' => String c (replicate n' c)
  end.

End Fixtures.

(** ** The vocabulary of the properties *)

(** What the [try]/[catch] of a handler makes of the outcome of the client
    operation it awaits. *)
Definition settled (outcome : (exn + jsval) * list call)
  : (exn + jsval) * list call :=
  match outcome with
  | (inr result, trace) => (inr (Tools._formatSuccess result), trace)
  | (inl error, trace) => (inr (Tools._formatError error), trace)
  end.

(** The request that [sendMessage] posts. *)
Definition send_request (key msgType : string) (content : jsval) : call :=
  PostSend key (JObj (set_field msgType content [("msgtype", JStr msgType)])).

(** A computation that leaves the state as it found it. *)
Definition pure_on {S A} (m : M S A) : Prop := forall s, snd (m s) = s.


(** [post m P E]: whenever [m] returns, its result satisfies [P]; whenever
    it raises, the exception satisfies [E]. *)
Definition post {S A} (m : M S A) (P : A -> Prop) (E : exn -> Prop) : Prop :=
  forall s, match fst (m s) with inr a => P a | inl e => E e end.

Definition is_object (v : jsval) : Prop := exists fs, v = JObj fs.

Definition wecom (e : exn) : Prop := exists c m d, e = WeComError c m d.

Definition anything {A} (_ : A) : Prop := True.
Definition nothing {A} (_ : A) : Prop := False.

(** The uniform envelope: the success form on an object, or the error form
    on a WeComError. *)
Definition is_envelope (v : jsval) : Prop :=
  (exists fs, v = Tools._formatSuccess (JObj fs))
  \/ (exists c m d, v = Tools._formatError (WeComError c m d)).

(** The line that [_sendJSON] writes for [obj]. *)
Definition written (obj : jsval) : string :=
  match JSON.stringify obj with Some j => j | None => "undefined" end
    ++ JSON.newline.

(** The state after one more line on the standard output. *)
Definition emit (text : string) (s : Server.state) : Server.state :=
  {| Server.isInitialized := Server.isInitialized s;
     Server.stdout := (Server.stdout s ++ [text])%list;
     Server.network := Server.network s |}.

(** [obj] is a response, a result or an error, to the identifier [id]. *)
Definition answers (id : jsval) (obj : jsval) : Prop :=
  (exists result, obj = Server.response id result)
  \/ (exists code message data, obj = Server.error_response id code message data).

(** The outcome [out] of a computation started in [s] wrote nothing, or
    returned after writing one response to [id]. *)
Definition one_reply_or_none (id : jsval) (s : Server.state)
  (out : (exn + unit) * Server.state) : Prop :=
  Server.stdout (snd out) = Server.stdout s
  \/ (fst out = inr tt
      /\ exists obj, answers id obj
                     /\ Server.stdout (snd out)
                        = (Server.stdout s ++ [written obj])%list).

(** Two states that differ at most in the flag. *)
Definition agree (s1 s2 : Server.state) : Prop :=
  Server.stdout s1 = Server.stdout s2 /\ Server.network s1 = Server.network s2.

(** A computation that does not read the flag: from states that agree it
    has the same outcome and leaves states that agree. *)
Definition flag_blind {A} (m : M Server.state A) : Prop :=
  forall s1 s2, agree s1 s2 ->
    fst (m s1) = fst (m s2) /\ agree (snd (m s1)) (snd (m s2)).


(** ** Further fixtures and vocabulary *)

Module Worlds.

(** A world with the files of [Fixtures.files] whose three remote
    endpoints give fixed answers and whose paths all have the extension
    [ext]. *)
Definition remote (send upload : axios_result jsval)
  (download : axios_result Buffer) (ext : string) : Env := {|
  WECOM_WEBHOOK_KEY := Some "default-key";
  readFile := Fixtures.files;
  post_send := fun _ _ _ => send;
  post_upload := fun _ _ _ _ _ _ => upload;
  get_url := fun _ _ => download;
  url_parses := fun url => negb (String.eqb url "not a url");
  extname := fun _ => ext;
  basename := fun _ => "file" ++ ext;
  md5_hex := fun _ => "d41d8cd98f00b204e9800998ecf8427e";
  base64 := fun _ => "AAAAAAAAAAA=";
  syntax_error_message := fun _ => "Unexpected token"
|}.

(** The remote refuses with [{errcode: 93000, errmsg: "invalid webhook url"}]. *)
Definition refused_body : jsval :=
  JObj [("errcode", JNum 93000); ("errmsg", JStr "invalid webhook url")].

Definition accepting (ext : string) : Env :=
  remote (Resolved 200 Fixtures.ok_body) (Resolved 200 Fixtures.uploaded_body)
         (Resolved 200 (Fixtures.bytes 8)) ext.

Definition refusing : Env :=
  remote (Resolved 200 refused_body) (Resolved 200 refused_body)
         (Resolved 404 (Fixtures.bytes 0)) ".png".

Definition unreachable : Env :=
  remote (Rejected (Some "ECONNREFUSED") "connect ECONNREFUSED" None)
         (Rejected (Some "ERR_BAD_RESPONSE")
                   "Request failed with status code 500"
                   (Some (500, "Internal Server Error", JStr "")))
         (Rejected (Some "ETIMEDOUT") "timeout of 30000ms exceeded" None)
         ".png".

Definition server_error : Env :=
  remote (Rejected (Some "ERR_BAD_RESPONSE")
                   "Request failed with status code 502"
                   (Some (502, "Bad Gateway", JStr "upstream")))
         (Resolved 200 Fixtures.uploaded_body)
         (Resolved 200 (Fixtures.bytes (2 * 1024 * 1024 + 1))) ".png".

End Worlds.

(** The credential that a request carries: the two webhook requests carry
    one, the download of an image does not. *)
Definition call_key (c : call) : option string :=
  match c with
  | PostSend k _ => Some k
  | PostUpload k _ _ _ _ => Some k
  | GetUrl _ => None
  end.

(** Every credential in the requests [ext] is [k]. *)
Definition keyed (k : jsval) (ext : list call) : Prop :=
  forall c k', In c ext -> call_key c = Some k' -> JStr k' = k.

(** A computation that only appends requests to the trace, each under the
    credential [k]. *)
Definition emits {A} (k : jsval) (m : M (list call) A) : Prop :=
  forall trace,
    exists ext, snd (m trace) = (trace ++ ext)%list /\ keyed k ext.

(** The method names of the [switch] of [routeRequest]. *)
Definition protocol_methods : list string :=
  ["initialize"; "initialized"; "ping"; "tools/list"; "tools/call";
   "resources/list"; "resources/read"; "prompts/list"; "prompts/get"].

(** The characters that can begin a JSON value. *)
Definition starts_value (c : ascii) : bool :=
  let n := nat_of_ascii c in
  ((n =? 110) || (n =? 116) || (n =? 102) || (n =? 34) || (n =? 91)
   || (n =? 123) || (n =? 45) || ((48 <=? n) && (n <=? 57)))%nat.

(** The outcome [out] of a computation started in [s] raised without
    writing, or returned after writing one response to [id]. *)
Definition one_reply_or_raise (id : jsval) (s : Server.state)
  (out : (exn + unit) * Server.state) : Prop :=
  (exists e, fst out = inl e /\ Server.stdout (snd out) = Server.stdout s)
  \/ (fst out = inr tt
      /\ exists obj, answers id obj
                     /\ Server.stdout (snd out)
                        = (Server.stdout s ++ [written obj])%list).

(** A computation that leaves the component [f] of the state as it is. *)
Definition keeps {A X} (f : Server.state -> X) (m : M Server.state A) : Prop :=
  forall s, f (snd (m s)) = f s.

(** A computation that only appends to the network trace. *)
Definition grows {A} (m : M Server.state A) : Prop :=
  forall s, exists ext,
    Server.network (snd (m s)) = (Server.network s ++ ext)%list.

Fixpoint has_newline (s : string) : bool :=
  match s with
  | EmptyString => false
  | String c rest => (nat_of_ascii c =? 10)%nat || has_newline rest
  end.

(** The state with another network trace. *)
Definition with_network (s : Server.state) (trace : list call) : Server.state :=
  {| Server.isInitialized := Server.isInitialized s;
     Server.stdout := Server.stdout s;
     Server.network := trace |}.

(** A value that JSON-RPC admits as an identifier or as a version, or an
    absent one: a string, a boolean, [null], [undefined], or an integer
    that a Number holds exactly. Such a value is converted to text and
    serialized without an exception, whatever the stack. *)
Definition plain (v : jsval) : bool :=
  match v with
  | JArr _ | JObj _ => false
  | JNum n => Z.abs n <=? JSON.MAX_SAFE_INTEGER
  | _ => true
  end.


(** The remote answers every request to the webhook, a message or an
    upload, with the body [{errcode: 0, errmsg: "ok"}]. *)
Definition remote_says_ok (env : Env) : Prop :=
  (forall trace key body,
      exists status,
        post_send env trace key body = Resolved status Fixtures.ok_body)
  /\ (forall trace key type filename mime file,
         exists status,
           post_upload env trace key type filename mime file
           = Resolved status Fixtures.ok_body).

(** The outcome is a success envelope, with no error flag, whose text
    parses as JSON to the result of [sendMessage] on the body
    [{errcode: 0, errmsg: "ok"}]: the body is the [data] member. *)
Definition round_trip (outcome : (exn + jsval) * list call) : Prop :=
  exists text,
    fst outcome
    = inr (JObj [("content", JArr [JObj [("type", JStr "text");
                                         ("text", JStr text)]])])
    /\ JSON.parse text
       = Some (JObj [("success", JBool true);
                     ("message", JStr "消息发送成功");
                     ("data", JObj [("errcode", JNum 0);
                                    ("errmsg", JStr "ok")])]).

(** A world whose remote answers [{errcode: 0, errmsg: "ok"}] to every
    request, the upload included. *)
Definition says_ok : Env :=
  Worlds.remote (Resolved 200 Fixtures.ok_body) (Resolved 200 Fixtures.ok_body)
                (Resolved 200 (Fixtures.bytes 8)) ".png".

(** * Properties *)

(** ** Values *)

Lemma truthy_js_or (a b : jsval) :
  truthy a = false -> js_or a b = b.
Proof. unfold js_or. now intros ->. Qed.

Lemma js_or_truthy (a b : jsval) :
  truthy a = true -> js_or a b = a.
Proof. unfold js_or. now intros ->. Qed.

Lemma truthy_string (s : string) :
  truthy (JStr s) = true <-> s <> "".
Proof.
  simpl. destruct (String.eqb_spec s ""); simpl; split; congruence.
Qed.

Lemma nonempty_string (v : jsval) :
  negb (truthy v) || negb (is_string v) = false ->
  exists c, v = JStr c /\ c <> "".
Proof.
  destruct v; simpl; rewrite ?orb_true_r; try discriminate.
  rewrite orb_false_r. intros H. exists s. split; [reflexivity|].
  apply truthy_string. simpl. now destruct (String.eqb s "").
Qed.

Lemma new_WeComError_string (code : jsval) (message : string) (data : jsval) :
  new_WeComError code (JStr message) data
  = WeComError code message (match data with JUndefined => JObj [] | _ => data end).
Proof. reflexivity. Qed.

Lemma invalid_eq (message : string) :
  invalid message = WeComError (JNum (-1)) message (JObj []).
Proof. reflexivity. Qed.

(** ** The credential *)

Section Credential.

Variable env : Env.

Lemma DEFAULT_WEBHOOK_KEY_cases :
  Tools.DEFAULT_WEBHOOK_KEY env = JNull
  \/ exists k, k <> "" /\ Tools.DEFAULT_WEBHOOK_KEY env = JStr k.
Proof.
  unfold Tools.DEFAULT_WEBHOOK_KEY.
  destruct (WECOM_WEBHOOK_KEY env) as [k|]; [|now left].
  unfold js_or. destruct (truthy (JStr k)) eqn:E; [|now left].
  right. exists k. split; [now apply truthy_string|reflexivity].
Qed.

Lemma resolved_key_truthy (provided : jsval) (k : string) :
  js_or provided (Tools.DEFAULT_WEBHOOK_KEY env) = JStr k -> k <> "".
Proof.
  unfold js_or. destruct (truthy provided) eqn:E.
  - intros ->. now apply truthy_string.
  - destruct DEFAULT_WEBHOOK_KEY_cases as [H|(k' & Hk & H)]; rewrite H.
    + discriminate.
    + intros [= ->]. exact Hk.
Qed.

Lemma _getWebhookKey_missing (provided : jsval) :
  Tools.DEFAULT_WEBHOOK_KEY env = JNull ->
  truthy provided = false ->
  Tools._getWebhookKey env provided
  = throw (invalid "未提供 webhook_key 参数，且未设置 WECOM_WEBHOOK_KEY 环境变量").
Proof.
  intros Hd Hp. unfold Tools._getWebhookKey.
  rewrite (truthy_js_or _ _ Hp), Hd. reflexivity.
Qed.

Lemma _getWebhookKey_resolved (provided : jsval) (k : string) :
  js_or provided (Tools.DEFAULT_WEBHOOK_KEY env) = JStr k ->
  Tools._getWebhookKey env provided = ret (JStr k).
Proof.
  intros H. unfold Tools._getWebhookKey. rewrite H.
  apply resolved_key_truthy, truthy_string in H. now rewrite H.
Qed.

Lemma new_client_string (k : string) :
  k <> "" -> Tools.new_client (JStr k) = ret k.
Proof.
  intros H. unfold Tools.new_client, WeComClient.new.
  apply String.eqb_neq in H. now rewrite H.
Qed.

End Credential.

(** C7. With no default credential configured and no credential in the
    call, each of the three capabilities answers with the error envelope of
    the WeComError (code -1) that names the missing credential, and no
    network request is made: the trace is unchanged. *)
Theorem missing_credential_fails (env : Env) (name : string) (args : jsval)
  (trace : list call) :
  Tools.DEFAULT_WEBHOOK_KEY env = JNull ->
  nullish args = false ->
  truthy (get "webhook_key" args) = false ->
  In name ["send_message"; "send_file"; "send_image"] ->
  Tools.handle env (JStr name) args trace
  = (inr (Tools._formatError
            (WeComError (JNum (-1))
               "未提供 webhook_key 参数，且未设置 WECOM_WEBHOOK_KEY 环境变量"
               (JObj []))),
     trace).
Proof.
  intros Hd Hn Hk Hin.
  assert (Hg := _getWebhookKey_missing env _ Hd Hk).
  simpl in Hin.
  destruct Hin as [<-|[<-|[<-|[]]]]; cbn;
    [unfold Tools.handleSendMessage
    |unfold Tools.handleSendFile
    |unfold Tools.handleSendImage];
    destruct args; try discriminate Hn;
    unfold Tools.destructure, try_catch, bind; rewrite Hg; reflexivity.
Qed.

Lemma missing_credential_fails_witness :
  Tools.handle (Fixtures.world None) (JStr "send_file")
    (JObj [("file_path", JStr "/tmp/six.bin")]) []
  = (inr (Tools._formatError
            (WeComError (JNum (-1))
               "未提供 webhook_key 参数，且未设置 WECOM_WEBHOOK_KEY 环境变量"
               (JObj []))),
     []).
Proof.
  apply (missing_credential_fails (Fixtures.world None) "send_file");
    [reflexivity | reflexivity | reflexivity | simpl; tauto].
Defined.

(** ** The envelope of an outcome *)

Lemma pure_on_ret {S A} (a : A) : pure_on (@ret S A a).
Proof. now intros s. Qed.

Lemma pure_on_throw {S A} (e : exn) : pure_on (@throw S A e).
Proof. now intros s. Qed.

Lemma pure_on_bind {S A B} (m : M S A) (k : A -> M S B) :
  pure_on m -> (forall a, pure_on (k a)) -> pure_on (bind m k).
Proof.
  intros Hm Hk s. unfold bind. specialize (Hm s).
  destruct (m s) as [[e|a] s']; simpl in *; subst; [reflexivity|apply Hk].
Qed.

Lemma pure_on_try_catch {S A} (m : M S A) (h : exn -> M S A) :
  pure_on m -> (forall e, pure_on (h e)) -> pure_on (try_catch m h).
Proof.
  intros Hm Hh s. unfold try_catch. specialize (Hm s).
  destruct (m s) as [[e|a] s']; simpl in *; subst; [apply Hh|reflexivity].
Qed.

Lemma snd_try_catch {S A} (m : M S A) (h : exn -> M S A) (s : S) :
  (forall e, pure_on (h e)) -> snd (try_catch m h s) = snd (m s).
Proof.
  intros Hh. unfold try_catch.
  destruct (m s) as [[e|a] s']; [apply Hh|reflexivity].
Qed.

Lemma snd_bind_pure {S A B} (m : M S A) (k : A -> M S B) (s : S) :
  (forall a, pure_on (k a)) -> snd (bind m k s) = snd (m s).
Proof.
  intros Hk. unfold bind.
  destruct (m s) as [[e|a] s']; [reflexivity|apply Hk].
Qed.

Lemma pure_on_check_errcode (data : jsval) (fallback : string) :
  pure_on (WeComClient.check_errcode data fallback).
Proof.
  unfold WeComClient.check_errcode.
  destruct data; try apply pure_on_throw;
    match goal with
    | |- context [not_zero ?v] => destruct (not_zero v)
    end; first [apply pure_on_throw | apply pure_on_ret].
Qed.

Lemma snd_settle {D} (c : call) (r : axios_result D) (trace : list call) :
  snd (WeComClient.settle c r trace) = (trace ++ [c])%list.
Proof. now destruct r. Qed.

(** [sendMessage] issues exactly one request, whatever its outcome. *)
Lemma sendMessage_trace (env : Env) (key msgType : string) (content : jsval)
  (trace : list call) :
  snd (WeComClient.sendMessage env key msgType content trace)
  = (trace ++ [send_request key msgType content])%list.
Proof.
  unfold WeComClient.sendMessage.
  rewrite snd_try_catch.
  - rewrite snd_bind_pure.
    + apply snd_settle.
    + intros [status data]. apply pure_on_bind.
      * apply pure_on_check_errcode.
      * intros _. apply pure_on_ret.
  - intros e. destruct (is_WeComError e); [apply pure_on_throw|].
    destruct (exn_response e) as [[[st tx] d]|]; apply pure_on_throw.
Qed.

(** C4. [send_image] with both of [image_path] and [image_url] supplied
    (truthy) or neither answers with the error envelope of a WeComError
    with code -1 and makes no network request; with only [image_path] it
    is the envelope of [sendImage] on that path, with only [image_url] the
    envelope of [sendImageFromUrl] on that URL. *)
Theorem send_image_routing (env : Env) (args : jsval) (trace : list call) :
  nullish args = false ->
  let image_path := get "image_path" args in
  let image_url := get "image_url" args in
  (truthy image_path = truthy image_url ->
   exists m,
     Tools.handle env (JStr "send_image") args trace
     = (inr (Tools._formatError (WeComError (JNum (-1)) m (JObj []))), trace))
  /\ (forall k,
        js_or (get "webhook_key" args) (Tools.DEFAULT_WEBHOOK_KEY env) = JStr k ->
        (truthy image_path = true -> truthy image_url = false ->
         Tools.handle env (JStr "send_image") args trace
         = settled (WeComClient.sendImage env k image_path trace))
        /\ (truthy image_path = false -> truthy image_url = true ->
            Tools.handle env (JStr "send_image") args trace
            = settled (WeComClient.sendImageFromUrl env k image_url trace))).
Proof.
  intros Hn image_path image_url.
  assert (Hh : Tools.handle env (JStr "send_image") args trace
               = Tools.handleSendImage env args trace) by reflexivity.
  rewrite Hh. clear Hh.
  assert (Hb : forall A (body : M (list call) A),
             Tools.destructure args "webhook_key" body = body)
    by (intros; destruct args; try discriminate Hn; reflexivity).
  unfold Tools.handleSendImage. rewrite Hb. clear Hb.
  fold image_path image_url. split.
  - intros Hsame. unfold try_catch, bind.
    unfold Tools._getWebhookKey.
    destruct (truthy (js_or (get "webhook_key" args)
                            (Tools.DEFAULT_WEBHOOK_KEY env))); cbn.
    + rewrite Hsame. destruct (truthy image_url); cbn; eexists; reflexivity.
    + eexists; reflexivity.
  - intros k Hk.
    assert (Hne := resolved_key_truthy env _ _ Hk).
    rewrite (_getWebhookKey_resolved env _ _ Hk).
    split; intros Hp Hu; unfold try_catch, bind, ret at 1; rewrite Hp, Hu; cbn;
      rewrite (new_client_string k Hne); unfold ret at 1.
    + destruct (WeComClient.sendImage env k image_path trace) as [[e|r] t];
        reflexivity.
    + destruct (WeComClient.sendImageFromUrl env k image_url trace) as [[e|r] t];
        reflexivity.
Qed.

Lemma send_image_routing_witness :
  exists m,
    Tools.handle (Fixtures.world (Some "key")) (JStr "send_image")
      (JObj [("image_path", JStr "/tmp/six.bin");
             ("image_url", JStr "https://example.com/a.png")]) []
    = (inr (Tools._formatError (WeComError (JNum (-1)) m (JObj []))), []).
Proof.
  apply (send_image_routing (Fixtures.world (Some "key"))
           (JObj [("image_path", JStr "/tmp/six.bin");
                  ("image_url", JStr "https://example.com/a.png")]) []);
    reflexivity.
Defined.

Lemma destructure_body {A} (args : jsval) (first : string)
  (body : M (list call) A) :
  nullish args = false -> Tools.destructure args first body = body.
Proof. intros Hn. destruct args; try discriminate Hn; reflexivity. Qed.

(** A valid content, with the credential resolved, goes to [sendMessage]
    as a [markdown_v2] message. *)
Lemma send_message_forwarded (env : Env) (args : jsval) (trace : list call)
  (c k : string) :
  nullish args = false ->
  get "content" args = JStr c -> c <> "" -> WeComClient.byteLength c <= 4096 ->
  js_or (get "webhook_key" args) (Tools.DEFAULT_WEBHOOK_KEY env) = JStr k ->
  Tools.handle env (JStr "send_message") args trace
  = settled (WeComClient.sendMessage env k "markdown_v2"
               (JObj [("content", JStr c)]) trace).
Proof.
  intros Hn Hc Hne Hlen Hk.
  change (Tools.handle env (JStr "send_message") args trace)
    with (Tools.handleSendMessage env args trace).
  unfold Tools.handleSendMessage. rewrite (destructure_body _ _ _ Hn).
  assert (Hkne := resolved_key_truthy env _ _ Hk).
  rewrite (_getWebhookKey_resolved env _ _ Hk), Hc.
  assert (Hs : WeComClient.sendMarkdownV2 env k (JStr c)
               = WeComClient.sendMessage env k "markdown_v2"
                   (JObj [("content", JStr c)])).
  { unfold WeComClient.sendMarkdownV2.
    apply String.eqb_neq in Hne. rewrite Hne.
    unfold WeComClient.MARKDOWN_MAX_BYTES.
    destruct (Z.gtb_spec (WeComClient.byteLength c) 4096); [lia|reflexivity]. }
  unfold try_catch, bind, ret at 1.
  apply truthy_string in Hne. rewrite Hne. cbv [negb orb is_string].
  rewrite (new_client_string k Hkne). unfold ret. cbv beta iota.
  rewrite Hs.
  destruct (WeComClient.sendMessage env k "markdown_v2" _ trace)
    as [[e|r] t]; reflexivity.
Qed.

(** C3. [send_message] whose content is not a string, is empty, or is
    longer than 4096 bytes in UTF-8 answers with the error envelope of a
    WeComError with code -1, and the trace of network requests is
    unchanged. A content of 1 to 4096 bytes, once the credential is
    resolved, is posted as a [markdown_v2] message: the answer is the
    envelope of that [sendMessage] and the trace grows by that request. *)
Theorem send_message_limit (env : Env) (args : jsval) (trace : list call) :
  nullish args = false ->
  let content := get "content" args in
  ((forall c, content = JStr c ->
              c = "" \/ 4096 < WeComClient.byteLength c) ->
   exists m,
     Tools.handle env (JStr "send_message") args trace
     = (inr (Tools._formatError (WeComError (JNum (-1)) m (JObj []))), trace))
  /\ (forall c k,
        content = JStr c -> c <> "" -> WeComClient.byteLength c <= 4096 ->
        js_or (get "webhook_key" args) (Tools.DEFAULT_WEBHOOK_KEY env) = JStr k ->
        Tools.handle env (JStr "send_message") args trace
        = settled (WeComClient.sendMessage env k "markdown_v2"
                     (JObj [("content", JStr c)]) trace)
        /\ exists v,
            Tools.handle env (JStr "send_message") args trace
            = (inr v,
               (trace ++ [PostSend k
                            (JObj [("msgtype", JStr "markdown_v2");
                                   ("markdown_v2",
                                    JObj [("content", JStr c)])])])%list)).
Proof.
  intros Hn content. split.
  - change (Tools.handle env (JStr "send_message") args trace)
      with (Tools.handleSendMessage env args trace).
    unfold Tools.handleSendMessage. rewrite (destructure_body _ _ _ Hn).
    fold content.
    intros Hbad. unfold try_catch, bind, Tools._getWebhookKey.
    destruct (truthy (js_or (get "webhook_key" args)
                            (Tools.DEFAULT_WEBHOOK_KEY env))) eqn:Hkey; cbn;
      [|eexists; reflexivity].
    destruct (negb (truthy content) || negb (is_string content)) eqn:Hc; cbn;
      [eexists; reflexivity|].
    apply nonempty_string in Hc. destruct Hc as (c & Ec & Hne).
    unfold Tools.new_client.
    destruct (WeComClient.new _) as [e|client] eqn:Hnew; cbn.
    + unfold WeComClient.new in Hnew.
      destruct (js_or _ _); try (injection Hnew as <-; eexists; reflexivity).
      destruct (String.eqb s ""); [injection Hnew as <-; eexists; reflexivity
                                  |discriminate Hnew].
    + rewrite Ec. unfold WeComClient.sendMarkdownV2.
      destruct (Hbad c Ec) as [->|Hlong]; [congruence|].
      destruct (String.eqb c ""); cbn; [eexists; reflexivity|].
      unfold WeComClient.MARKDOWN_MAX_BYTES.
      destruct (Z.gtb_spec (WeComClient.byteLength c) 4096) as [_|Hle];
        [|lia].
      cbn. eexists; reflexivity.
  - intros c k Hc Hne Hlen Hk.
    rewrite (send_message_forwarded env args trace c k Hn Hc Hne Hlen Hk).
    split; [reflexivity|].
    assert (Ht := sendMessage_trace env k "markdown_v2"
                    (JObj [("content", JStr c)]) trace).
    destruct (WeComClient.sendMessage env k "markdown_v2" _ trace)
      as [[e|r] t]; simpl in Ht; subst t; eexists; reflexivity.
Qed.

(** The content of 4097 bytes is refused and nothing is sent. *)
Lemma send_message_limit_witness :
  exists m,
    Tools.handle (Fixtures.world None) (JStr "send_message")
      (JObj [("webhook_key", JStr "key");
             ("content", JStr (Fixtures.replicate 4097 "a"))]) []
    = (inr (Tools._formatError (WeComError (JNum (-1)) m (JObj []))), []).
Proof.
  apply (send_message_limit (Fixtures.world None)
           (JObj [("webhook_key", JStr "key");
                  ("content", JStr (Fixtures.replicate 4097 "a"))]) []);
    [reflexivity|].
  intros c [= <-]. right. vm_compute. reflexivity.
Defined.

(** The content of 4097 bytes, with its message. *)
Example send_message_4097 :
  Tools.handle (Fixtures.world None) (JStr "send_message")
    (JObj [("webhook_key", JStr "key");
           ("content", JStr (Fixtures.replicate 4097 "a"))]) []
  = (inr (Tools._formatError
            (WeComError (JNum (-1))
               "内容长度超出限制：当前 4097 字节，最大 4096 字节" (JObj []))),
     []).
Proof. vm_compute. reflexivity. Qed.

(** The content of 4096 bytes is sent. *)
Example send_message_4096 :
  snd (Tools.handle (Fixtures.world None) (JStr "send_message")
         (JObj [("webhook_key", JStr "key");
                ("content", JStr (Fixtures.replicate 4096 "a"))]) [])
  = [PostSend "key"
       (JObj [("msgtype", JStr "markdown_v2");
              ("markdown_v2",
               JObj [("content", JStr (Fixtures.replicate 4096 "a"))])])].
Proof. vm_compute. reflexivity. Qed.

(** ** uploadMedia *)

Section Upload.

Variable env : Env.

(** The size limits are stored under the upper-case names of the kinds,
    and [uploadMedia] looks its limit up under the kind itself. *)
Lemma limit_of_kind (t : string) :
  t = "file" \/ t = "voice" ->
  WeComClient.index WeComClient.FILE_SIZE_LIMITS t = None.
Proof. now intros [-> | ->]. Qed.

Lemma limits_declared :
  WeComClient.index WeComClient.FILE_SIZE_LIMITS "FILE" = Some (20 * 1024 * 1024)
  /\ WeComClient.index WeComClient.FILE_SIZE_LIMITS "VOICE" = Some (2 * 1024 * 1024).
Proof. now split. Qed.

Lemma uploadMedia_kind (key path t : string) :
  path <> "" -> t = "file" \/ t = "voice" ->
  WeComClient.uploadMedia env key (JStr path) (JStr t)
  = try_catch (WeComClient.uploadMedia_body env key path t)
      (fun error =>
         if is_WeComError error then throw error
         else if is_str "ENOENT" (exn_code error) then
           throw (invalid ("文件不存在：" ++ path))
         else
           throw (new_WeComError (JNum (-1))
                    (JStr ("文件上传失败：" ++ exn_message error))
                    (JObj [("originalError", JStr (exn_message error))]))).
Proof.
  intros Hp Ht. unfold WeComClient.uploadMedia.
  apply String.eqb_neq in Hp. rewrite Hp.
  destruct Ht as [-> | ->]; reflexivity.
Qed.

(** A file of at most 5 bytes is refused before any request. *)
Lemma uploadMedia_too_small (key path t : string) (file : Buffer)
  (trace : list call) :
  path <> "" -> t = "file" \/ t = "voice" ->
  readFile env path = inr file ->
  buf_length file <= 5 ->
  WeComClient.uploadMedia env key (JStr path) (JStr t) trace
  = (inl (WeComError (JNum (-1)) "文件大小必须大于 5 字节" (JObj [])), trace).
Proof.
  intros Hp Ht Hr Hs. rewrite (uploadMedia_kind key path t Hp Ht).
  unfold try_catch, WeComClient.uploadMedia_body, bind, WeComClient._readFile.
  rewrite Hr. unfold ret at 1.
  destruct (Z.leb_spec (buf_length file) 5); [reflexivity|lia].
Qed.

(** A path that does not resolve is reported as a missing file. *)
Lemma uploadMedia_missing (key path t message : string) (trace : list call) :
  path <> "" -> t = "file" \/ t = "voice" ->
  readFile env path = inl ("ENOENT", message) ->
  WeComClient.uploadMedia env key (JStr path) (JStr t) trace
  = (inl (WeComError (JNum (-1)) ("文件不存在：" ++ path) (JObj [])), trace).
Proof.
  intros Hp Ht Hr. rewrite (uploadMedia_kind key path t Hp Ht).
  unfold try_catch, WeComClient.uploadMedia_body, bind, WeComClient._readFile.
  rewrite Hr. reflexivity.
Qed.

(** Every file of more than 5 bytes is uploaded, whatever its size: no
    upper limit applies. When the remote answers [errcode: 0] the result
    carries its [media_id]. *)
Lemma uploadMedia_accepted (key path t : string) (file : Buffer)
  (trace : list call) (status : Z) (data : jsval) :
  path <> "" -> t = "file" \/ t = "voice" ->
  readFile env path = inr file ->
  5 < buf_length file ->
  post_upload env trace key t (basename env path)
    (WeComClient._getMimeType env path) file = Resolved status data ->
  get "errcode" data = JNum 0 ->
  WeComClient.uploadMedia env key (JStr path) (JStr t) trace
  = (inr (JObj [("success", JBool true);
                ("message", JStr "文件上传成功");
                ("media_id", get "media_id" data);
                ("type", get "type" data);
                ("created_at", get "created_at" data)]),
     (trace ++ [PostUpload key t (basename env path)
                  (WeComClient._getMimeType env path) file])%list).
Proof.
  intros Hp Ht Hr Hs Hpost Hcode. rewrite (uploadMedia_kind key path t Hp Ht).
  unfold try_catch, WeComClient.uploadMedia_body, bind, WeComClient._readFile.
  rewrite Hr. unfold ret at 1.
  destruct (Z.leb_spec (buf_length file) 5); [lia|].
  rewrite (limit_of_kind t Ht). unfold WeComClient.gt.
  unfold WeComClient.axios_post_upload. rewrite Hpost.
  unfold WeComClient.settle, WeComClient.check_errcode.
  destruct data; try discriminate Hcode.
  rewrite Hcode. reflexivity.
Qed.

End Upload.

Lemma buf_length_bytes (n : Z) :
  0 <= n -> buf_length (Fixtures.bytes n) = n.
Proof.
  intros H. unfold buf_length, Fixtures.bytes.
  rewrite repeat_length. now apply Z2Nat.id.
Qed.

(** C2, the 5-byte and the 6-byte file: the first is refused without a
    request, the second is uploaded and its media identifier returned. *)
Lemma uploadMedia_five_and_six :
  WeComClient.uploadMedia (Fixtures.world None) "key"
    (JStr "/tmp/five.bin") (JStr "file") []
  = (inl (WeComError (JNum (-1)) "文件大小必须大于 5 字节" (JObj [])), [])
  /\ exists result trace,
      WeComClient.uploadMedia (Fixtures.world None) "key"
        (JStr "/tmp/six.bin") (JStr "file") [] = (inr result, trace)
      /\ get "media_id" result = JStr "3a8asd892asd8asd".
Proof.
  split.
  - apply uploadMedia_too_small with (file := Fixtures.bytes 5);
      [discriminate | now left | reflexivity | now rewrite buf_length_bytes].
  - eexists. eexists. split.
    + apply uploadMedia_accepted with (file := Fixtures.bytes 6)
                                      (status := 200)
                                      (data := Fixtures.uploaded_body);
        [discriminate | now left | reflexivity
        | now rewrite buf_length_bytes | reflexivity | reflexivity].
    + reflexivity.
Qed.

(** C2, the upper limit: a file of 20 MB and one byte, of kind [file], is
    not refused. It is sent to the upload endpoint and the call returns the
    media identifier of the remote answer. *)
Theorem uploadMedia_oversized_file_is_uploaded :
  5 < buf_length (Fixtures.bytes (20 * 1024 * 1024 + 1))
  /\ WeComClient.gt (buf_length (Fixtures.bytes (20 * 1024 * 1024 + 1)))
       (Some (20 * 1024 * 1024)) = true
  /\ WeComClient.uploadMedia (Fixtures.world None) "key"
       (JStr "/tmp/big.bin") (JStr "file") []
     = (inr (JObj [("success", JBool true);
                   ("message", JStr "文件上传成功");
                   ("media_id", JStr "3a8asd892asd8asd");
                   ("type", JStr "file");
                   ("created_at", JStr "1380000000")]),
        [PostUpload "key" "file" "file.bin" (Some "application/octet-stream")
           (Fixtures.bytes (20 * 1024 * 1024 + 1))]).
Proof.
  assert (Hlen : buf_length (Fixtures.bytes (20 * 1024 * 1024 + 1))
                 = 20 * 1024 * 1024 + 1)
    by (apply buf_length_bytes; lia).
  split; [rewrite Hlen; lia|]. split; [rewrite Hlen; reflexivity|].
  apply (uploadMedia_accepted (Fixtures.world None) "key" "/tmp/big.bin" "file"
           (Fixtures.bytes (20 * 1024 * 1024 + 1)) [] 200 Fixtures.uploaded_body);
    [discriminate | now left | reflexivity | rewrite Hlen; lia
    | reflexivity | reflexivity].
Qed.


(** ** Outcomes of the client and of the dispatcher *)

Lemma post_ret {S A} (a : A) (P : A -> Prop) (E : exn -> Prop) :
  P a -> post (@ret S A a) P E.
Proof. intros H s. exact H. Qed.

Lemma post_throw {S A} (e : exn) (P : A -> Prop) (E : exn -> Prop) :
  E e -> post (@throw S A e) P E.
Proof. intros H s. exact H. Qed.

Lemma post_bind {S A B} (m : M S A) (k : A -> M S B)
  (Q : A -> Prop) (P : B -> Prop) (E : exn -> Prop) :
  post m Q E -> (forall a, Q a -> post (k a) P E) -> post (bind m k) P E.
Proof.
  intros Hm Hk s. unfold bind. specialize (Hm s).
  destruct (m s) as [[e|a] s']; simpl in *; [exact Hm|].
  apply (Hk a Hm s').
Qed.

Lemma post_try_catch {S A} (m : M S A) (h : exn -> M S A)
  (P : A -> Prop) (E : exn -> Prop) :
  post m P anything -> (forall e, post (h e) P E) -> post (try_catch m h) P E.
Proof.
  intros Hm Hh s. unfold try_catch. specialize (Hm s).
  destruct (m s) as [[e|a] s']; simpl in *; [apply (Hh e s')|exact Hm].
Qed.

Lemma post_try_catch_with {S A} (m : M S A) (h : exn -> M S A)
  (P : A -> Prop) (E' E : exn -> Prop) :
  post m P E' -> (forall e, E' e -> post (h e) P E) ->
  post (try_catch m h) P E.
Proof.
  intros Hm Hh s. unfold try_catch. specialize (Hm s).
  destruct (m s) as [[e|a] s']; simpl in *; [apply (Hh e Hm s')|exact Hm].
Qed.

Lemma post_run {S A} (m : M S A) (P : A -> Prop) (s : S) :
  post m P nothing -> exists a s', m s = (inr a, s') /\ P a.
Proof.
  intros Hm. specialize (Hm s).
  destruct (m s) as [[e|a] s']; simpl in *; [contradiction|].
  now exists a, s'.
Qed.

Lemma post_weaken {S A} (m : M S A) (P : A -> Prop) (E E' : exn -> Prop) :
  (forall e, E e -> E' e) -> post m P E -> post m P E'.
Proof.
  intros HE Hm s. specialize (Hm s).
  destruct (fst (m s)); [now apply HE|exact Hm].
Qed.

Lemma wecom_invalid (message : string) : wecom (invalid message).
Proof. now exists (JNum (-1)), message, (JObj []). Qed.

Lemma wecom_new (code : jsval) (message : string) (data : jsval) :
  wecom (new_WeComError code (JStr message) data).
Proof. rewrite new_WeComError_string. now eexists _, _, _. Qed.

Lemma wecom_is (e : exn) : is_WeComError e = true -> wecom e.
Proof. destruct e; try discriminate. intros _. now eexists _, _, _. Qed.

Create HintDb wecom.
#[local] Hint Resolve wecom_invalid wecom_new : wecom.

Section ClientOutcomes.

Variable env : Env.

(** The three [catch] blocks of the client re-raise a WeComError and wrap
    everything else in one. *)
Ltac rewrap :=
  let e := fresh "e" in
  intros e; destruct (is_WeComError e) eqn:?;
  [apply post_throw; now apply wecom_is|];
  repeat match goal with
    | |- context [match exn_response ?x with _ => _ end] =>
        destruct (exn_response x) as [[[? ?] ?]|]
    | |- context [if is_str ?c ?x then _ else _] => destruct (is_str c x)
    end;
  apply post_throw; auto with wecom.

Lemma sendMessage_outcome (key msgType : string) (content : jsval) :
  post (WeComClient.sendMessage env key msgType content) is_object wecom.
Proof.
  unfold WeComClient.sendMessage. apply post_try_catch; [|rewrap].
  apply post_bind with (Q := anything); [now intros s; destruct (fst _)|].
  intros [status data] _.
  apply post_bind with (Q := anything); [now intros s; destruct (fst _)|].
  intros _ _. apply post_ret. now eexists.
Qed.

Lemma sendMarkdownV2_outcome (key : string) (content : jsval) :
  post (WeComClient.sendMarkdownV2 env key content) is_object wecom.
Proof.
  unfold WeComClient.sendMarkdownV2.
  destruct content; try (apply post_throw; auto with wecom).
  destruct (String.eqb s ""); [apply post_throw; auto with wecom|].
  destruct (_ >? _); [apply post_throw; auto with wecom|].
  apply sendMessage_outcome.
Qed.

Lemma sendFile_outcome (key : string) (mediaId : jsval) :
  post (WeComClient.sendFile env key mediaId) is_object wecom.
Proof.
  unfold WeComClient.sendFile.
  destruct mediaId; try (apply post_throw; auto with wecom).
  destruct (String.eqb s ""); [apply post_throw; auto with wecom|].
  apply sendMessage_outcome.
Qed.

Lemma uploadMedia_outcome (key : string) (filePath type : jsval) :
  post (WeComClient.uploadMedia env key filePath type) is_object wecom.
Proof.
  unfold WeComClient.uploadMedia.
  destruct filePath; try (apply post_throw; auto with wecom).
  destruct (String.eqb s ""); [apply post_throw; auto with wecom|].
  destruct (match type with JUndefined => JStr "file" | _ => type end);
    try (apply post_throw; apply wecom_invalid).
  destruct (WeComClient.includes _ _); [|apply post_throw; apply wecom_invalid].
  apply post_try_catch; [|rewrap].
  unfold WeComClient.uploadMedia_body.
  apply post_bind with (Q := anything); [now intros s1; destruct (fst _)|].
  intros fileBuffer _.
  destruct (_ <=? 5); [now apply post_throw|].
  destruct (WeComClient.gt _ _); [now apply post_throw|].
  apply post_bind with (Q := anything); [now intros s1; destruct (fst _)|].
  intros [status data] _.
  apply post_bind with (Q := anything); [now intros s1; destruct (fst _)|].
  intros _ _. apply post_ret. now eexists.
Qed.

Lemma sendImage_outcome (key : string) (imagePath : jsval) :
  post (WeComClient.sendImage env key imagePath) is_object wecom.
Proof.
  unfold WeComClient.sendImage.
  destruct imagePath; try (apply post_throw; auto with wecom).
  destruct (String.eqb s ""); [apply post_throw; auto with wecom|].
  apply post_bind with (Q := anything); [|intros; apply sendMessage_outcome].
  apply post_try_catch; [now intros s1; destruct (fst _)|rewrap].
Qed.

Lemma sendImageFromUrl_outcome (key : string) (imageUrl : jsval) :
  post (WeComClient.sendImageFromUrl env key imageUrl) is_object wecom.
Proof.
  unfold WeComClient.sendImageFromUrl.
  destruct imageUrl; try (apply post_throw; auto with wecom).
  destruct (String.eqb s ""); [apply post_throw; auto with wecom|].
  destruct (negb (url_parses env s)); [apply post_throw; auto with wecom|].
  apply post_bind with (Q := anything); [|intros; apply sendMessage_outcome].
  apply post_try_catch; [now intros s1; destruct (fst _)|rewrap].
Qed.

End ClientOutcomes.

Section DispatcherOutcomes.

Variable env : Env.

Lemma _getWebhookKey_outcome (provided : jsval) :
  post (Tools._getWebhookKey env provided) anything wecom.
Proof.
  unfold Tools._getWebhookKey.
  destruct (negb _); [apply post_throw; auto with wecom|now apply post_ret].
Qed.

Lemma new_client_outcome (key : jsval) :
  post (Tools.new_client key) anything wecom.
Proof.
  unfold Tools.new_client, WeComClient.new.
  destruct key; try (apply post_throw; auto with wecom).
  destruct (String.eqb s ""); [apply post_throw; auto with wecom|].
  now apply post_ret.
Qed.

Lemma envelope_of_object (result : jsval) :
  is_object result -> is_envelope (Tools._formatSuccess result).
Proof. intros [fs ->]. left. now exists fs. Qed.

Lemma envelope_of_wecom (e : exn) :
  wecom e -> is_envelope (Tools._formatError e).
Proof. intros (c & m & d & ->). right. now exists c, m, d. Qed.

(** The [try]/[catch] of a handler turns a body that raises only
    WeComErrors into a computation that returns envelopes and never
    raises. *)
Lemma caught (body : M (list call) jsval) :
  post body is_envelope wecom ->
  post (try_catch body (fun error => ret (Tools._formatError error)))
       is_envelope nothing.
Proof.
  intros Hb. apply post_try_catch_with with (E' := wecom); [exact Hb|].
  intros e He. apply post_ret. now apply envelope_of_wecom.
Qed.

Lemma handleSendMessage_outcome (args : jsval) :
  nullish args = false ->
  post (Tools.handleSendMessage env args) is_envelope nothing.
Proof.
  intros Hn. unfold Tools.handleSendMessage.
  rewrite (destructure_body _ _ _ Hn). apply caught.
  apply post_bind with (Q := anything); [apply _getWebhookKey_outcome|].
  intros key _.
  destruct (_ || _); [apply post_throw; auto with wecom|].
  apply post_bind with (Q := anything); [apply new_client_outcome|].
  intros client _.
  apply post_bind with (Q := is_object); [apply sendMarkdownV2_outcome|].
  intros result Hr. apply post_ret. now apply envelope_of_object.
Qed.

Lemma handleSendFile_outcome (args : jsval) :
  nullish args = false ->
  post (Tools.handleSendFile env args) is_envelope nothing.
Proof.
  intros Hn. unfold Tools.handleSendFile.
  rewrite (destructure_body _ _ _ Hn). apply caught.
  apply post_bind with (Q := anything); [apply _getWebhookKey_outcome|].
  intros key _.
  destruct (_ || _); [apply post_throw; auto with wecom|].
  apply post_bind with (Q := anything); [apply new_client_outcome|].
  intros client _.
  apply post_bind with (Q := is_object); [apply uploadMedia_outcome|].
  intros uploadResult _.
  apply post_bind with (Q := is_object); [apply sendFile_outcome|].
  intros sendResult _. apply post_ret. apply envelope_of_object. now eexists.
Qed.

Lemma handleSendImage_outcome (args : jsval) :
  nullish args = false ->
  post (Tools.handleSendImage env args) is_envelope nothing.
Proof.
  intros Hn. unfold Tools.handleSendImage.
  rewrite (destructure_body _ _ _ Hn). apply caught.
  apply post_bind with (Q := anything); [apply _getWebhookKey_outcome|].
  intros key _.
  destruct (truthy (get "image_path" args)) eqn:Hp;
    destruct (truthy (get "image_url" args)) eqn:Hu; cbv [negb andb];
    try (apply post_throw; auto with wecom);
    (apply post_bind with (Q := anything); [apply new_client_outcome|]);
    intros client _;
    (apply post_bind with (Q := is_object);
     [first [apply sendImage_outcome | apply sendImageFromUrl_outcome]|]);
    intros result Hr; apply post_ret; now apply envelope_of_object.
Qed.

Lemma handle_known_outcome (name : string) (args : jsval) :
  nullish args = false ->
  In name ["send_message"; "send_file"; "send_image"] ->
  post (Tools.handle env (JStr name) args) is_envelope nothing.
Proof.
  intros Hn [<-|[<-|[<-|[]]]].
  - now apply handleSendMessage_outcome.
  - now apply handleSendFile_outcome.
  - now apply handleSendImage_outcome.
Qed.

Lemma handle_unknown (name : string) (args : jsval) (trace : list call) :
  name <> "" ->
  ~ In name ["send_message"; "send_file"; "send_image"] ->
  Tools.handle env (JStr name) args trace
  = (inl (Tools.unknown_tool name), trace).
Proof.
  intros Hne Hnot. unfold Tools.handle.
  apply truthy_string in Hne. rewrite Hne. cbv [negb orb is_string].
  destruct (String.eqb_spec name "send_message") as [->|_];
    [exfalso; apply Hnot; simpl; tauto|].
  destruct (String.eqb_spec name "send_file") as [->|_];
    [exfalso; apply Hnot; simpl; tauto|].
  destruct (String.eqb_spec name "send_image") as [->|_];
    [exfalso; apply Hnot; simpl; tauto|].
  reflexivity.
Qed.

End DispatcherOutcomes.

(** ** The router *)


Lemma serialize_object (gap indent : string) (fs : list (string * jsval)) :
  exists t, JSON.serialize gap indent (JObj fs) = Some t.
Proof.
  simpl.
  match goal with
  | |- context [match ?x with [] => _ | _ => _ end] => destruct x
  end; [now eexists|].
  destruct (String.eqb gap ""); now eexists.
Qed.

Lemma serialize_defined (gap indent : string) (v : jsval) :
  v <> JUndefined -> exists t, JSON.serialize gap indent v = Some t.
Proof.
  intros Hv. destruct v; try congruence; try (now eexists).
  - destruct b; now eexists.
  - simpl.
    match goal with
    | |- context [match ?x with [] => _ | _ => _ end] => destruct x
    end; [now eexists|].
    destruct (String.eqb gap ""); now eexists.
  - apply serialize_object.
Qed.

Lemma _sendJSON_object (fs : list (string * jsval)) (s : Server.state) :
  Server._sendJSON (JObj fs) s = (inr tt, emit (written (JObj fs)) s).
Proof.
  unfold Server._sendJSON, written, bind, Server.write_stdout.
  destruct (serialize_object "" "" fs) as [t Ht].
  unfold JSON.stringify. rewrite Ht.
  unfold Server._truncateString.
  destruct (_ <=? _)%nat; reflexivity.
Qed.

Lemma sendResponse_run (id result : jsval) (s : Server.state) :
  Server.sendResponse id result s
  = (inr tt, emit (written (Server.response id result)) s).
Proof. apply _sendJSON_object. Qed.

Lemma sendError_run (id : jsval) (code : Z) (message : string) (data : jsval)
  (s : Server.state) :
  Server.sendError id code message data s
  = (inr tt, emit (written (Server.error_response id code message data)) s).
Proof. apply _sendJSON_object. Qed.

Lemma template_string {S} (t : string) : @template S (JStr t) = ret t.
Proof. reflexivity. Qed.

Lemma template_cases {S} (v : jsval) :
  (exists t, ToString v = Some t /\ @template S v = ret t)
  \/ (ToString v = None /\ @template S v = throw cannot_convert).
Proof.
  unfold template. destruct (ToString v) as [t|]; [left; now exists t|now right].
Qed.

Lemma get_of_string (k : string) (request : jsval) (t : string) :
  get k request = JStr t -> exists fs, request = JObj fs.
Proof. destruct request; try discriminate. intros _. now eexists. Qed.

(** *** A version other than "2.0" *)

(** A request whose version is not "2.0" and can be written as text is
    answered with Invalid Request under its identifier, and nothing is
    routed. *)
Lemma invalid_version_rejected (env : Env) (request : jsval) (t : string)
  (s : Server.state) :
  nullish request = false ->
  get "jsonrpc" request <> JStr "2.0" ->
  ToString (get "jsonrpc" request) = Some t ->
  Server.handleRequest env request s
  = (inr tt,
     emit (written (Server.error_response (get "id" request)
                      Server.INVALID_REQUEST "Invalid Request"
                      (JStr "不支持的 JSON-RPC 版本，仅支持 2.0"))) s).
Proof.
  intros Hn Hv Ht.
  assert (Hs : is_str "2.0" (get "jsonrpc" request) = false).
  { destruct (get "jsonrpc" request); try reflexivity.
    simpl. destruct (String.eqb_spec s0 "2.0"); congruence. }
  unfold Server.handleRequest.
  destruct request; try discriminate Hn; rewrite Hs; cbv [negb];
    unfold bind, template; rewrite Ht; unfold ret at 1, Server.log, ret at 1;
    apply sendError_run.
Qed.

(** C5, the scenario: the line [{"jsonrpc":"1.0","id":2,"method":"ping"}]
    is answered with the Invalid Request code under the identifier 2. *)
Lemma ping_v1_rejected (env : Env) (s : Server.state) :
  JSON.parse Fixtures.ping_v1
  = Some (JObj [("jsonrpc", JStr "1.0"); ("id", JNum 2);
                ("method", JStr "ping")])
  /\ Server.INVALID_REQUEST = -32600
  /\ Server.handleLine env Fixtures.ping_v1 s
     = (inr tt,
        emit (written (Server.error_response (JNum 2) Server.INVALID_REQUEST
                         "Invalid Request"
                         (JStr "不支持的 JSON-RPC 版本，仅支持 2.0"))) s).
Proof.
  assert (Hp : JSON.parse Fixtures.ping_v1
               = Some (JObj [("jsonrpc", JStr "1.0"); ("id", JNum 2);
                             ("method", JStr "ping")]))
    by (vm_compute; reflexivity).
  split; [exact Hp|]. split; [reflexivity|].
  unfold Server.handleLine. rewrite Hp.
  replace (Server.is_blank Fixtures.ping_v1) with false by (now vm_compute).
  unfold bind, Server._truncateString.
  assert (Hv : get "jsonrpc" (JObj [("jsonrpc", JStr "1.0"); ("id", JNum 2);
                                    ("method", JStr "ping")]) <> JStr "2.0")
    by discriminate.
  destruct (_ <=? _)%nat; unfold ret at 1, Server.log, ret at 1;
    exact (invalid_version_rejected env
             (JObj [("jsonrpc", JStr "1.0"); ("id", JNum 2);
                    ("method", JStr "ping")]) "1.0" s eq_refl Hv eq_refl).
Qed.

(** The two scenarios as lines of text:
    [{"jsonrpc":"2.0","id":1,"method":"ping"}] is answered with
    [{"jsonrpc":"2.0","id":1,"result":{}}], and the version "1.0" with the
    error line of code -32600 and id 2. *)
Example ping_lines :
  Server.stdout
    (snd (Server.handleLine (Fixtures.world None) Fixtures.ping_v2
            Fixtures.fresh))
  = ["{" ++ Fixtures.member "jsonrpc" (Fixtures.q "2.0") ++ ","
         ++ Fixtures.member "id" "1" ++ ","
         ++ Fixtures.member "result" "{}" ++ "}" ++ JSON.newline]
  /\ Server.stdout
       (snd (Server.handleLine (Fixtures.world None) Fixtures.ping_v1
               Fixtures.fresh))
     = ["{" ++ Fixtures.member "jsonrpc" (Fixtures.q "2.0") ++ ","
            ++ Fixtures.member "id" "2" ++ ","
            ++ Fixtures.member "error"
                 ("{" ++ Fixtures.member "code" "-32600" ++ ","
                      ++ Fixtures.member "message" (Fixtures.q "Invalid Request")
                      ++ ","
                      ++ Fixtures.member "data"
                           (Fixtures.q "不支持的 JSON-RPC 版本，仅支持 2.0")
                      ++ "}")
            ++ "}" ++ JSON.newline].
Proof. split; vm_compute; reflexivity. Qed.

(** C5, a version that cannot be written as text: on the line
    [{"jsonrpc":{"toString":1},"id":2,"method":"ping"}] the log message of
    the version check raises a TypeError before [sendError] is reached.
    Nothing is written to the standard output and [handleLine] lets the
    exception through. The line [null] fails in the same way, on the read
    of [request.jsonrpc]. *)
Theorem odd_version_not_answered :
  JSON.parse Fixtures.ping_odd_version
  = Some (JObj [("jsonrpc", JObj [("toString", JNum 1)]); ("id", JNum 2);
                ("method", JStr "ping")])
  /\ Server.handleLine (Fixtures.world None) Fixtures.ping_odd_version
       Fixtures.fresh
     = (inl (TypeError "Cannot convert object to primitive value"),
        Fixtures.fresh)
  /\ Server.handleLine (Fixtures.world None) "null" Fixtures.fresh
     = (inl (TypeError "Cannot read properties of null (reading 'jsonrpc')"),
        Fixtures.fresh).
Proof. repeat split; vm_compute; reflexivity. Qed.

(** *** A blank line is not JSON *)

Lemma ascii_of_code (a : ascii) (n : nat) :
  nat_of_ascii a = n -> a = ascii_of_nat n.
Proof. intros <-. symmetry. apply ascii_nat_embedding. Qed.

Lemma blank_head (c : ascii) (rest : string) :
  Server.is_blank (String c rest) = true ->
  In (nat_of_ascii c) [9; 10; 11; 12; 13; 32; 194; 225; 226; 227; 239]%nat.
Proof.
  cbn [Server.is_blank]. set (x := nat_of_ascii c).
  destruct (Nat.eqb_spec x 9) as [->|_]; [simpl; tauto|].
  destruct (Nat.eqb_spec x 10) as [->|_]; [simpl; tauto|].
  destruct (Nat.eqb_spec x 11) as [->|_]; [simpl; tauto|].
  destruct (Nat.eqb_spec x 12) as [->|_]; [simpl; tauto|].
  destruct (Nat.eqb_spec x 13) as [->|_]; [simpl; tauto|].
  destruct (Nat.eqb_spec x 32) as [->|_]; [simpl; tauto|].
  cbv [orb].
  destruct rest as [|b rest2]; [discriminate|].
  destruct (Nat.eqb_spec x 194) as [->|_]; [simpl; tauto|].
  cbv [andb].
  destruct rest2 as [|d rest3]; [discriminate|].
  destruct (Nat.eqb_spec x 225) as [->|_]; [simpl; tauto|].
  destruct (Nat.eqb_spec x 226) as [->|_]; [simpl; tauto|].
  destruct (Nat.eqb_spec x 227) as [->|_]; [simpl; tauto|].
  destruct (Nat.eqb_spec x 239) as [->|_]; [simpl; tauto|].
  discriminate.
Qed.

Lemma blank_skip_ws (s : string) :
  Server.is_blank s = true -> Server.is_blank (JSON.skip_ws s) = true.
Proof.
  induction s as [|a s IH]; [trivial|].
  cbn [JSON.skip_ws]. destruct (JSON.is_ws a) eqn:E; [|trivial].
  intros H. apply IH. revert H.
  unfold JSON.is_ws in E. apply orb_true_iff in E.
  destruct E as [E|E]; [apply orb_true_iff in E; destruct E as [E|E];
                        [apply orb_true_iff in E; destruct E as [E|E]|]|];
    apply Nat.eqb_eq, ascii_of_code in E; subst a; trivial.
Qed.

Lemma blank_not_json (line : string) :
  Server.is_blank line = true -> JSON.parse line = None.
Proof.
  intros H. apply blank_skip_ws in H. unfold JSON.parse.
  replace (2 * String.length line + 2)%nat
    with (S (2 * String.length line + 1)) by lia.
  cbn [JSON.read_value].
  destruct (JSON.skip_ws line) as [|c rest]; [reflexivity|].
  apply blank_head in H. simpl in H.
  repeat (destruct H as [H|H];
          [symmetry in H; apply ascii_of_code in H; subst c; reflexivity|]).
  contradiction.
Qed.

Lemma parsed_line (env : Env) (line : string) (request : jsval) :
  JSON.parse line = Some request ->
  Server.handleLine env line = Server.handleRequest env request.
Proof.
  intros Hp. unfold Server.handleLine.
  destruct (Server.is_blank line) eqn:Hb;
    [apply blank_not_json in Hb; congruence|].
  rewrite Hp. unfold bind, Server._truncateString.
  destruct (_ <=? _)%nat; reflexivity.
Qed.

(** *** tools/call *)

Lemma routeRequest_tools_call (env : Env) (request : jsval) :
  get "method" request = JStr "tools/call" ->
  Server.routeRequest env request = Server.handleToolsCall env request.
Proof.
  intros Hm. unfold Server.routeRequest. rewrite Hm. reflexivity.
Qed.

Lemma handleRequest_v2 (env : Env) (request : jsval) :
  get "jsonrpc" request = JStr "2.0" ->
  Server.handleRequest env request
  = try_catch (Server.routeRequest env request)
      (fun error =>
         Server.log ("请求处理失败：" ++ exn_message error) ;;
         Server.sendError (get "id" request) Server.INTERNAL_ERROR
           "Internal error" (JStr (exn_message error))).
Proof.
  intros Hv. destruct (get_of_string _ _ _ Hv) as [fs ->].
  unfold Server.handleRequest. rewrite Hv. reflexivity.
Qed.

Lemma name_of_params (params : jsval) :
  get "name" (js_or params (JObj [])) = get "name" params.
Proof.
  unfold js_or. destruct params; simpl; try reflexivity;
    [destruct b | destruct (n =? 0) | destruct (String.eqb s "")]; reflexivity.
Qed.

Lemma arguments_of_params (params : jsval) :
  get "arguments" (js_or params (JObj [])) = get "arguments" params.
Proof.
  unfold js_or. destruct params; simpl; try reflexivity;
    [destruct b | destruct (n =? 0) | destruct (String.eqb s "")]; reflexivity.
Qed.

(** C10. A [tools/call] request whose parameters carry no tool name (the
    name is omitted, or empty, or the parameters are absent) is answered
    with the Invalid Params error, code -32602, under the identifier of the
    request. Only that line is written: the network trace and the flag are
    as before and the outcome does not depend on the dispatcher. *)
Theorem tools_call_without_name (env : Env) (line : string) (request : jsval)
  (s : Server.state) :
  JSON.parse line = Some request ->
  get "jsonrpc" request = JStr "2.0" ->
  get "method" request = JStr "tools/call" ->
  truthy (get "name" (get "params" request)) = false ->
  Server.handleLine env line s
  = (inr tt,
     emit (written (Server.error_response (get "id" request) (-32602)
                      "Invalid params" (JStr "缺少工具名称"))) s).
Proof.
  intros Hp Hv Hm Hname.
  rewrite (parsed_line env line request Hp), (handleRequest_v2 env request Hv).
  rewrite (routeRequest_tools_call env request Hm).
  unfold try_catch, Server.handleToolsCall.
  rewrite name_of_params, Hname. cbv [negb].
  rewrite sendError_run. reflexivity.
Qed.

Lemma tools_call_without_name_witness :
  Server.handleLine (Fixtures.world None) Fixtures.call_unnamed Fixtures.fresh
  = (inr tt,
     emit (written (Server.error_response (JNum 1) (-32602)
                      "Invalid params" (JStr "缺少工具名称"))) Fixtures.fresh).
Proof.
  apply (tools_call_without_name (Fixtures.world None) Fixtures.call_unnamed
           (JObj [("jsonrpc", JStr "2.0"); ("id", JNum 1);
                  ("method", JStr "tools/call");
                  ("params",
                   JObj [("arguments", JObj [("content", JStr "hi")])])])
           Fixtures.fresh);
    [vm_compute; reflexivity | reflexivity | reflexivity | reflexivity].
Defined.


(** *** The identifier of a response *)

Lemma reply_result (id result : jsval) (s : Server.state) :
  one_reply_or_none id s (Server.sendResponse id result s).
Proof.
  rewrite sendResponse_run. right. split; [reflexivity|].
  exists (Server.response id result). split; [left; now eexists|reflexivity].
Qed.

Lemma reply_error (id : jsval) (code : Z) (message : string) (data : jsval)
  (s : Server.state) :
  one_reply_or_none id s (Server.sendError id code message data s).
Proof.
  rewrite sendError_run. right. split; [reflexivity|].
  exists (Server.error_response id code message data).
  split; [right; now eexists _, _, _|reflexivity].
Qed.

Lemma reply_none (id : jsval) (s : Server.state) (r : exn + unit) :
  one_reply_or_none id s (r, s).
Proof. now left. Qed.

Section Replies.

Variable env : Env.

Lemma handleToolsCall_replies (request : jsval) (s : Server.state) :
  one_reply_or_none (get "id" request) s (Server.handleToolsCall env request s).
Proof.
  unfold Server.handleToolsCall.
  destruct (negb _); [apply reply_error|].
  unfold bind at 1.
  destruct (@template_cases Server.state
              (get "name" (js_or (get "params" request) (JObj []))))
    as [(t & _ & ->)|(_ & ->)]; [|apply reply_none].
  unfold ret at 1, bind at 1, Server._truncateString.
  destruct (JSON.stringify _) as [a|]; [|apply reply_none].
  assert (Hrun : forall A (k : A -> M Server.state unit) (a : A),
             one_reply_or_none (get "id" request) s (k a s) ->
             one_reply_or_none (get "id" request) s
               (match ret a s with
                | (inr x, s') => k x s'
                | (inl e, s') => (inl e, s')
                end)) by (intros; assumption).
  destruct (_ <=? _)%nat; apply Hrun; unfold bind at 1, Server.log, ret at 1;
    unfold try_catch, bind at 1, Server.lift;
    destruct (Tools.handle env _ _ (Server.network s)) as [[e|result] trace].
  all: first
         [ rewrite sendResponse_run
         | unfold bind, ret at 1; rewrite sendError_run ];
    right; (split; [reflexivity|]);
    eexists; (split; [|reflexivity]);
    first [left; now eexists | right; now eexists _, _, _].
Qed.

Lemma routeRequest_replies (request : jsval) (s : Server.state) :
  one_reply_or_none (get "id" request) s (Server.routeRequest env request s).
Proof.
  unfold Server.routeRequest, bind at 1.
  destruct (@template_cases Server.state (get "method" request))
    as [(t & Ht & ->)|(_ & ->)]; [|apply reply_none].
  unfold ret at 1, bind at 1, Server.log at 1, ret at 1.
  destruct (is_str "initialize" _).
  { unfold Server.handleInitialize, bind, Server.log, ret at 1.
    apply reply_result. }
  destruct (is_str "initialized" _).
  { unfold bind, Server.set_initialized, Server.log, ret. now left. }
  destruct (is_str "ping" _); [apply reply_result|].
  destruct (is_str "tools/list" _).
  { unfold Server.handleToolsList. apply reply_result. }
  destruct (is_str "tools/call" _); [apply handleToolsCall_replies|].
  destruct (is_str "resources/list" _); [apply reply_result|].
  destruct (is_str "resources/read" _); [apply reply_error|].
  destruct (is_str "prompts/list" _); [apply reply_result|].
  destruct (is_str "prompts/get" _); [apply reply_error|].
  unfold bind, Server.log, ret. cbv beta iota.
  apply reply_error.
Qed.

Lemma handleRequest_replies (request : jsval) (s : Server.state) :
  get "jsonrpc" request = JStr "2.0" ->
  exists s',
    Server.handleRequest env request s = (inr tt, s')
    /\ one_reply_or_none (get "id" request) s (inr tt, s').
Proof.
  intros Hv. rewrite (handleRequest_v2 env request Hv).
  assert (Hr := routeRequest_replies request s).
  unfold try_catch.
  destruct (Server.routeRequest env request s) as [[e|[]] s1].
  - destruct Hr as [Hr|[Hr _]]; [|discriminate Hr]. simpl in Hr.
    unfold bind, Server.log, ret at 1. rewrite sendError_run.
    eexists. split; [reflexivity|]. right. split; [reflexivity|].
    eexists. split; [right; now eexists _, _, _|].
    simpl. now rewrite Hr.
  - exists s1. split; [reflexivity|exact Hr].
Qed.

End Replies.

(** [{"jsonrpc":"2.0","method":"ping"}] *)
Example ping_without_id_is_answered :
  Server.stdout
    (snd (Server.handleLine (Fixtures.world None)
            ("{" ++ Fixtures.member "jsonrpc" (Fixtures.q "2.0") ++ ","
                 ++ Fixtures.member "method" (Fixtures.q "ping") ++ "}")
            Fixtures.fresh))
  = ["{" ++ Fixtures.member "jsonrpc" (Fixtures.q "2.0") ++ ","
         ++ Fixtures.member "result" "{}" ++ "}" ++ JSON.newline].
Proof. vm_compute. reflexivity. Qed.


(** *** The readiness flag *)

Lemma blind_ret {A} (a : A) : flag_blind (ret a).
Proof. intros s1 s2 H. now split. Qed.

Lemma blind_throw {A} (e : exn) : flag_blind (@throw _ A e).
Proof. intros s1 s2 H. now split. Qed.

Lemma blind_bind {A B} (m : M Server.state A) (k : A -> M Server.state B) :
  flag_blind m -> (forall a, flag_blind (k a)) -> flag_blind (bind m k).
Proof.
  intros Hm Hk s1 s2 H. unfold bind. destruct (Hm s1 s2 H) as [Hr Hs].
  destruct (m s1) as [[e1|a1] t1], (m s2) as [[e2|a2] t2]; simpl in *;
    try discriminate.
  - injection Hr as <-. now split.
  - injection Hr as <-. now apply Hk.
Qed.

Lemma blind_try_catch {A} (m : M Server.state A)
  (h : exn -> M Server.state A) :
  flag_blind m -> (forall e, flag_blind (h e)) -> flag_blind (try_catch m h).
Proof.
  intros Hm Hh s1 s2 H. unfold try_catch. destruct (Hm s1 s2 H) as [Hr Hs].
  destruct (m s1) as [[e1|a1] t1], (m s2) as [[e2|a2] t2]; simpl in *;
    try discriminate.
  - injection Hr as <-. now apply Hh.
  - now split.
Qed.

Lemma blind_lift {A} (m : M (list call) A) : flag_blind (Server.lift m).
Proof.
  intros s1 s2 [Ho Hn]. unfold Server.lift. rewrite Hn.
  destruct (m (Server.network s2)) as [r trace]. simpl.
  split; [reflexivity|]. now split.
Qed.

Lemma blind_write_stdout (text : string) : flag_blind (Server.write_stdout text).
Proof.
  intros s1 s2 [Ho Hn]. unfold Server.write_stdout. simpl.
  split; [reflexivity|]. split; simpl; congruence.
Qed.

Lemma blind_set_initialized : flag_blind Server.set_initialized.
Proof. intros s1 s2 [Ho Hn]. now repeat split. Qed.

Lemma blind_log (message : string) : flag_blind (Server.log message).
Proof. apply blind_ret. Qed.

Lemma blind_template (v : jsval) : flag_blind (template v).
Proof.
  unfold template. destruct (ToString v); [apply blind_ret|apply blind_throw].
Qed.

Lemma blind__truncateString (str : option string) (n : nat) :
  flag_blind (Server._truncateString str n).
Proof.
  unfold Server._truncateString.
  destruct str; [destruct (_ <=? _)%nat; apply blind_ret|apply blind_throw].
Qed.

Lemma blind__sendJSON (obj : jsval) : flag_blind (Server._sendJSON obj).
Proof.
  unfold Server._sendJSON.
  apply blind_bind; [apply blind_write_stdout|intros _].
  apply blind_bind; [apply blind__truncateString|intros t]. apply blind_log.
Qed.

Lemma blind_sendResponse (id result : jsval) :
  flag_blind (Server.sendResponse id result).
Proof. apply blind__sendJSON. Qed.

Lemma blind_sendError (id : jsval) (code : Z) (message : string)
  (data : jsval) : flag_blind (Server.sendError id code message data).
Proof. apply blind__sendJSON. Qed.

Section Blind.

Variable env : Env.

Lemma blind_handleToolsCall (request : jsval) :
  flag_blind (Server.handleToolsCall env request).
Proof.
  unfold Server.handleToolsCall.
  destruct (negb _); [apply blind_sendError|].
  apply blind_bind; [apply blind_template|intros n].
  apply blind_bind; [apply blind__truncateString|intros a].
  apply blind_bind; [apply blind_log|intros _].
  apply blind_try_catch.
  - apply blind_bind; [apply blind_lift|intros result].
    apply blind_sendResponse.
  - intros e. apply blind_bind; [apply blind_log|intros _].
    apply blind_sendError.
Qed.

Lemma blind_routeRequest (request : jsval) :
  flag_blind (Server.routeRequest env request).
Proof.
  unfold Server.routeRequest.
  apply blind_bind; [apply blind_template|intros m].
  apply blind_bind; [apply blind_log|intros _].
  destruct (is_str "initialize" _).
  { unfold Server.handleInitialize.
    apply blind_bind; [apply blind_log|intros _]. apply blind_sendResponse. }
  destruct (is_str "initialized" _).
  { apply blind_bind; [apply blind_set_initialized|intros _]. apply blind_log. }
  destruct (is_str "ping" _); [apply blind_sendResponse|].
  destruct (is_str "tools/list" _).
  { unfold Server.handleToolsList. apply blind_sendResponse. }
  destruct (is_str "tools/call" _); [apply blind_handleToolsCall|].
  destruct (is_str "resources/list" _); [apply blind_sendResponse|].
  destruct (is_str "resources/read" _); [apply blind_sendError|].
  destruct (is_str "prompts/list" _); [apply blind_sendResponse|].
  destruct (is_str "prompts/get" _); [apply blind_sendError|].
  apply blind_bind; [apply blind_template|intros m1].
  apply blind_bind; [apply blind_log|intros _].
  apply blind_bind; [apply blind_template|intros m2].
  apply blind_sendError.
Qed.

Lemma blind_handleRequest (request : jsval) :
  flag_blind (Server.handleRequest env request).
Proof.
  assert (Hbody :
            flag_blind
              (if negb (is_str "2.0" (get "jsonrpc" request)) then
                 v <- template (get "jsonrpc" request) ;;
                 Server.log ("不支持的 JSON-RPC 版本：" ++ v) ;;
                 Server.sendError (get "id" request) Server.INVALID_REQUEST
                   "Invalid Request"
                   (JStr "不支持的 JSON-RPC 版本，仅支持 2.0")
               else
                 try_catch (Server.routeRequest env request)
                   (fun error =>
                      Server.log ("请求处理失败：" ++ exn_message error) ;;
                      Server.sendError (get "id" request) Server.INTERNAL_ERROR
                        "Internal error" (JStr (exn_message error))))).
  { destruct (negb _).
    - apply blind_bind; [apply blind_template|intros v].
      apply blind_bind; [apply blind_log|intros _]. apply blind_sendError.
    - apply blind_try_catch; [apply blind_routeRequest|intros e].
      apply blind_bind; [apply blind_log|intros _]. apply blind_sendError. }
  unfold Server.handleRequest.
  destruct request; first [apply blind_throw | exact Hbody].
Qed.

Lemma blind_handleLine (line : string) :
  flag_blind (Server.handleLine env line).
Proof.
  unfold Server.handleLine.
  destruct (Server.is_blank line); [apply blind_ret|].
  apply blind_bind; [apply blind__truncateString|intros t].
  apply blind_bind; [apply blind_log|intros _].
  destruct (JSON.parse line) as [request|].
  - apply blind_handleRequest.
  - apply blind_bind; [apply blind_log|intros _]. apply blind_sendError.
Qed.

End Blind.

(** C9. The readiness flag is advisory: a line handled before and after
    the flag is set has the same outcome, writes the same lines to the
    standard output and makes the same network requests. *)
Theorem readiness_flag_is_advisory (env : Env) (line : string)
  (out : list string) (net : list call) :
  let before :=
    Server.handleLine env line
      {| Server.isInitialized := false;
         Server.stdout := out; Server.network := net |} in
  let after :=
    Server.handleLine env line
      {| Server.isInitialized := true;
         Server.stdout := out; Server.network := net |} in
  fst before = fst after
  /\ Server.stdout (snd before) = Server.stdout (snd after)
  /\ Server.network (snd before) = Server.network (snd after).
Proof.
  intros before after.
  destruct (blind_handleLine env line
              {| Server.isInitialized := false;
                 Server.stdout := out; Server.network := net |}
              {| Server.isInitialized := true;
                 Server.stdout := out; Server.network := net |})
    as [Hr [Ho Hn]]; [now split|].
  now repeat split.
Qed.

(** The [initialized] notification itself writes nothing and sets the
    flag. *)
Lemma initialized_sets_flag (env : Env) (request : jsval)
  (ready : bool) (out : list string) (net : list call) :
  get "jsonrpc" request = JStr "2.0" ->
  get "method" request = JStr "initialized" ->
  Server.handleRequest env request
    {| Server.isInitialized := ready;
       Server.stdout := out; Server.network := net |}
  = (inr tt, {| Server.isInitialized := true;
                Server.stdout := out; Server.network := net |}).
Proof.
  intros Hv Hm. rewrite (handleRequest_v2 env request Hv).
  unfold try_catch, Server.routeRequest. rewrite Hm. reflexivity.
Qed.

(** ** The dispatcher and the envelope *)



(** The error envelope of a WeComError, written out: the wrapped object
    has the members [error], [message], [code] and, when the data of the
    error is truthy, [data]. *)
Lemma _formatError_wecom (c : jsval) (m : string) (d : jsval) :
  Tools._formatError (WeComError c m d)
  = JObj [("isError", JBool true);
          ("content",
           JArr [JObj [("type", JStr "text");
                       ("text",
                        Tools.text_of
                          (JObj (if truthy d
                                 then [("error", JStr "WeComError");
                                       ("message", JStr m); ("code", c);
                                       ("data", d)]
                                 else [("error", JStr "WeComError");
                                       ("message", JStr m); ("code", c)])))]])].
Proof.
  unfold Tools._formatError. cbn [exn_data exn_name exn_message exn_code].
  now destruct (truthy d).
Qed.




(** A [tools/call] whose parameters name a capability and carry no
    [arguments] member does not reach the dispatcher: the log message of
    [handleToolsCall] applies [_truncateString] to the [undefined] that
    JSON.stringify returns, which raises, and [handleLine] answers with
    the Internal error. *)
Lemma call_without_arguments :
  Server.handleLine (Fixtures.world None) Fixtures.call_no_arguments
    Fixtures.fresh
  = (inr tt,
     emit (written
             (Server.error_response (JNum 1) (-32603) "Internal error"
                (JStr "Cannot read properties of undefined (reading 'length')")))
          Fixtures.fresh).
Proof. vm_compute. reflexivity. Qed.

(** * Further properties *)

(** ** The generic send path *)

Lemma not_zero_false (v : jsval) : not_zero v = false <-> v = JNum 0.
Proof.
  destruct v; simpl; split; try discriminate; try congruence.
  - destruct (Z.eqb_spec n 0); [now subst|discriminate].
  - intros [= ->]. reflexivity.
Qed.

Lemma get_number_object (k : string) (data : jsval) (n : Z) :
  get k data = JNum n -> exists fs, data = JObj fs.
Proof. destruct data; try discriminate. intros _. now eexists. Qed.

Lemma keep_data (data : jsval) :
  nullish data = false ->
  match data with JUndefined => JObj [] | _ => data end = data.
Proof. now destruct data. Qed.

Section SendPath.

Variable env : Env.

(** What [sendMessage] does after the answer of the remote. *)
Lemma sendMessage_resolved (key msgType : string) (content : jsval)
  (trace : list call) (status : Z) (data : jsval) :
  post_send env trace key
    (JObj (set_field msgType content [("msgtype", JStr msgType)]))
  = Resolved status data ->
  WeComClient.sendMessage env key msgType content trace
  = try_catch
      (WeComClient.check_errcode data "发送消息失败" ;;
       ret (JObj [("success", JBool true);
                  ("message", JStr "消息发送成功");
                  ("data", data)]))
      (fun error =>
         if is_WeComError error then throw error
         else
           match exn_response error with
           | Some (status, statusText, data) =>
               throw (new_WeComError (JNum status)
                        (JStr ("API 响应错误：" ++ string_of_Z status ++ " "
                                 ++ statusText))
                        (JObj [("status", JNum status); ("data", data)]))
           | None =>
               throw (new_WeComError (JNum (-1))
                        (JStr ("网络请求失败：" ++ exn_message error))
                        (JObj [("originalError", JStr (exn_message error))]))
           end)
      (trace ++ [send_request key msgType content])%list.
Proof.
  intros Hpost.
  unfold WeComClient.sendMessage, try_catch, bind at 1,
    WeComClient.axios_post_send.
  rewrite Hpost. reflexivity.
Qed.

Lemma sendMessage_rejected (key msgType : string) (content : jsval)
  (trace : list call) (code : option string) (message : string)
  (response : option (Z * string * jsval)) :
  post_send env trace key
    (JObj (set_field msgType content [("msgtype", JStr msgType)]))
  = Rejected code message response ->
  WeComClient.sendMessage env key msgType content trace
  = (inl (match response with
          | Some (status, statusText, data) =>
              WeComError (JNum status)
                ("API 响应错误：" ++ string_of_Z status ++ " " ++ statusText)
                (JObj [("status", JNum status); ("data", data)])
          | None =>
              WeComError (JNum (-1)) ("网络请求失败：" ++ message)
                (JObj [("originalError", JStr message)])
          end),
     (trace ++ [send_request key msgType content])%list).
Proof.
  intros Hpost.
  unfold WeComClient.sendMessage, try_catch, bind at 1,
    WeComClient.axios_post_send.
  rewrite Hpost. unfold WeComClient.settle.
  destruct response as [[[status statusText] data]|]; reflexivity.
Qed.

End SendPath.

(** X1. [sendMessage] returns exactly when the remote answers with a body
    whose [errcode] is the number 0; the result then wraps that body. An
    [errcode] that is absent, a string or any other value is a failure. *)
Theorem sendMessage_succeeds_iff (env : Env) (key msgType : string)
  (content : jsval) (trace : list call) (result : jsval) :
  fst (WeComClient.sendMessage env key msgType content trace) = inr result
  <-> exists status data,
        post_send env trace key
          (JObj (set_field msgType content [("msgtype", JStr msgType)]))
        = Resolved status data
        /\ get "errcode" data = JNum 0
        /\ result = JObj [("success", JBool true);
                          ("message", JStr "消息发送成功");
                          ("data", data)].
Proof.
  destruct (post_send env trace key
              (JObj (set_field msgType content [("msgtype", JStr msgType)])))
    as [status data|code message response] eqn:Hpost.
  - rewrite (sendMessage_resolved env key msgType content trace status data Hpost).
    unfold try_catch, bind, WeComClient.check_errcode.
    destruct (not_zero (get "errcode" data)) eqn:Hz.
    + assert (Hne : get "errcode" data <> JNum 0)
        by (intros H; apply not_zero_false in H; congruence).
      split.
      * intros H. exfalso. revert H.
        destruct data; simpl; try discriminate;
          destruct (new_WeComError _ _ _); simpl; try discriminate;
          match goal with
          | |- context [match ?r with Some _ => _ | None => _ end] =>
              destruct r as [[[? ?] ?]|]
          end; discriminate.
      * intros (st & d & [= <- <-] & Hc & _). contradiction.
    + apply not_zero_false in Hz.
      destruct (get_number_object _ _ _ Hz) as [fs ->].
      simpl. split.
      * intros [= <-]. now exists status, (JObj fs).
      * intros (st & d & [= <- <-] & _ & ->). reflexivity.
  - rewrite (sendMessage_rejected env key msgType content trace _ _ _ Hpost).
    simpl. split; [discriminate|].
    intros (st & d & Hd & _). discriminate Hd.
Qed.

Lemma sendMessage_succeeds_iff_witness :
  fst (WeComClient.sendMessage (Worlds.accepting ".png") "key" "file"
         (JObj [("media_id", JStr "m1")]) [])
  = inr (JObj [("success", JBool true);
               ("message", JStr "消息发送成功");
               ("data", Fixtures.ok_body)]).
Proof.
  apply (proj2 (sendMessage_succeeds_iff (Worlds.accepting ".png") "key" "file"
                  (JObj [("media_id", JStr "m1")]) [] _)).
  exists 200, Fixtures.ok_body. repeat split; reflexivity.
Defined.

(** X2. A body with an [errcode] other than 0 is raised as a WeComError
    that carries that code, the [errmsg] of the body (the fallback text when
    it has none) and the whole body as its data; the request has been
    made. *)
Theorem remote_error_is_reported (env : Env) (key msgType : string)
  (content : jsval) (trace : list call) (status : Z) (data : jsval)
  (message : string) :
  post_send env trace key
    (JObj (set_field msgType content [("msgtype", JStr msgType)]))
  = Resolved status data ->
  nullish data = false ->
  get "errcode" data <> JNum 0 ->
  ToString (js_or (get "errmsg" data) (JStr "发送消息失败")) = Some message ->
  WeComClient.sendMessage env key msgType content trace
  = (inl (WeComError (get "errcode" data) message data),
     (trace ++ [send_request key msgType content])%list).
Proof.
  intros Hpost Hn Hcode Hmsg.
  rewrite (sendMessage_resolved env key msgType content trace status data Hpost).
  assert (Hz : not_zero (get "errcode" data) = true).
  { destruct (not_zero (get "errcode" data)) eqn:E; [reflexivity|].
    apply not_zero_false in E. contradiction. }
  unfold try_catch, bind, WeComClient.check_errcode.
  destruct data; try discriminate Hn; rewrite Hz;
    unfold new_WeComError; rewrite Hmsg; reflexivity.
Qed.

Lemma remote_error_is_reported_witness :
  WeComClient.sendMessage Worlds.refusing "key" "markdown_v2"
    (JObj [("content", JStr "hi")]) []
  = (inl (WeComError (JNum 93000) "invalid webhook url" Worlds.refused_body),
     [send_request "key" "markdown_v2" (JObj [("content", JStr "hi")])]).
Proof.
  apply (remote_error_is_reported Worlds.refusing "key" "markdown_v2"
           (JObj [("content", JStr "hi")]) [] 200 Worlds.refused_body
           "invalid webhook url");
    [reflexivity | reflexivity | discriminate | reflexivity].
Defined.

(** X3. A failure of the transport is raised as a WeComError too: with the
    HTTP status as its code when the server answered, with the code -1 and
    the original message when it did not. *)
Theorem transport_failure_is_wrapped (env : Env) (key msgType : string)
  (content : jsval) (trace : list call) (code : option string)
  (message : string) (response : option (Z * string * jsval)) :
  post_send env trace key
    (JObj (set_field msgType content [("msgtype", JStr msgType)]))
  = Rejected code message response ->
  WeComClient.sendMessage env key msgType content trace
  = (inl (match response with
          | Some (status, statusText, data) =>
              WeComError (JNum status)
                ("API 响应错误：" ++ string_of_Z status ++ " " ++ statusText)
                (JObj [("status", JNum status); ("data", data)])
          | None =>
              WeComError (JNum (-1)) ("网络请求失败：" ++ message)
                (JObj [("originalError", JStr message)])
          end),
     (trace ++ [send_request key msgType content])%list).
Proof. apply sendMessage_rejected. Qed.

Lemma transport_failure_is_wrapped_witness :
  WeComClient.sendMessage Worlds.server_error "key" "markdown_v2"
    (JObj [("content", JStr "hi")]) []
  = (inl (WeComError (JNum 502) "API 响应错误：502 Bad Gateway"
            (JObj [("status", JNum 502); ("data", JStr "upstream")])),
     [send_request "key" "markdown_v2" (JObj [("content", JStr "hi")])]).
Proof.
  apply (transport_failure_is_wrapped Worlds.server_error "key" "markdown_v2"
           (JObj [("content", JStr "hi")]) []
           (Some "ERR_BAD_RESPONSE") "Request failed with status code 502"
           (Some (502, "Bad Gateway", JStr "upstream"))).
  reflexivity.
Defined.

(** ** The requests of the client operations *)

Lemma too_large_message :
  WeComClient.image_too_large
  = WeComError (JNum (-1)) "图片大小超出限制：最大 2MB" (JObj []).
Proof. reflexivity. Qed.

Lemma image_limit (n : Z) :
  WeComClient.gt n (WeComClient.index WeComClient.FILE_SIZE_LIMITS "IMAGE")
  = (2 * 1024 * 1024 <? n).
Proof. reflexivity. Qed.

Section Requests.

Variable env : Env.

(** X4. [sendImage] makes a request only for a file that it could read,
    whose extension (compared in lower case) is jpg, jpeg or png and whose
    size is at most 2 MB; the request is then the one [image] message with
    the Base64 text and the MD5 of the bytes read. In every other case the
    trace is unchanged. *)
Theorem sendImage_requests (key : string) (imagePath : jsval)
  (trace : list call) :
  snd (WeComClient.sendImage env key imagePath trace) = trace
  \/ exists path file,
      imagePath = JStr path
      /\ readFile env path = inr file
      /\ In (WeComClient.toLowerCase (WeComClient.slice1 (extname env path)))
            ["jpg"; "jpeg"; "png"]
      /\ buf_length file <= 2 * 1024 * 1024
      /\ WeComClient.sendImage env key imagePath trace
         = WeComClient.sendMessage env key "image"
             (JObj [("base64", JStr (base64 env file));
                    ("md5", JStr (md5_hex env file))]) trace
      /\ snd (WeComClient.sendImage env key imagePath trace)
         = (trace ++ [PostSend key
                        (JObj [("msgtype", JStr "image");
                               ("image",
                                JObj [("base64", JStr (base64 env file));
                                      ("md5", JStr (md5_hex env file))])])])%list.
Proof.
  remember (WeComClient.sendImage env key imagePath trace) as out eqn:Hout.
  unfold WeComClient.sendImage in Hout.
  destruct imagePath as [| |b|n|path|l|fs]; try (subst out; now left).
  destruct (String.eqb path ""); [subst out; now left|].
  unfold bind at 1, try_catch, bind at 1, WeComClient._readFile in Hout.
  destruct (readFile env path) as [[code message]|file] eqn:Hread.
  - left. subst out. unfold throw at 1.
    cbv beta iota. destruct (is_WeComError _); [reflexivity|].
    destruct (is_str "ENOENT" _); reflexivity.
  - unfold ret at 1 in Hout. cbv beta iota in Hout.
    destruct (WeComClient.includes WeComClient.SUPPORTED_IMAGE_FORMATS _)
      eqn:Hext; cbv [negb] in Hout; [|subst out; now left].
    rewrite image_limit in Hout.
    destruct (Z.ltb_spec (2 * 1024 * 1024) (buf_length file)) as [Hbig|Hok];
      [subst out; now left|].
    unfold ret at 1 in Hout. cbv beta iota in Hout.
    right. exists path, file. subst out.
    repeat split; try assumption.
    + unfold WeComClient.includes in Hext. simpl in Hext.
      rewrite !orb_true_iff in Hext.
      destruct Hext as [H|[H|[H|H]]]; try discriminate;
        apply String.eqb_eq in H; rewrite H; simpl; tauto.
    + apply (sendMessage_trace env key "image"
               (WeComClient.image_content env file) trace).
Qed.

(** X5. [sendImageFromUrl] makes no request for an argument that is not
    a non-empty string or that does not parse as a URL. For every other
    argument it downloads: the download is its first request, and it is
    followed by one post to the webhook, of the downloaded bytes, exactly
    when the download resolved with status 200 and at most 2 MB. *)
Theorem sendImageFromUrl_requests (key : string) (imageUrl : jsval)
  (trace : list call) :
  let out := snd (WeComClient.sendImageFromUrl env key imageUrl trace) in
  ((forall url, imageUrl = JStr url ->
                url = "" \/ url_parses env url = false) ->
   out = trace)
  /\ (forall url,
        imageUrl = JStr url -> url <> "" -> url_parses env url = true ->
        (exists data,
            get_url env trace url = Resolved 200 data
            /\ buf_length data <= 2 * 1024 * 1024
            /\ out
               = (trace ++ [GetUrl url;
                            PostSend key
                              (JObj [("msgtype", JStr "image");
                                     ("image",
                                      JObj [("base64", JStr (base64 env data));
                                            ("md5", JStr (md5_hex env data))])])])%list)
        \/ ((forall data,
                get_url env trace url = Resolved 200 data ->
                2 * 1024 * 1024 < buf_length data)
            /\ out = (trace ++ [GetUrl url])%list)).
Proof.
  intros out. split.
  - intros Hbad. unfold out, WeComClient.sendImageFromUrl.
    destruct imageUrl as [| |b|n|url|l|fs]; try reflexivity.
    destruct (String.eqb_spec url "") as [_|Hne]; [reflexivity|].
    destruct (Hbad url eq_refl) as [He|Hp]; [contradiction|].
    rewrite Hp. reflexivity.
  - intros url -> Hne Hurl.
    remember (WeComClient.sendImageFromUrl env key (JStr url) trace)
      as run eqn:Hrun.
    unfold WeComClient.sendImageFromUrl in Hrun.
    destruct (String.eqb_spec url "") as [He|_]; [contradiction|].
    rewrite Hurl in Hrun. cbv [negb] in Hrun.
    unfold bind at 1, try_catch, bind at 1, WeComClient.axios_get in Hrun.
    destruct (get_url env trace url) as [status data|code message response]
      eqn:Hget; unfold WeComClient.settle in Hrun.
    + destruct (Z.eqb_spec status 200) as [->|Hst]; cbv iota in Hrun.
      * rewrite image_limit in Hrun.
        destruct (Z.ltb_spec (2 * 1024 * 1024) (buf_length data))
          as [Hbig|Hok].
        -- right. split; [|unfold out; now subst run].
           intros data' [= <-]. exact Hbig.
        -- left. exists data. split; [reflexivity|]. split; [exact Hok|].
           unfold ret at 1 in Hrun. cbv beta iota in Hrun.
           unfold out. subst run.
           rewrite (sendMessage_trace env key "image"
                      (WeComClient.image_content env data)
                      (trace ++ [GetUrl url])).
           rewrite <- app_assoc. reflexivity.
      * right. split; [|unfold out; now subst run].
        intros data' [= Hs _]. contradiction.
    + right. split; [|unfold out; now subst run].
      intros data' Hd. discriminate Hd.
Qed.

(** X6. [uploadMedia] makes at most one request, the upload, and only for
    a kind [file] or [voice] and a file that it could read and that has
    more than 5 bytes; the upload carries the base name of the path, the
    MIME type of its extension and the bytes read. *)
Theorem uploadMedia_requests (key : string) (filePath type : jsval)
  (trace : list call) :
  snd (WeComClient.uploadMedia env key filePath type trace) = trace
  \/ exists path t file,
      filePath = JStr path
      /\ (t = "file" \/ t = "voice")
      /\ (type = JStr t \/ type = JUndefined /\ t = "file")
      /\ readFile env path = inr file
      /\ 5 < buf_length file
      /\ snd (WeComClient.uploadMedia env key filePath type trace)
         = (trace ++ [PostUpload key t (basename env path)
                        (WeComClient._getMimeType env path) file])%list.
Proof.
  assert (Hkind : forall t,
             WeComClient.includes (map snd WeComClient.FILE_TYPE) t = true ->
             t = "file" \/ t = "voice").
  { intros t Ht. unfold WeComClient.includes in Ht. simpl in Ht.
    rewrite !orb_true_iff in Ht.
    destruct Ht as [H|[H|H]]; try discriminate;
      apply String.eqb_eq in H; auto. }
  assert (Hrun : forall path t,
             path <> "" -> t = "file" \/ t = "voice" ->
             snd (WeComClient.uploadMedia env key (JStr path) (JStr t) trace)
             = trace
             \/ exists file,
                 readFile env path = inr file /\ 5 < buf_length file
                 /\ snd (WeComClient.uploadMedia env key (JStr path) (JStr t)
                           trace)
                    = (trace ++ [PostUpload key t (basename env path)
                                   (WeComClient._getMimeType env path) file])%list).
  { intros path t Hp Ht. rewrite (uploadMedia_kind env key path t Hp Ht).
    rewrite snd_try_catch.
    2:{ intros e. destruct (is_WeComError e); [apply pure_on_throw|].
        destruct (is_str "ENOENT" _); apply pure_on_throw. }
    remember (WeComClient.uploadMedia_body env key path t trace) as out eqn:Hout.
    unfold WeComClient.uploadMedia_body, bind at 1, WeComClient._readFile
      in Hout.
    destruct (readFile env path) as [[code message]|file] eqn:Hread;
      [subst out; now left|].
    unfold ret at 1 in Hout. cbv beta iota in Hout.
    destruct (Z.leb_spec (buf_length file) 5) as [Hsmall|Hbig];
      [subst out; now left|].
    rewrite (limit_of_kind t Ht) in Hout. unfold WeComClient.gt in Hout.
    right. exists file. repeat split; try assumption. subst out.
    rewrite snd_bind_pure.
    - unfold WeComClient.axios_post_upload. apply snd_settle.
    - intros [status data]. apply pure_on_bind.
      + apply pure_on_check_errcode.
      + intros _. apply pure_on_ret. }
  destruct filePath as [| |b|n|path|l|fs]; try (now left).
  destruct (String.eqb_spec path "") as [->|Hp]; [now left|].
  destruct type as [| |b|n|t|l|fs]; try (left; unfold WeComClient.uploadMedia;
    apply String.eqb_neq in Hp; rewrite Hp; reflexivity).
  - destruct (Hrun path "file" Hp (or_introl eq_refl))
      as [H|(file & Hr & Hs & H)]; [now left|].
    right. exists path, "file", file. repeat split; auto.
  - destruct (WeComClient.includes (map snd WeComClient.FILE_TYPE) t) eqn:Hin.
    + destruct (Hrun path t Hp (Hkind t Hin)) as [H|(file & Hr & Hs & H)];
        [now left|].
      right. exists path, t, file. repeat split; auto.
    + left. unfold WeComClient.uploadMedia.
      apply String.eqb_neq in Hp. rewrite Hp, Hin. reflexivity.
Qed.

(** X7. A file that cannot be read is reported by [uploadMedia] and by
    [sendImage] without a request: as a missing file when the code of the
    file-system error is ENOENT, as a failure that quotes the message of
    the error for every other code. *)
Theorem unreadable_file_is_reported (key path code message : string)
  (trace : list call) :
  path <> "" ->
  readFile env path = inl (code, message) ->
  (code = "ENOENT" ->
   WeComClient.uploadMedia env key (JStr path) (JStr "file") trace
   = (inl (WeComError (JNum (-1)) ("文件不存在：" ++ path) (JObj [])), trace)
   /\ WeComClient.sendImage env key (JStr path) trace
      = (inl (WeComError (JNum (-1)) ("图片文件不存在：" ++ path) (JObj [])),
         trace))
  /\ (code <> "ENOENT" ->
      WeComClient.uploadMedia env key (JStr path) (JStr "file") trace
      = (inl (WeComError (JNum (-1)) ("文件上传失败：" ++ message)
                (JObj [("originalError", JStr message)])), trace)
      /\ WeComClient.sendImage env key (JStr path) trace
         = (inl (WeComError (JNum (-1)) ("发送图片失败：" ++ message)
                   (JObj [("originalError", JStr message)])), trace)).
Proof.
  intros Hp Hread.
  assert (Hup := uploadMedia_kind env key path "file" Hp (or_introl eq_refl)).
  assert (Hne : String.eqb path "" = false) by now apply String.eqb_neq.
  split; intros Hcode.
  - subst code. split.
    + now apply uploadMedia_missing with (message := message); auto.
    + unfold WeComClient.sendImage. rewrite Hne.
      unfold bind at 1, try_catch, bind at 1, WeComClient._readFile.
      rewrite Hread. reflexivity.
  - assert (Hc : is_str "ENOENT" (JStr code) = false)
      by (simpl; now apply String.eqb_neq).
    split.
    + rewrite Hup.
      unfold try_catch, WeComClient.uploadMedia_body, bind at 1,
        WeComClient._readFile.
      rewrite Hread. unfold throw at 1. cbv beta iota.
      cbv [is_WeComError exn_code]. rewrite Hc. reflexivity.
    + unfold WeComClient.sendImage. rewrite Hne.
      unfold bind at 1, try_catch, bind at 1, WeComClient._readFile.
      rewrite Hread. unfold throw at 1. cbv beta iota.
      cbv [is_WeComError exn_code]. rewrite Hc. reflexivity.
Qed.

End Requests.

Lemma unreadable_file_is_reported_witness :
  WeComClient.uploadMedia (Worlds.accepting ".png") "key"
    (JStr "/tmp/none.png") (JStr "file") []
  = (inl (WeComError (JNum (-1)) "文件不存在：/tmp/none.png" (JObj [])), [])
  /\ WeComClient.sendImage (Worlds.accepting ".png") "key"
       (JStr "/tmp/none.png") []
     = (inl (WeComError (JNum (-1)) "图片文件不存在：/tmp/none.png" (JObj [])),
        []).
Proof.
  apply (unreadable_file_is_reported (Worlds.accepting ".png") "key"
           "/tmp/none.png" "ENOENT"
           "ENOENT: no such file or directory, open '/tmp/none.png'" []);
    [discriminate | reflexivity | reflexivity].
Defined.

(** ** The boundary of the client *)

(** X8. Whatever the file system and the remote do, an operation of the
    client returns an object or raises a WeComError: no TypeError, no
    file-system error and no error of the HTTP library leaves it. *)
Theorem client_raises_only_WeComError (env : Env) (key msgType : string)
  (v w : jsval) :
  post (WeComClient.sendMessage env key msgType v) is_object wecom
  /\ post (WeComClient.sendMarkdownV2 env key v) is_object wecom
  /\ post (WeComClient.uploadMedia env key v w) is_object wecom
  /\ post (WeComClient.sendFile env key v) is_object wecom
  /\ post (WeComClient.sendImage env key v) is_object wecom
  /\ post (WeComClient.sendImageFromUrl env key v) is_object wecom.
Proof.
  repeat split.
  - apply sendMessage_outcome.
  - apply sendMarkdownV2_outcome.
  - apply uploadMedia_outcome.
  - apply sendFile_outcome.
  - apply sendImage_outcome.
  - apply sendImageFromUrl_outcome.
Qed.

(** X9. After the upload request, [uploadMedia] raises the refusal of the
    remote with its code, its message and its body, like [sendMessage];
    but a failure of the transport is raised with the code -1 and the
    message of the error whether or not the server answered: the HTTP
    status is not kept. *)
Theorem upload_failure_is_reported (env : Env) (key path t : string)
  (file : Buffer) (trace : list call) :
  path <> "" -> t = "file" \/ t = "voice" ->
  readFile env path = inr file ->
  5 < buf_length file ->
  let request :=
    PostUpload key t (basename env path) (WeComClient._getMimeType env path)
      file in
  (forall status data message,
     post_upload env trace key t (basename env path)
       (WeComClient._getMimeType env path) file = Resolved status data ->
     nullish data = false ->
     get "errcode" data <> JNum 0 ->
     ToString (js_or (get "errmsg" data) (JStr "文件上传失败")) = Some message ->
     WeComClient.uploadMedia env key (JStr path) (JStr t) trace
     = (inl (WeComError (get "errcode" data) message data),
        (trace ++ [request])%list))
  /\ (forall code message response,
        post_upload env trace key t (basename env path)
          (WeComClient._getMimeType env path) file
        = Rejected code message response ->
        code <> Some "ENOENT" ->
        WeComClient.uploadMedia env key (JStr path) (JStr t) trace
        = (inl (WeComError (JNum (-1)) ("文件上传失败：" ++ message)
                  (JObj [("originalError", JStr message)])),
           (trace ++ [request])%list)).
Proof.
  intros Hp Ht Hread Hsize request.
  assert (Hbody : WeComClient.uploadMedia_body env key path t trace
                  = ('(_, data) <- WeComClient.axios_post_upload env key t
                                     (basename env path)
                                     (WeComClient._getMimeType env path) file ;;
                     WeComClient.check_errcode data "文件上传失败" ;;
                     ret (JObj [("success", JBool true);
                                ("message", JStr "文件上传成功");
                                ("media_id", get "media_id" data);
                                ("type", get "type" data);
                                ("created_at", get "created_at" data)]))
                      trace).
  { unfold WeComClient.uploadMedia_body, bind at 1, WeComClient._readFile.
    rewrite Hread. unfold ret at 1.
    destruct (Z.leb_spec (buf_length file) 5); [lia|].
    rewrite (limit_of_kind t Ht). reflexivity. }
  split.
  - intros status data message Hpost Hn Hcode Hmsg.
    rewrite (uploadMedia_kind env key path t Hp Ht).
    unfold try_catch. rewrite Hbody.
    unfold bind at 1, WeComClient.axios_post_upload. rewrite Hpost.
    assert (Hz : not_zero (get "errcode" data) = true).
    { destruct (not_zero (get "errcode" data)) eqn:E; [reflexivity|].
      apply not_zero_false in E. contradiction. }
    unfold WeComClient.settle, bind, WeComClient.check_errcode.
    destruct data; try discriminate Hn; rewrite Hz;
      unfold new_WeComError; rewrite Hmsg; reflexivity.
  - intros code message response Hpost Hcode.
    rewrite (uploadMedia_kind env key path t Hp Ht).
    unfold try_catch. rewrite Hbody.
    unfold bind at 1, WeComClient.axios_post_upload. rewrite Hpost.
    unfold WeComClient.settle. cbv [is_WeComError exn_code].
    assert (Hc : is_str "ENOENT"
                   (match code with Some c => JStr c | None => JUndefined end)
                 = false).
    { destruct code as [c|]; [|reflexivity]. simpl.
      apply String.eqb_neq. congruence. }
    rewrite Hc. reflexivity.
Qed.

Lemma upload_failure_is_reported_witness :
  WeComClient.uploadMedia Worlds.unreachable "key" (JStr "/tmp/six.bin")
    (JStr "file") []
  = (inl (WeComError (JNum (-1))
            "文件上传失败：Request failed with status code 500"
            (JObj [("originalError",
                    JStr "Request failed with status code 500")])),
     [PostUpload "key" "file" "file.png" (Some "image/png") (Fixtures.bytes 6)]).
Proof.
  refine (proj2 (upload_failure_is_reported Worlds.unreachable "key"
                   "/tmp/six.bin" "file" (Fixtures.bytes 6) [] _ _ _ _)
            (Some "ERR_BAD_RESPONSE") "Request failed with status code 500"
            (Some (500, "Internal Server Error", JStr "")) _ _);
    [discriminate | now left | reflexivity | now rewrite buf_length_bytes
    | reflexivity | discriminate].
Defined.

(** ** The credential of a request *)

Lemma keyed_nil (k : jsval) : keyed k [].
Proof. intros c k' []. Qed.

Lemma keyed_app (k : jsval) (a b : list call) :
  keyed k a -> keyed k b -> keyed k (a ++ b)%list.
Proof.
  intros Ha Hb c k' Hin. apply in_app_or in Hin.
  destruct Hin; [now apply Ha|now apply Hb].
Qed.

Lemma keyed_one (k : string) (c : call) :
  call_key c = None \/ call_key c = Some k -> keyed (JStr k) [c].
Proof.
  intros H c' k' [<-|[]] Hk. destruct H as [H|H]; congruence.
Qed.

Lemma emits_pure {A} (k : jsval) (m : M (list call) A) :
  pure_on m -> emits k m.
Proof.
  intros Hm trace. exists []. rewrite app_nil_r. split; [apply Hm|apply keyed_nil].
Qed.

Lemma emits_bind {A B} (k : jsval) (m : M (list call) A)
  (f : A -> M (list call) B) :
  emits k m -> (forall a, emits k (f a)) -> emits k (bind m f).
Proof.
  intros Hm Hf trace. unfold bind. destruct (Hm trace) as (e1 & H1 & K1).
  destruct (m trace) as [[e|a] t1]; simpl in H1; subst t1.
  - now exists e1.
  - destruct (Hf a (trace ++ e1)%list) as (e2 & H2 & K2).
    exists (e1 ++ e2)%list. rewrite H2, app_assoc.
    split; [reflexivity|now apply keyed_app].
Qed.

Lemma emits_try_catch {A} (k : jsval) (m : M (list call) A)
  (h : exn -> M (list call) A) :
  emits k m -> (forall e, emits k (h e)) -> emits k (try_catch m h).
Proof.
  intros Hm Hh trace. unfold try_catch. destruct (Hm trace) as (e1 & H1 & K1).
  destruct (m trace) as [[e|a] t1]; simpl in H1; subst t1.
  - destruct (Hh e (trace ++ e1)%list) as (e2 & H2 & K2).
    exists (e1 ++ e2)%list. rewrite H2, app_assoc.
    split; [reflexivity|now apply keyed_app].
  - now exists e1.
Qed.

Lemma emits_one (k : string) (m : M (list call) jsval) (c : call) :
  (forall trace, snd (m trace) = (trace ++ [c])%list) ->
  call_key c = None \/ call_key c = Some k ->
  emits (JStr k) m.
Proof.
  intros Hm Hc trace. exists [c]. split; [apply Hm|now apply keyed_one].
Qed.

Section Keys.

Variable env : Env.

Ltac silent :=
  repeat first
    [ apply pure_on_throw
    | apply pure_on_ret
    | match goal with
      | |- pure_on (if ?b then _ else _) => destruct b
      | |- pure_on (match exn_response ?e with _ => _ end) =>
          destruct (exn_response e) as [[[? ?] ?]|]
      end ].

Lemma emits_sendMessage (key msgType : string) (content : jsval) :
  emits (JStr key) (WeComClient.sendMessage env key msgType content).
Proof.
  apply emits_one with (c := send_request key msgType content).
  - apply sendMessage_trace.
  - now right.
Qed.

Lemma emits_settle {D} (key : string) (c : call)
  (r : list call -> axios_result D) :
  call_key c = None \/ call_key c = Some key ->
  emits (JStr key) (fun trace => WeComClient.settle c (r trace) trace).
Proof.
  intros Hc trace. exists [c].
  split; [apply snd_settle|now apply keyed_one].
Qed.

Lemma emits_sendMarkdownV2 (key : string) (content : jsval) :
  emits (JStr key) (WeComClient.sendMarkdownV2 env key content).
Proof.
  unfold WeComClient.sendMarkdownV2.
  destruct content; try solve [apply emits_pure; silent].
  destruct (String.eqb s ""); [apply emits_pure; silent|].
  destruct (_ >? _); [apply emits_pure; silent|apply emits_sendMessage].
Qed.

Lemma emits_sendFile (key : string) (mediaId : jsval) :
  emits (JStr key) (WeComClient.sendFile env key mediaId).
Proof.
  unfold WeComClient.sendFile.
  destruct mediaId; try solve [apply emits_pure; silent].
  destruct (String.eqb s ""); [apply emits_pure; silent|apply emits_sendMessage].
Qed.

Lemma emits__readFile (key path : string) :
  emits (JStr key) (WeComClient._readFile env path).
Proof.
  apply emits_pure. unfold WeComClient._readFile.
  destruct (readFile env path) as [[code message]|file]; silent.
Qed.

Lemma emits_uploadMedia (key : string) (filePath type : jsval) :
  emits (JStr key) (WeComClient.uploadMedia env key filePath type).
Proof.
  unfold WeComClient.uploadMedia.
  destruct filePath; try solve [apply emits_pure; silent].
  destruct (String.eqb s ""); [apply emits_pure; silent|].
  destruct (match type with JUndefined => JStr "file" | _ => type end);
    try solve [apply emits_pure; silent].
  destruct (WeComClient.includes _ _); [|apply emits_pure; silent].
  apply emits_try_catch; [|intros e; apply emits_pure; silent].
  unfold WeComClient.uploadMedia_body.
  apply emits_bind; [apply emits__readFile|intros file].
  destruct (_ <=? 5); [apply emits_pure; silent|].
  destruct (WeComClient.gt _ _); [apply emits_pure; silent|].
  apply emits_bind.
  - unfold WeComClient.axios_post_upload. apply emits_settle. now right.
  - intros [status data]. apply emits_pure. apply pure_on_bind.
    + apply pure_on_check_errcode.
    + intros _. apply pure_on_ret.
Qed.

Lemma emits_sendImage (key : string) (imagePath : jsval) :
  emits (JStr key) (WeComClient.sendImage env key imagePath).
Proof.
  unfold WeComClient.sendImage.
  destruct imagePath; try solve [apply emits_pure; silent].
  destruct (String.eqb s ""); [apply emits_pure; silent|].
  apply emits_bind; [|intros content; apply emits_sendMessage].
  apply emits_try_catch; [|intros e; apply emits_pure; silent].
  apply emits_bind; [apply emits__readFile|intros file].
  apply emits_pure. silent.
Qed.

Lemma emits_sendImageFromUrl (key : string) (imageUrl : jsval) :
  emits (JStr key) (WeComClient.sendImageFromUrl env key imageUrl).
Proof.
  unfold WeComClient.sendImageFromUrl.
  destruct imageUrl; try solve [apply emits_pure; silent].
  destruct (String.eqb s ""); [apply emits_pure; silent|].
  destruct (negb _); [apply emits_pure; silent|].
  apply emits_bind; [|intros content; apply emits_sendMessage].
  apply emits_try_catch; [|intros e; apply emits_pure; silent].
  apply emits_bind.
  - unfold WeComClient.axios_get. apply emits_settle. now left.
  - intros [status data]. apply emits_pure. silent.
Qed.

(** The body of a handler once the credential is resolved: the client is
    constructed from it, and works under it. *)
Lemma emits_with_client {A} (K : jsval) (body : string -> M (list call) A) :
  (forall k, K = JStr k -> emits K (body k)) ->
  emits K (client <- Tools.new_client K ;; body client).
Proof.
  intros Hb. unfold Tools.new_client, WeComClient.new.
  destruct K as [| |b|n|k|l|fs];
    try (apply emits_pure; apply pure_on_bind; [silent|intros; silent]; fail).
  - apply emits_pure. intros s. reflexivity.
  - apply emits_pure. intros s. reflexivity.
  - apply emits_pure. intros s. reflexivity.
  - apply emits_pure. intros s. reflexivity.
  - destruct (String.eqb k "").
    + apply emits_pure. intros s. reflexivity.
    + intros trace. unfold bind, ret at 1. now apply Hb.
  - apply emits_pure. intros s. reflexivity.
  - apply emits_pure. intros s. reflexivity.
Qed.

Lemma emits_with_key {A} (provided : jsval)
  (body : jsval -> M (list call) A) :
  emits (js_or provided (Tools.DEFAULT_WEBHOOK_KEY env))
        (body (js_or provided (Tools.DEFAULT_WEBHOOK_KEY env))) ->
  emits (js_or provided (Tools.DEFAULT_WEBHOOK_KEY env))
        (key <- Tools._getWebhookKey env provided ;; body key).
Proof.
  intros Hb. unfold Tools._getWebhookKey.
  destruct (negb _).
  - apply emits_pure. intros s. reflexivity.
  - intros trace. unfold bind, ret at 1. apply Hb.
Qed.

Lemma emits_caught (K : jsval) (body : M (list call) jsval) :
  emits K body ->
  emits K (try_catch body (fun error => ret (Tools._formatError error))).
Proof.
  intros Hb. apply emits_try_catch; [exact Hb|].
  intros e. apply emits_pure. apply pure_on_ret.
Qed.

Lemma emits_destructure {A} (K : jsval) (args : jsval) (first : string)
  (body : M (list call) A) :
  emits K body -> emits K (Tools.destructure args first body).
Proof.
  intros Hb. destruct args; try exact Hb; apply emits_pure; apply pure_on_throw.
Qed.

End Keys.

Lemma handle_emits (env : Env) (name args : jsval) :
  emits (js_or (get "webhook_key" args) (Tools.DEFAULT_WEBHOOK_KEY env))
        (Tools.handle env name args).
Proof.
  unfold Tools.handle.
  destruct (negb (truthy name) || negb (is_string name));
    [apply emits_pure; apply pure_on_throw|].
  destruct name; try solve [apply emits_pure; apply pure_on_throw].
  destruct (String.eqb s "send_message");
    [|destruct (String.eqb s "send_file");
      [|destruct (String.eqb s "send_image");
        [|apply emits_pure; apply pure_on_throw]]].
  - unfold Tools.handleSendMessage.
    apply emits_destructure, emits_caught, emits_with_key.
    destruct (_ || _); [apply emits_pure; apply pure_on_throw|].
    apply emits_with_client. intros k ->.
    apply emits_bind; [apply emits_sendMarkdownV2|intros r].
    apply emits_pure, pure_on_ret.
  - unfold Tools.handleSendFile.
    apply emits_destructure, emits_caught, emits_with_key.
    destruct (_ || _); [apply emits_pure; apply pure_on_throw|].
    apply emits_with_client. intros k ->.
    apply emits_bind; [apply emits_uploadMedia|intros u].
    apply emits_bind; [apply emits_sendFile|intros r].
    apply emits_pure, pure_on_ret.
  - unfold Tools.handleSendImage.
    apply emits_destructure, emits_caught, emits_with_key.
    destruct (_ && _); [apply emits_pure; apply pure_on_throw|].
    destruct (_ && _); [apply emits_pure; apply pure_on_throw|].
    apply emits_with_client. intros k ->.
    apply emits_bind; [|intros r; apply emits_pure, pure_on_ret].
    destruct (truthy (get "image_path" args)); [apply emits_sendImage|].
    destruct (truthy (get "image_url" args));
      [apply emits_sendImageFromUrl|apply emits_pure, pure_on_ret].
Qed.

(** X10. Whatever the name and the arguments, a call of the dispatcher
    only appends requests to the trace, and every webhook request that it
    makes carries the resolved credential: the [webhook_key] of the call
    when it is truthy, the configured default otherwise. *)
Theorem requests_carry_the_resolved_credential (env : Env) (name args : jsval)
  (trace : list call) :
  exists ext,
    snd (Tools.handle env name args trace) = (trace ++ ext)%list
    /\ forall c k, In c ext -> call_key c = Some k ->
         JStr k = (if truthy (get "webhook_key" args)
                   then get "webhook_key" args
                   else Tools.DEFAULT_WEBHOOK_KEY env).
Proof. apply (handle_emits env name args trace). Qed.

(** ** send_file *)

Lemma check_errcode_raises (data : jsval) (fallback : string) (s : list call) :
  not_zero (get "errcode" data) = true ->
  exists e, WeComClient.check_errcode data fallback s = (inl e, s).
Proof.
  intros Hz. unfold WeComClient.check_errcode.
  destruct data; try (eexists; reflexivity); rewrite Hz; eexists; reflexivity.
Qed.

Lemma check_errcode_passes (data : jsval) (fallback : string) :
  get "errcode" data = JNum 0 ->
  WeComClient.check_errcode data fallback = ret tt.
Proof.
  intros Hz. unfold WeComClient.check_errcode.
  destruct data; try discriminate Hz. rewrite Hz. reflexivity.
Qed.

Section SendFile.

Variable env : Env.

Lemma uploadMedia_body_sends (key path t : string) (file : Buffer)
  (trace : list call) :
  t = "file" \/ t = "voice" ->
  readFile env path = inr file ->
  5 < buf_length file ->
  WeComClient.uploadMedia_body env key path t trace
  = ('(_, data) <- WeComClient.axios_post_upload env key t
                     (basename env path)
                     (WeComClient._getMimeType env path) file ;;
     WeComClient.check_errcode data "文件上传失败" ;;
     ret (JObj [("success", JBool true);
                ("message", JStr "文件上传成功");
                ("media_id", get "media_id" data);
                ("type", get "type" data);
                ("created_at", get "created_at" data)]))
      trace.
Proof.
  intros Ht Hread Hsize.
  unfold WeComClient.uploadMedia_body, bind at 1, WeComClient._readFile.
  rewrite Hread. unfold ret at 1.
  destruct (Z.leb_spec (buf_length file) 5); [lia|].
  rewrite (limit_of_kind t Ht). reflexivity.
Qed.

(** The [catch] of [uploadMedia] raises whatever it is given. *)
Lemma uploadMedia_catch_raises (path : string) (e : exn) (s : list call) :
  exists e',
    (if is_WeComError e then throw e
     else if is_str "ENOENT" (exn_code e) then
       throw (invalid ("文件不存在：" ++ path))
     else
       throw (new_WeComError (JNum (-1))
                (JStr ("文件上传失败：" ++ exn_message e))
                (JObj [("originalError", JStr (exn_message e))]))) s
    = (@inl exn jsval e', s).
Proof.
  destruct (is_WeComError e); [now eexists|].
  destruct (is_str "ENOENT" _); now eexists.
Qed.

(** The outcomes of [uploadMedia] on a path and a kind that pass its
    argument checks. *)
Lemma uploadMedia_cases (key path t : string) (trace : list call) :
  path <> "" -> t = "file" \/ t = "voice" ->
  (exists e, WeComClient.uploadMedia env key (JStr path) (JStr t) trace
             = (inl e, trace))
  \/ exists file,
      readFile env path = inr file /\ 5 < buf_length file
      /\ ((exists e,
             WeComClient.uploadMedia env key (JStr path) (JStr t) trace
             = (inl e,
                (trace ++ [PostUpload key t (basename env path)
                             (WeComClient._getMimeType env path) file])%list))
          \/ exists status data,
              post_upload env trace key t (basename env path)
                (WeComClient._getMimeType env path) file
              = Resolved status data
              /\ get "errcode" data = JNum 0
              /\ WeComClient.uploadMedia env key (JStr path) (JStr t) trace
                 = (inr (JObj [("success", JBool true);
                               ("message", JStr "文件上传成功");
                               ("media_id", get "media_id" data);
                               ("type", get "type" data);
                               ("created_at", get "created_at" data)]),
                    (trace ++ [PostUpload key t (basename env path)
                                 (WeComClient._getMimeType env path) file])%list)).
Proof.
  intros Hp Ht.
  destruct (readFile env path) as [[code message]|file] eqn:Hread.
  - left. rewrite (uploadMedia_kind env key path t Hp Ht).
    unfold try_catch, WeComClient.uploadMedia_body, bind at 1,
      WeComClient._readFile.
    rewrite Hread. unfold throw at 1. apply uploadMedia_catch_raises.
  - destruct (Z.leb_spec (buf_length file) 5) as [Hsmall|Hbig].
    + left. eexists.
      apply (uploadMedia_too_small env key path t file trace Hp Ht Hread Hsmall).
    + right. exists file. split; [reflexivity|]. split; [exact Hbig|].
      destruct (post_upload env trace key t (basename env path)
                  (WeComClient._getMimeType env path) file)
        as [status data|code message response] eqn:Hpost.
      * destruct (not_zero (get "errcode" data)) eqn:Hz.
        -- left. rewrite (uploadMedia_kind env key path t Hp Ht).
           unfold try_catch.
           rewrite (uploadMedia_body_sends key path t file trace Ht Hread Hbig).
           unfold bind at 1, WeComClient.axios_post_upload. rewrite Hpost.
           unfold WeComClient.settle, bind at 1.
           destruct (check_errcode_raises data "文件上传失败"
                       (trace ++ [PostUpload key t (basename env path)
                                    (WeComClient._getMimeType env path) file])%list
                       Hz) as [e ->].
           apply uploadMedia_catch_raises.
        -- right. apply not_zero_false in Hz. exists status, data.
           split; [reflexivity|]. split; [exact Hz|].
           apply (uploadMedia_accepted env key path t file trace status data
                    Hp Ht Hread Hbig Hpost Hz).
      * left. rewrite (uploadMedia_kind env key path t Hp Ht).
        unfold try_catch.
        rewrite (uploadMedia_body_sends key path t file trace Ht Hread Hbig).
        unfold bind at 1, WeComClient.axios_post_upload. rewrite Hpost.
        unfold WeComClient.settle. apply uploadMedia_catch_raises.
Qed.

(** What [handleSendFile] does once its own checks have passed. *)
Lemma send_file_steps (args : jsval) (trace : list call) (path k : string) :
  nullish args = false ->
  get "file_path" args = JStr path -> path <> "" ->
  js_or (get "webhook_key" args) (Tools.DEFAULT_WEBHOOK_KEY env) = JStr k ->
  Tools.handle env (JStr "send_file") args trace
  = match WeComClient.uploadMedia env k (JStr path) (JStr "file") trace with
    | (inl e, t1) => (inr (Tools._formatError e), t1)
    | (inr uploadResult, t1) =>
        match WeComClient.sendFile env k (get "media_id" uploadResult) t1 with
        | (inl e, t2) => (inr (Tools._formatError e), t2)
        | (inr sendResult, t2) =>
            (inr (Tools._formatSuccess (JObj [("upload", uploadResult);
                                              ("send", sendResult)])), t2)
        end
    end.
Proof.
  intros Hn Hpath Hp Hk.
  change (Tools.handle env (JStr "send_file") args trace)
    with (Tools.handleSendFile env args trace).
  unfold Tools.handleSendFile. rewrite (destructure_body _ _ _ Hn).
  assert (Hkne := resolved_key_truthy env _ _ Hk).
  rewrite (_getWebhookKey_resolved env _ _ Hk), Hpath.
  unfold try_catch, bind at 1, ret at 1.
  apply truthy_string in Hp. rewrite Hp. cbv [negb orb is_string].
  rewrite (new_client_string k Hkne). unfold bind at 1, ret at 1.
  unfold bind at 1.
  destruct (WeComClient.uploadMedia env k (JStr path) (JStr "file") trace)
    as [[e|u] t1]; [reflexivity|].
  unfold bind at 1.
  destruct (WeComClient.sendFile env k (get "media_id" u) t1) as [[e|r] t2];
    reflexivity.
Qed.

End SendFile.

(** X11. [send_file] uploads, then sends. When its own checks pass, the
    requests it makes are none, the upload alone, or the upload followed
    by one [file] message; the message is sent only after an upload that
    the remote answered with [errcode] 0 and a non-empty [media_id], and it
    carries that [media_id]. *)
Theorem send_file_uploads_then_sends (env : Env) (args : jsval)
  (trace : list call) (path k : string) :
  nullish args = false ->
  get "file_path" args = JStr path -> path <> "" ->
  js_or (get "webhook_key" args) (Tools.DEFAULT_WEBHOOK_KEY env) = JStr k ->
  snd (Tools.handle env (JStr "send_file") args trace) = trace
  \/ exists file,
      readFile env path = inr file /\ 5 < buf_length file
      /\ let upload :=
           PostUpload k "file" (basename env path)
             (WeComClient._getMimeType env path) file in
         snd (Tools.handle env (JStr "send_file") args trace)
         = (trace ++ [upload])%list
         \/ exists status data m,
             post_upload env trace k "file" (basename env path)
               (WeComClient._getMimeType env path) file
             = Resolved status data
             /\ get "errcode" data = JNum 0
             /\ get "media_id" data = JStr m /\ m <> ""
             /\ snd (Tools.handle env (JStr "send_file") args trace)
                = (trace ++ [upload;
                             PostSend k
                               (JObj [("msgtype", JStr "file");
                                      ("file",
                                       JObj [("media_id", JStr m)])])])%list.
Proof.
  intros Hn Hpath Hp Hk.
  rewrite (send_file_steps env args trace path k Hn Hpath Hp Hk).
  destruct (uploadMedia_cases env k path "file" trace Hp (or_introl eq_refl))
    as [[e ->]|(file & Hread & Hsize & [[e ->]|(status & data & Hpost & Hz & ->)])].
  - now left.
  - right. exists file. split; [exact Hread|]. split; [exact Hsize|]. now left.
  - right. exists file. split; [exact Hread|]. split; [exact Hsize|].
    cbv zeta.
    change (get "media_id"
              (JObj [("success", JBool true); ("message", JStr "文件上传成功");
                     ("media_id", get "media_id" data);
                     ("type", get "type" data);
                     ("created_at", get "created_at" data)]))
      with (get "media_id" data).
    unfold WeComClient.sendFile.
    destruct (get "media_id" data) as [| |b|n|m|l|fs] eqn:Hm; try (now left).
    destruct (String.eqb_spec m "") as [->|Hne]; [now left|].
    right. exists status, data, m.
    split; [exact Hpost|]. split; [exact Hz|]. split; [exact Hm|].
    split; [exact Hne|].
    assert (Ht := sendMessage_trace env k "file" (JObj [("media_id", JStr m)])
                    (trace ++ [PostUpload k "file" (basename env path)
                                 (WeComClient._getMimeType env path) file])%list).
    destruct (WeComClient.sendMessage env k "file" _ _) as [[e|r] t2];
      simpl in Ht; subst t2; simpl; rewrite <- app_assoc; reflexivity.
Qed.

Lemma send_file_uploads_then_sends_witness :
  snd (Tools.handle (Worlds.accepting ".bin") (JStr "send_file")
         (JObj [("file_path", JStr "/tmp/six.bin")]) []) = []
  \/ exists file,
      readFile (Worlds.accepting ".bin") "/tmp/six.bin" = inr file
      /\ 5 < buf_length file
      /\ let upload :=
           PostUpload "default-key" "file"
             (basename (Worlds.accepting ".bin") "/tmp/six.bin")
             (WeComClient._getMimeType (Worlds.accepting ".bin") "/tmp/six.bin")
             file in
         snd (Tools.handle (Worlds.accepting ".bin") (JStr "send_file")
                (JObj [("file_path", JStr "/tmp/six.bin")]) [])
         = ([] ++ [upload])%list
         \/ exists status data m,
             post_upload (Worlds.accepting ".bin") [] "default-key" "file"
               (basename (Worlds.accepting ".bin") "/tmp/six.bin")
               (WeComClient._getMimeType (Worlds.accepting ".bin")
                  "/tmp/six.bin") file
             = Resolved status data
             /\ get "errcode" data = JNum 0
             /\ get "media_id" data = JStr m /\ m <> ""
             /\ snd (Tools.handle (Worlds.accepting ".bin") (JStr "send_file")
                       (JObj [("file_path", JStr "/tmp/six.bin")]) [])
                = ([] ++ [upload;
                          PostSend "default-key"
                            (JObj [("msgtype", JStr "file");
                                   ("file",
                                    JObj [("media_id", JStr m)])])])%list.
Proof.
  apply (send_file_uploads_then_sends (Worlds.accepting ".bin")
           (JObj [("file_path", JStr "/tmp/six.bin")]) []
           "/tmp/six.bin" "default-key");
    [reflexivity | reflexivity | discriminate | reflexivity].
Defined.

(** ** The checks of the dispatcher *)

Section Checks.

Variable env : Env.

Lemma _getWebhookKey_cases (provided : jsval) :
  (exists m, Tools._getWebhookKey env provided
             = throw (WeComError (JNum (-1)) m (JObj [])))
  \/ Tools._getWebhookKey env provided
     = ret (js_or provided (Tools.DEFAULT_WEBHOOK_KEY env)).
Proof.
  unfold Tools._getWebhookKey.
  destruct (negb _); [left; now eexists|now right].
Qed.

Lemma new_client_cases (key : jsval) :
  (exists m, Tools.new_client key = throw (WeComError (JNum (-1)) m (JObj [])))
  \/ exists k, key = JStr k /\ Tools.new_client key = ret k.
Proof.
  unfold Tools.new_client, WeComClient.new.
  destruct key; try (left; now eexists).
  destruct (String.eqb s ""); [left; now eexists|right; now exists s].
Qed.

Lemma new_client_not_string (key : jsval) :
  is_string key = false ->
  Tools.new_client key
  = throw (WeComError (JNum (-1)) "webhookKey 是必需的字符串参数" (JObj [])).
Proof. destruct key; try discriminate; reflexivity. Qed.

End Checks.

(** X12. [send_file] whose [file_path] is absent, empty or not a string
    answers with the error envelope of a WeComError with code -1: no file
    is uploaded and the trace is unchanged. *)
Theorem send_file_requires_a_path (env : Env) (args : jsval)
  (trace : list call) :
  nullish args = false ->
  (forall path, get "file_path" args = JStr path -> path = "") ->
  exists m,
    Tools.handle env (JStr "send_file") args trace
    = (inr (Tools._formatError (WeComError (JNum (-1)) m (JObj []))), trace).
Proof.
  intros Hn Hbad.
  change (Tools.handle env (JStr "send_file") args trace)
    with (Tools.handleSendFile env args trace).
  unfold Tools.handleSendFile. rewrite (destructure_body _ _ _ Hn).
  unfold try_catch, bind at 1.
  destruct (_getWebhookKey_cases env (get "webhook_key" args)) as [[m ->]| ->];
    [now exists m|].
  unfold ret at 1.
  destruct (negb (truthy (get "file_path" args))
            || negb (is_string (get "file_path" args))) eqn:Hc;
    [eexists; reflexivity|].
  apply nonempty_string in Hc. destruct Hc as (path & Hpath & Hne).
  now specialize (Hbad path Hpath).
Qed.

Lemma send_file_requires_a_path_witness :
  exists m,
    Tools.handle (Worlds.accepting ".bin") (JStr "send_file")
      (JObj [("file_path", JNum 7)]) []
    = (inr (Tools._formatError (WeComError (JNum (-1)) m (JObj []))), []).
Proof.
  apply (send_file_requires_a_path (Worlds.accepting ".bin")
           (JObj [("file_path", JNum 7)]) []);
    [reflexivity | discriminate].
Defined.

(** X13. A resolved credential that is not a string (a number, an object:
    any truthy value of another type) is refused by each of the three
    capabilities with the error envelope of a WeComError with code -1, and
    no request is made under it. *)
Theorem credential_must_be_a_string (env : Env) (name : string) (args : jsval)
  (trace : list call) :
  nullish args = false ->
  truthy (get "webhook_key" args) = true ->
  is_string (get "webhook_key" args) = false ->
  In name ["send_message"; "send_file"; "send_image"] ->
  exists m,
    Tools.handle env (JStr name) args trace
    = (inr (Tools._formatError (WeComError (JNum (-1)) m (JObj []))), trace).
Proof.
  intros Hn Ht Hs Hin.
  assert (Hkey : Tools._getWebhookKey env (get "webhook_key" args)
                 = ret (get "webhook_key" args)).
  { unfold Tools._getWebhookKey. rewrite (js_or_truthy _ _ Ht), Ht.
    reflexivity. }
  assert (Hnew := new_client_not_string (get "webhook_key" args) Hs).
  simpl in Hin. destruct Hin as [<-|[<-|[<-|[]]]].
  - change (Tools.handle env (JStr "send_message") args trace)
      with (Tools.handleSendMessage env args trace).
    unfold Tools.handleSendMessage. rewrite (destructure_body _ _ _ Hn), Hkey.
    unfold try_catch, bind at 1, ret at 1.
    destruct (_ || _); [eexists; reflexivity|].
    unfold bind at 1. rewrite Hnew. eexists; reflexivity.
  - change (Tools.handle env (JStr "send_file") args trace)
      with (Tools.handleSendFile env args trace).
    unfold Tools.handleSendFile. rewrite (destructure_body _ _ _ Hn), Hkey.
    unfold try_catch, bind at 1, ret at 1.
    destruct (_ || _); [eexists; reflexivity|].
    unfold bind at 1. rewrite Hnew. eexists; reflexivity.
  - change (Tools.handle env (JStr "send_image") args trace)
      with (Tools.handleSendImage env args trace).
    unfold Tools.handleSendImage. rewrite (destructure_body _ _ _ Hn), Hkey.
    unfold try_catch, bind at 1, ret at 1.
    destruct (_ && _); [eexists; reflexivity|].
    destruct (_ && _); [eexists; reflexivity|].
    unfold bind at 1. rewrite Hnew. eexists; reflexivity.
Qed.

Lemma credential_must_be_a_string_witness :
  exists m,
    Tools.handle (Worlds.accepting ".bin") (JStr "send_message")
      (JObj [("webhook_key", JNum 12345); ("content", JStr "hi")]) []
    = (inr (Tools._formatError (WeComError (JNum (-1)) m (JObj []))), []).
Proof.
  apply (credential_must_be_a_string (Worlds.accepting ".bin") "send_message"
           (JObj [("webhook_key", JNum 12345); ("content", JStr "hi")]) []);
    [reflexivity | reflexivity | reflexivity | simpl; tauto].
Defined.

(** X14. The names that [tools/list] advertises are exactly the names
    that the dispatcher accepts: on an argument record, [handle] returns
    for a name of the list and raises for every other name. *)
Theorem advertised_tools_are_the_accepted_ones (env : Env) (name : string)
  (args : jsval) (trace : list call) :
  nullish args = false ->
  In (JStr name) (map (get "name") Tools.tools)
  <-> exists v trace', Tools.handle env (JStr name) args trace = (inr v, trace').
Proof.
  intros Hn.
  assert (Hnames : In (JStr name) (map (get "name") Tools.tools)
                   <-> In name ["send_message"; "send_file"; "send_image"]).
  { change (map (get "name") Tools.tools)
      with [JStr "send_message"; JStr "send_file"; JStr "send_image"].
    simpl. split; intros [H|[H|[H|[]]]]; inversion H; subst; tauto. }
  rewrite Hnames. split.
  - intros Hin.
    destruct (post_run _ _ trace (handle_known_outcome env name args Hn Hin))
      as (v & trace' & Hrun & _).
    now exists v, trace'.
  - intros (v & trace' & Hrun).
    destruct (in_dec string_dec name
                ["send_message"; "send_file"; "send_image"]) as [Hin|Hnot];
      [exact Hin|].
    exfalso. destruct (String.eqb_spec name "") as [->|Hne].
    + discriminate Hrun.
    + rewrite (handle_unknown env name args trace Hne Hnot) in Hrun.
      discriminate Hrun.
Qed.

Lemma advertised_tools_are_the_accepted_ones_witness :
  exists v trace',
    Tools.handle (Worlds.accepting ".bin") (JStr "send_image")
      (JObj [("image_url", JStr "https://example.com/a.png")]) []
    = (inr v, trace').
Proof.
  apply (proj1 (advertised_tools_are_the_accepted_ones
                  (Worlds.accepting ".bin") "send_image"
                  (JObj [("image_url", JStr "https://example.com/a.png")]) []
                  eq_refl)).
  simpl. tauto.
Defined.

(** ** The methods of the router *)

Lemma is_str_false (c : string) (v : jsval) :
  v <> JStr c -> is_str c v = false.
Proof.
  destruct v; try reflexivity. simpl.
  destruct (String.eqb_spec s c); congruence.
Qed.

Lemma is_str_true (c : string) (v : jsval) :
  is_str c v = true -> v = JStr c.
Proof.
  destruct v; try discriminate. simpl.
  destruct (String.eqb_spec s c); congruence.
Qed.

Lemma emit_network (text : string) (s : Server.state) :
  Server.network (emit text s) = Server.network s.
Proof. reflexivity. Qed.

Lemma emit_flag (text : string) (s : Server.state) :
  Server.isInitialized (emit text s) = Server.isInitialized s.
Proof. reflexivity. Qed.

(** The listing of [tools/list] is the array of descriptors itself. *)
Lemma toolsInfo_is_tools :
  map (fun tool => JObj [("name", get "name" tool);
                         ("description", get "description" tool);
                         ("inputSchema", get "inputSchema" tool)])
      Tools.tools
  = Tools.tools.
Proof. reflexivity. Qed.

(** X15. A request of version "2.0" whose method is none of the nine
    names of the router is answered with Method not found, code -32601,
    under its identifier; the data of the error quotes the method as
    text. *)
Theorem unknown_method_is_not_found (env : Env) (line : string)
  (request : jsval) (t : string) (s : Server.state) :
  JSON.parse line = Some request ->
  get "jsonrpc" request = JStr "2.0" ->
  (forall m, In m protocol_methods -> get "method" request <> JStr m) ->
  ToString (get "method" request) = Some t ->
  Server.handleLine env line s
  = (inr tt,
     emit (written (Server.error_response (get "id" request) (-32601)
                      "Method not found" (JStr ("未知方法：" ++ t)))) s).
Proof.
  intros Hp Hv Hnone Ht.
  rewrite (parsed_line env line request Hp), (handleRequest_v2 env request Hv).
  unfold try_catch, Server.routeRequest, template. rewrite Ht.
  unfold bind at 1, ret at 1, bind at 1, Server.log at 1, ret at 1.
  repeat match goal with
    | |- context [is_str ?c (get "method" request)] =>
        rewrite (is_str_false c (get "method" request))
          by (apply Hnone; unfold protocol_methods; simpl; tauto)
    end.
  unfold bind, Server.log, ret. cbv beta iota.
  rewrite sendError_run. reflexivity.
Qed.

Lemma unknown_method_is_not_found_witness :
  Server.handleLine (Fixtures.world None)
    ("{" ++ Fixtures.member "jsonrpc" (Fixtures.q "2.0") ++ ","
         ++ Fixtures.member "id" "9" ++ ","
         ++ Fixtures.member "method" (Fixtures.q "tools/run") ++ "}")
    Fixtures.fresh
  = (inr tt,
     emit (written (Server.error_response (JNum 9) (-32601)
                      "Method not found" (JStr "未知方法：tools/run")))
          Fixtures.fresh).
Proof.
  apply (unknown_method_is_not_found (Fixtures.world None) _
           (JObj [("jsonrpc", JStr "2.0"); ("id", JNum 9);
                  ("method", JStr "tools/run")]) "tools/run" Fixtures.fresh);
    [vm_compute; reflexivity | reflexivity | | reflexivity].
  intros m Hm. unfold protocol_methods in Hm. simpl in Hm.
  repeat (destruct Hm as [<-|Hm]; [discriminate|]). contradiction.
Defined.

(** X16. The methods with a fixed answer. For a request of version "2.0",
    whatever its parameters and the state: [initialize] returns the
    protocol version 2024-11-05, the three empty capabilities and the
    server descriptor; [ping] returns the empty object; [tools/list]
    returns the array of tool descriptors; [resources/list] and
    [prompts/list] return empty arrays; [resources/read] and [prompts/get]
    are refused with Method not found. Each writes that one line under
    the identifier of the request and changes nothing else. *)
Theorem fixed_answers (env : Env) (request : jsval) (s : Server.state) :
  get "jsonrpc" request = JStr "2.0" ->
  let id := get "id" request in
  let answer (m : string) (obj : jsval) :=
    get "method" request = JStr m ->
    Server.handleRequest env request s = (inr tt, emit (written obj) s) in
  answer "initialize"
    (Server.response id
       (JObj [("protocolVersion", JStr "2024-11-05");
              ("capabilities", JObj [("tools", JObj []);
                                     ("resources", JObj []);
                                     ("prompts", JObj [])]);
              ("serverInfo", Server.SERVER_INFO)]))
  /\ answer "ping" (Server.response id (JObj []))
  /\ answer "tools/list"
       (Server.response id (JObj [("tools", JArr Tools.tools)]))
  /\ answer "resources/list"
       (Server.response id (JObj [("resources", JArr [])]))
  /\ answer "prompts/list"
       (Server.response id (JObj [("prompts", JArr [])]))
  /\ answer "resources/read"
       (Server.error_response id (-32601) "Method not found"
          (JStr "本服务不支持资源读取"))
  /\ answer "prompts/get"
       (Server.error_response id (-32601) "Method not found"
          (JStr "本服务不支持提示功能")).
Proof.
  intros Hv id answer. unfold answer. clear answer.
  rewrite (handleRequest_v2 env request Hv).
  unfold try_catch, Server.routeRequest.
  repeat split; intros Hm; rewrite Hm;
    unfold template, ToString, bind at 1, ret at 1, bind at 1,
      Server.log at 1, ret at 1;
    cbv [is_str String.eqb Ascii.eqb Bool.eqb].
  - unfold Server.handleInitialize, bind, Server.log, ret at 1.
    rewrite sendResponse_run. reflexivity.
  - rewrite sendResponse_run. reflexivity.
  - unfold Server.handleToolsList. rewrite toolsInfo_is_tools.
    rewrite sendResponse_run. reflexivity.
  - rewrite sendResponse_run. reflexivity.
  - rewrite sendResponse_run. reflexivity.
  - rewrite sendError_run. reflexivity.
  - rewrite sendError_run. reflexivity.
Qed.

Lemma fixed_answers_witness :
  Server.handleRequest (Fixtures.world None)
    (JObj [("jsonrpc", JStr "2.0"); ("id", JStr "a"); ("method", JStr "ping")])
    Fixtures.fresh
  = (inr tt,
     emit (written (Server.response (JStr "a") (JObj []))) Fixtures.fresh).
Proof.
  apply (proj1 (proj2 (fixed_answers (Fixtures.world None)
                         (JObj [("jsonrpc", JStr "2.0"); ("id", JStr "a");
                                ("method", JStr "ping")])
                         Fixtures.fresh eq_refl))).
  reflexivity.
Defined.

(** ** What a line changes *)

Section Frame.

Context {X : Type}.
Variable f : Server.state -> X.
Hypothesis f_emit : forall text s, f (emit text s) = f s.

Lemma keeps_ret {A} (a : A) : keeps f (ret a).
Proof. now intros s. Qed.

Lemma keeps_throw {A} (e : exn) : keeps f (@throw _ A e).
Proof. now intros s. Qed.

Lemma keeps_bind {A B} (m : M Server.state A) (k : A -> M Server.state B) :
  keeps f m -> (forall a, keeps f (k a)) -> keeps f (bind m k).
Proof.
  intros Hm Hk s. unfold bind. specialize (Hm s).
  destruct (m s) as [[e|a] s']; simpl in *; [exact Hm|].
  now rewrite Hk.
Qed.

Lemma keeps_try_catch {A} (m : M Server.state A)
  (h : exn -> M Server.state A) :
  keeps f m -> (forall e, keeps f (h e)) -> keeps f (try_catch m h).
Proof.
  intros Hm Hh s. unfold try_catch. specialize (Hm s).
  destruct (m s) as [[e|a] s']; simpl in *; [|exact Hm].
  now rewrite Hh.
Qed.

Lemma keeps_log (message : string) : keeps f (Server.log message).
Proof. apply keeps_ret. Qed.

Lemma keeps_template (v : jsval) : keeps f (template v).
Proof.
  unfold template. destruct (ToString v); [apply keeps_ret|apply keeps_throw].
Qed.

Lemma keeps__truncateString (str : option string) (n : nat) :
  keeps f (Server._truncateString str n).
Proof.
  unfold Server._truncateString.
  destruct str; [destruct (_ <=? _)%nat; apply keeps_ret|apply keeps_throw].
Qed.

Lemma keeps__sendJSON (obj : jsval) : keeps f (Server._sendJSON obj).
Proof.
  unfold Server._sendJSON.
  apply keeps_bind; [|intros _; apply keeps_bind;
                       [apply keeps__truncateString|intros t; apply keeps_log]].
  intros s. apply (f_emit _ s).
Qed.

Lemma keeps_sendResponse (id result : jsval) :
  keeps f (Server.sendResponse id result).
Proof. apply keeps__sendJSON. Qed.

Lemma keeps_sendError (id : jsval) (code : Z) (message : string)
  (data : jsval) : keeps f (Server.sendError id code message data).
Proof. apply keeps__sendJSON. Qed.

Lemma keeps_handleInitialize (request : jsval) :
  keeps f (Server.handleInitialize request).
Proof.
  unfold Server.handleInitialize.
  apply keeps_bind; [apply keeps_log|intros _; apply keeps_sendResponse].
Qed.

Lemma keeps_handleToolsList (request : jsval) :
  keeps f (Server.handleToolsList request).
Proof. unfold Server.handleToolsList. apply keeps_sendResponse. Qed.

(** [handleToolsCall] around the call of the dispatcher. *)
Lemma keeps_handleToolsCall (env : Env) (request : jsval) :
  (forall name args, keeps f (Server.lift (Tools.handle env name args))) ->
  keeps f (Server.handleToolsCall env request).
Proof.
  intros Hlift. unfold Server.handleToolsCall.
  destruct (negb _); [apply keeps_sendError|].
  apply keeps_bind; [apply keeps_template|intros n].
  apply keeps_bind; [apply keeps__truncateString|intros a].
  apply keeps_bind; [apply keeps_log|intros _].
  apply keeps_try_catch.
  - apply keeps_bind; [apply Hlift|intros r; apply keeps_sendResponse].
  - intros e. apply keeps_bind; [apply keeps_log|intros _].
    apply keeps_sendError.
Qed.

(** [routeRequest] on a method for which [set_initialized] and
    [handleToolsCall] keep [f]. *)
Lemma keeps_routeRequest (env : Env) (request : jsval) :
  (is_str "initialized" (get "method" request) = true ->
   keeps f Server.set_initialized) ->
  (is_str "tools/call" (get "method" request) = true ->
   keeps f (Server.handleToolsCall env request)) ->
  keeps f (Server.routeRequest env request).
Proof.
  intros Hinit Hcall. unfold Server.routeRequest.
  apply keeps_bind; [apply keeps_template|intros m].
  apply keeps_bind; [apply keeps_log|intros _].
  destruct (is_str "initialize" _); [apply keeps_handleInitialize|].
  destruct (is_str "initialized" _).
  { apply keeps_bind; [now apply Hinit|intros _; apply keeps_log]. }
  destruct (is_str "ping" _); [apply keeps_sendResponse|].
  destruct (is_str "tools/list" _); [apply keeps_handleToolsList|].
  destruct (is_str "tools/call" _); [now apply Hcall|].
  destruct (is_str "resources/list" _); [apply keeps_sendResponse|].
  destruct (is_str "resources/read" _); [apply keeps_sendError|].
  destruct (is_str "prompts/list" _); [apply keeps_sendResponse|].
  destruct (is_str "prompts/get" _); [apply keeps_sendError|].
  apply keeps_bind; [apply keeps_template|intros m1].
  apply keeps_bind; [apply keeps_log|intros _].
  apply keeps_bind; [apply keeps_template|intros m2].
  apply keeps_sendError.
Qed.

(** [handleRequest] when its [routeRequest] keeps [f]. *)
Lemma keeps_handleRequest (env : Env) (request : jsval) :
  (is_str "2.0" (get "jsonrpc" request) = true ->
   keeps f (Server.routeRequest env request)) ->
  keeps f (Server.handleRequest env request).
Proof.
  intros Hroute.
  assert (Hbody :
            keeps f
              (if negb (is_str "2.0" (get "jsonrpc" request)) then
                 v <- template (get "jsonrpc" request) ;;
                 Server.log ("不支持的 JSON-RPC 版本：" ++ v) ;;
                 Server.sendError (get "id" request) Server.INVALID_REQUEST
                   "Invalid Request"
                   (JStr "不支持的 JSON-RPC 版本，仅支持 2.0")
               else
                 try_catch (Server.routeRequest env request)
                   (fun error =>
                      Server.log ("请求处理失败：" ++ exn_message error) ;;
                      Server.sendError (get "id" request) Server.INTERNAL_ERROR
                        "Internal error" (JStr (exn_message error))))).
  { destruct (is_str "2.0" _); cbv [negb].
    - apply keeps_try_catch; [now apply Hroute|intros e].
      apply keeps_bind; [apply keeps_log|intros _]. apply keeps_sendError.
    - apply keeps_bind; [apply keeps_template|intros v].
      apply keeps_bind; [apply keeps_log|intros _]. apply keeps_sendError. }
  unfold Server.handleRequest.
  destruct request;
    [apply keeps_throw | apply keeps_throw | exact Hbody | exact Hbody
    | exact Hbody | exact Hbody | exact Hbody].
Qed.

(** [handleLine] when the handling of what it parses keeps [f]. *)
Lemma keeps_handleLine (env : Env) (line : string) :
  (forall request, JSON.parse line = Some request ->
                   keeps f (Server.handleRequest env request)) ->
  keeps f (Server.handleLine env line).
Proof.
  intros Hreq. unfold Server.handleLine.
  destruct (Server.is_blank line); [apply keeps_ret|].
  apply keeps_bind; [apply keeps__truncateString|intros t].
  apply keeps_bind; [apply keeps_log|intros _].
  destruct (JSON.parse line) as [request|].
  - now apply Hreq.
  - apply keeps_bind; [apply keeps_log|intros _]. apply keeps_sendError.
Qed.

End Frame.

Lemma keeps_flag_lift {A} (m : M (list call) A) :
  keeps Server.isInitialized (Server.lift m).
Proof.
  intros s. unfold Server.lift. now destruct (m (Server.network s)).
Qed.

Lemma keeps_network_set_initialized :
  keeps Server.network Server.set_initialized.
Proof. now intros s. Qed.

(** X17. The readiness flag is set by the [initialized] notification and
    by nothing else: a line never resets it, and a line that changes it
    parses to a request of version "2.0" whose method is [initialized]. *)
Theorem flag_is_set_only_by_initialized (env : Env) (line : string)
  (s : Server.state) :
  let s' := snd (Server.handleLine env line s) in
  (Server.isInitialized s = true -> Server.isInitialized s' = true)
  /\ (Server.isInitialized s' <> Server.isInitialized s ->
      exists request,
        JSON.parse line = Some request
        /\ get "jsonrpc" request = JStr "2.0"
        /\ get "method" request = JStr "initialized").
Proof.
  intros s'.
  destruct (JSON.parse line) as [request|] eqn:Hp.
  2:{ assert (H : Server.isInitialized s' = Server.isInitialized s).
      { apply (keeps_handleLine Server.isInitialized emit_flag env line).
        intros request Hr. congruence. }
      split; [now rewrite H|intros Hne; contradiction]. }
  destruct (is_str "2.0" (get "jsonrpc" request)) eqn:Hv.
  2:{ assert (H : Server.isInitialized s' = Server.isInitialized s).
      { apply (keeps_handleLine Server.isInitialized emit_flag env line).
        intros r Hr. replace r with request by congruence.
        apply keeps_handleRequest; [exact emit_flag|]. congruence. }
      split; [now rewrite H|intros Hne; contradiction]. }
  destruct (is_str "initialized" (get "method" request)) eqn:Hm.
  - apply is_str_true in Hv. apply is_str_true in Hm.
    assert (H : Server.isInitialized s' = true).
    { unfold s'. rewrite (parsed_line env line request Hp).
      destruct s as [ready out net].
      now rewrite (initialized_sets_flag env request ready out net Hv Hm). }
    split; [now intros _|]. intros _. now exists request.
  - assert (H : Server.isInitialized s' = Server.isInitialized s).
    { apply (keeps_handleLine Server.isInitialized emit_flag env line).
      intros r Hr. replace r with request by congruence.
      apply keeps_handleRequest; [exact emit_flag|]. intros _.
      apply keeps_routeRequest; [exact emit_flag|congruence|]. intros _.
      apply keeps_handleToolsCall; [exact emit_flag|].
      intros name args. apply keeps_flag_lift. }
    split; [now rewrite H|intros Hne; contradiction].
Qed.

(** ** The network side of a line *)

Lemma handle_refuses (env : Env) (name args : jsval) :
  (forall n, name = JStr n ->
             ~ In n ["send_message"; "send_file"; "send_image"]) ->
  pure_on (Tools.handle env name args).
Proof.
  intros Hnot. unfold Tools.handle.
  destruct (negb (truthy name) || negb (is_string name));
    [apply pure_on_throw|].
  destruct name as [| |b|z|n|l|fs]; try apply pure_on_throw.
  specialize (Hnot n eq_refl).
  destruct (String.eqb_spec n "send_message") as [->|_];
    [exfalso; apply Hnot; simpl; tauto|].
  destruct (String.eqb_spec n "send_file") as [->|_];
    [exfalso; apply Hnot; simpl; tauto|].
  destruct (String.eqb_spec n "send_image") as [->|_];
    [exfalso; apply Hnot; simpl; tauto|].
  apply pure_on_throw.
Qed.

Lemma keeps_network_lift_pure {A} (m : M (list call) A) :
  pure_on m -> keeps Server.network (Server.lift m).
Proof.
  intros Hm s. unfold Server.lift. specialize (Hm (Server.network s)).
  now destruct (m (Server.network s)).
Qed.

(** [handleToolsCall] for a name that is not one of the three
    capabilities. *)
Lemma keeps_network_handleToolsCall (env : Env) (request : jsval) :
  (forall n, get "name" (get "params" request) = JStr n ->
             ~ In n ["send_message"; "send_file"; "send_image"]) ->
  keeps Server.network (Server.handleToolsCall env request).
Proof.
  intros Hnot. unfold Server.handleToolsCall.
  destruct (negb _); [apply keeps_sendError; exact emit_network|].
  apply keeps_bind; [apply keeps_template|intros n].
  apply keeps_bind; [apply keeps__truncateString|intros a].
  apply keeps_bind; [apply keeps_log|intros _].
  apply keeps_try_catch.
  - apply keeps_bind.
    + apply keeps_network_lift_pure, handle_refuses.
      rewrite name_of_params. exact Hnot.
    + intros r. apply keeps_sendResponse. exact emit_network.
  - intros e. apply keeps_bind; [apply keeps_log|intros _].
    apply keeps_sendError. exact emit_network.
Qed.

(** X18. Only a call of one of the three capabilities reaches the
    network: a line after which the network trace has changed parses to a
    request of version "2.0" with the method [tools/call] and the name of
    one of the three tools. *)
Theorem only_a_tool_call_reaches_the_network (env : Env) (line : string)
  (s : Server.state) :
  Server.network (snd (Server.handleLine env line s)) <> Server.network s ->
  exists request name,
    JSON.parse line = Some request
    /\ get "jsonrpc" request = JStr "2.0"
    /\ get "method" request = JStr "tools/call"
    /\ get "name" (get "params" request) = JStr name
    /\ In name ["send_message"; "send_file"; "send_image"].
Proof.
  intros Hchanged.
  destruct (JSON.parse line) as [request|] eqn:Hp.
  2:{ exfalso. apply Hchanged.
      apply (keeps_handleLine Server.network emit_network env line).
      intros r Hr. congruence. }
  assert (Hstep : forall P : Prop,
             (P -> False) ->
             (~ P -> keeps Server.network (Server.handleRequest env request)) ->
             False).
  { intros P HP Hkeep. apply Hchanged.
    apply (keeps_handleLine Server.network emit_network env line).
    intros r Hr. replace r with request by congruence. now apply Hkeep. }
  destruct (is_str "2.0" (get "jsonrpc" request)) eqn:Hv.
  2:{ exfalso. apply (Hstep False); [tauto|]. intros _.
      apply keeps_handleRequest; [exact emit_network|]. congruence. }
  destruct (is_str "tools/call" (get "method" request)) eqn:Hm.
  2:{ exfalso. apply (Hstep False); [tauto|]. intros _.
      apply keeps_handleRequest; [exact emit_network|]. intros _.
      apply keeps_routeRequest; [exact emit_network| |congruence].
      intros _. apply keeps_network_set_initialized. }
  apply is_str_true in Hv. apply is_str_true in Hm.
  destruct (get "name" (get "params" request)) as [| |b|z|n|l|fs] eqn:Hname.
  5:{ destruct (in_dec string_dec n ["send_message"; "send_file"; "send_image"])
        as [Hin|Hnot].
      - now exists request, n.
      - exfalso. apply (Hstep False); [tauto|]. intros _.
        apply keeps_handleRequest; [exact emit_network|]. intros _.
        apply keeps_routeRequest; [exact emit_network| |].
        + intros _. apply keeps_network_set_initialized.
        + intros _. apply keeps_network_handleToolsCall.
          rewrite Hname. intros n' [= <-]. exact Hnot. }
  all: exfalso; apply (Hstep False); [tauto|]; intros _;
    apply keeps_handleRequest; [exact emit_network|]; intros _;
    apply keeps_routeRequest;
      [exact emit_network
      |intros _; apply keeps_network_set_initialized
      |intros _; apply keeps_network_handleToolsCall;
       rewrite Hname; intros n' Hn'; discriminate Hn'].
Qed.

Lemma only_a_tool_call_reaches_the_network_witness :
  exists request name,
    JSON.parse
      (Fixtures.tools_call
         ("{" ++ Fixtures.member "name" (Fixtures.q "send_message") ++ ","
              ++ Fixtures.member "arguments"
                   ("{" ++ Fixtures.member "content" (Fixtures.q "hi") ++ "}")
              ++ "}"))
    = Some request
    /\ get "jsonrpc" request = JStr "2.0"
    /\ get "method" request = JStr "tools/call"
    /\ get "name" (get "params" request) = JStr name
    /\ In name ["send_message"; "send_file"; "send_image"].
Proof.
  apply (only_a_tool_call_reaches_the_network (Worlds.accepting ".bin") _
           Fixtures.fresh).
  vm_compute. discriminate.
Defined.

(** *** The trace only grows *)

Lemma grows_of_keeps {A} (m : M Server.state A) :
  keeps Server.network m -> grows m.
Proof. intros Hm s. exists []. now rewrite app_nil_r. Qed.

Lemma grows_bind {A B} (m : M Server.state A) (k : A -> M Server.state B) :
  grows m -> (forall a, grows (k a)) -> grows (bind m k).
Proof.
  intros Hm Hk s. unfold bind. destruct (Hm s) as [e1 H1].
  destruct (m s) as [[e|a] s1]; simpl in H1; [now exists e1|].
  destruct (Hk a s1) as [e2 H2]. exists (e1 ++ e2)%list.
  now rewrite H2, H1, app_assoc.
Qed.

Lemma grows_try_catch {A} (m : M Server.state A)
  (h : exn -> M Server.state A) :
  grows m -> (forall e, grows (h e)) -> grows (try_catch m h).
Proof.
  intros Hm Hh s. unfold try_catch. destruct (Hm s) as [e1 H1].
  destruct (m s) as [[e|a] s1]; simpl in H1; [|now exists e1].
  destruct (Hh e s1) as [e2 H2]. exists (e1 ++ e2)%list.
  now rewrite H2, H1, app_assoc.
Qed.

Lemma grows_lift_handle (env : Env) (name args : jsval) :
  grows (Server.lift (Tools.handle env name args)).
Proof.
  intros s. unfold Server.lift.
  destruct (handle_emits env name args (Server.network s)) as (ext & H & _).
  destruct (Tools.handle env name args (Server.network s)) as [r trace].
  simpl in *. now exists ext.
Qed.

Lemma grows_handleToolsCall (env : Env) (request : jsval) :
  grows (Server.handleToolsCall env request).
Proof.
  unfold Server.handleToolsCall.
  destruct (negb _);
    [apply grows_of_keeps, keeps_sendError; exact emit_network|].
  apply grows_bind; [apply grows_of_keeps, keeps_template|intros n].
  apply grows_bind; [apply grows_of_keeps, keeps__truncateString|intros a].
  apply grows_bind; [apply grows_of_keeps, keeps_log|intros _].
  apply grows_try_catch.
  - apply grows_bind; [apply grows_lift_handle|intros r].
    apply grows_of_keeps, keeps_sendResponse. exact emit_network.
  - intros e. apply grows_of_keeps.
    apply keeps_bind; [apply keeps_log|intros _].
    apply keeps_sendError. exact emit_network.
Qed.

Lemma grows_handleRequest (env : Env) (request : jsval) :
  grows (Server.handleRequest env request).
Proof.
  destruct (is_str "tools/call" (get "method" request)) eqn:Hm.
  - destruct (is_str "2.0" (get "jsonrpc" request)) eqn:Hv.
    + apply is_str_true in Hv. apply is_str_true in Hm.
      rewrite (handleRequest_v2 env request Hv).
      apply grows_try_catch.
      * rewrite (routeRequest_tools_call env request Hm).
        apply grows_handleToolsCall.
      * intros e. apply grows_of_keeps.
        apply keeps_bind; [apply keeps_log|intros _].
        apply keeps_sendError. exact emit_network.
    + apply grows_of_keeps, keeps_handleRequest; [exact emit_network|].
      congruence.
  - apply grows_of_keeps, keeps_handleRequest; [exact emit_network|].
    intros _. apply keeps_routeRequest; [exact emit_network| |congruence].
    intros _. apply keeps_network_set_initialized.
Qed.

Lemma log_then {A} (message : string) (m : M Server.state A)
  (s : Server.state) :
  (Server.log message ;; m) s = m s.
Proof. reflexivity. Qed.

(** The outcomes of the version check on a version other than "2.0". *)
Lemma invalid_version_outcome (env : Env) (request : jsval)
  (s : Server.state) :
  is_str "2.0" (get "jsonrpc" request) = false ->
  (exists e, Server.handleRequest env request s = (inl e, s)
             /\ (nullish request = true
                 \/ ToString (get "jsonrpc" request) = None))
  \/ (nullish request = false
      /\ (exists t, ToString (get "jsonrpc" request) = Some t)
      /\ Server.handleRequest env request s
         = (inr tt,
            emit (written (Server.error_response (get "id" request)
                             Server.INVALID_REQUEST "Invalid Request"
                             (JStr "不支持的 JSON-RPC 版本，仅支持 2.0"))) s)).
Proof.
  intros Hv.
  destruct (nullish request) eqn:Hn.
  - left. destruct request; try discriminate Hn; eexists; split;
      try reflexivity; now left.
  - destruct (ToString (get "jsonrpc" request)) as [t|] eqn:Ht.
    + right. split; [reflexivity|]. split; [now exists t|].
      apply (invalid_version_rejected env request t s Hn); [|exact Ht].
      intros H. rewrite H in Hv. discriminate Hv.
    + left. exists cannot_convert. split; [|now right].
      unfold Server.handleRequest.
      destruct request; try discriminate Hn; rewrite Hv; cbv [negb];
        unfold bind at 1, template; rewrite Ht; reflexivity.
Qed.

Lemma handleLine_writes (env : Env) (line : string) (s : Server.state) :
  Server.stdout (snd (Server.handleLine env line s)) = Server.stdout s
  \/ exists obj,
      Server.stdout (snd (Server.handleLine env line s))
      = (Server.stdout s ++ [written obj])%list.
Proof.
  destruct (JSON.parse line) as [request|] eqn:Hp.
  - rewrite (parsed_line env line request Hp).
    destruct (is_str "2.0" (get "jsonrpc" request)) eqn:Hv.
    + apply is_str_true in Hv.
      destruct (handleRequest_replies env request s Hv)
        as (s1 & -> & [Hsame|(_ & obj & _ & Hobj)]);
        [left; exact Hsame|right; exists obj; exact Hobj].
    + destruct (invalid_version_outcome env request s Hv)
        as [(e & -> & _)|(_ & _ & ->)]; [now left|].
      right. eexists. reflexivity.
  - unfold Server.handleLine.
    destruct (Server.is_blank line); [now left|].
    rewrite Hp. right.
    exists (Server.error_response JNull Server.PARSE_ERROR "Parse error"
              (JStr (syntax_error_message env line))).
    unfold bind at 1, Server._truncateString.
    destruct (_ <=? _)%nat; unfold ret at 1; rewrite !log_then;
      rewrite sendError_run; reflexivity.
Qed.

(** X19. One line in, at most one line out. Whatever the line, the
    server appends nothing or one line to its standard output, and only
    appends to the network trace. *)
Theorem a_line_writes_at_most_one_line (env : Env) (line : string)
  (s : Server.state) :
  let s' := snd (Server.handleLine env line s) in
  (Server.stdout s' = Server.stdout s
   \/ exists obj, Server.stdout s' = (Server.stdout s ++ [written obj])%list)
  /\ exists ext, Server.network s' = (Server.network s ++ ext)%list.
Proof.
  intros s'. unfold s'. clear s'. split; [apply handleLine_writes|].
  destruct (JSON.parse line) as [request|] eqn:Hp.
  - rewrite (parsed_line env line request Hp). apply grows_handleRequest.
  - apply (grows_of_keeps (Server.handleLine env line)).
    apply keeps_handleLine; [exact emit_network|]. congruence.
Qed.

(** ** Every request is answered *)

Lemma answer_result (id result : jsval) (s : Server.state) :
  one_reply_or_raise id s (Server.sendResponse id result s).
Proof.
  rewrite sendResponse_run. right. split; [reflexivity|].
  exists (Server.response id result). split; [left; now eexists|reflexivity].
Qed.

Lemma answer_error (id : jsval) (code : Z) (message : string) (data : jsval)
  (s : Server.state) :
  one_reply_or_raise id s (Server.sendError id code message data s).
Proof.
  rewrite sendError_run. right. split; [reflexivity|].
  exists (Server.error_response id code message data).
  split; [right; now eexists _, _, _|reflexivity].
Qed.

Lemma answer_raise (id : jsval) (s : Server.state) (e : exn) :
  one_reply_or_raise id s (@inl exn unit e, s).
Proof. left. now exists e. Qed.

Section Answers.

Variable env : Env.

Lemma handleToolsCall_answers (request : jsval) (s : Server.state) :
  one_reply_or_raise (get "id" request) s
    (Server.handleToolsCall env request s).
Proof.
  unfold Server.handleToolsCall.
  destruct (negb _); [apply answer_error|].
  unfold bind at 1.
  destruct (@template_cases Server.state
              (get "name" (js_or (get "params" request) (JObj []))))
    as [(t & _ & ->)|(_ & ->)]; [|apply answer_raise].
  unfold ret at 1, bind at 1, Server._truncateString.
  destruct (JSON.stringify _) as [a|]; [|apply answer_raise].
  assert (Hrun : forall s0,
             Server.stdout s0 = Server.stdout s ->
             one_reply_or_raise (get "id" request) s
               (try_catch
                  (result <- Server.lift
                               (Tools.handle env
                                  (get "name" (js_or (get "params" request)
                                                     (JObj [])))
                                  (js_or (get "arguments"
                                            (js_or (get "params" request)
                                                   (JObj [])))
                                         (JObj []))) ;;
                   Server.sendResponse (get "id" request) result)
                  (fun error =>
                     Server.log ("工具执行失败：" ++ exn_message error) ;;
                     Server.sendError (get "id" request) Server.INTERNAL_ERROR
                       "Tool execution failed" (JStr (exn_message error))) s0)).
  { intros s0 Hs0. unfold try_catch, bind at 1, Server.lift.
    destruct (Tools.handle env _ _ (Server.network s0)) as [[e|result] trace].
    - rewrite log_then, sendError_run. right. split; [reflexivity|].
      eexists. split; [right; now eexists _, _, _|].
      simpl. now rewrite Hs0.
    - rewrite sendResponse_run. right. split; [reflexivity|].
      eexists. split; [left; now eexists|].
      simpl. now rewrite Hs0. }
  destruct (_ <=? _)%nat; unfold ret at 1; rewrite log_then; now apply Hrun.
Qed.

Lemma routeRequest_answers (request : jsval) (s : Server.state) :
  get "method" request <> JStr "initialized" ->
  one_reply_or_raise (get "id" request) s (Server.routeRequest env request s).
Proof.
  intros Hm. unfold Server.routeRequest, bind at 1.
  destruct (@template_cases Server.state (get "method" request))
    as [(t & Ht & ->)|(_ & ->)]; [|apply answer_raise].
  unfold ret at 1. rewrite log_then.
  destruct (is_str "initialize" _).
  { unfold Server.handleInitialize. rewrite log_then. apply answer_result. }
  rewrite (is_str_false "initialized" _ Hm).
  destruct (is_str "ping" _); [apply answer_result|].
  destruct (is_str "tools/list" _).
  { unfold Server.handleToolsList. apply answer_result. }
  destruct (is_str "tools/call" _); [apply handleToolsCall_answers|].
  destruct (is_str "resources/list" _); [apply answer_result|].
  destruct (is_str "resources/read" _); [apply answer_error|].
  destruct (is_str "prompts/list" _); [apply answer_result|].
  destruct (is_str "prompts/get" _); [apply answer_error|].
  unfold bind, Server.log, ret. cbv beta iota.
  apply answer_error.
Qed.

Lemma handleRequest_answers (request : jsval) (s : Server.state) :
  get "jsonrpc" request = JStr "2.0" ->
  get "method" request <> JStr "initialized" ->
  exists s' obj,
    Server.handleRequest env request s = (inr tt, s')
    /\ answers (get "id" request) obj
    /\ Server.stdout s' = (Server.stdout s ++ [written obj])%list.
Proof.
  intros Hv Hm. rewrite (handleRequest_v2 env request Hv).
  assert (Hr := routeRequest_answers request s Hm).
  unfold try_catch.
  destruct (Server.routeRequest env request s) as [[e|[]] s1].
  - destruct Hr as [(e' & _ & Hout)|[Hr _]]; [|discriminate Hr].
    simpl in Hout. rewrite log_then, sendError_run.
    eexists. eexists. split; [reflexivity|].
    split; [right; now eexists _, _, _|]. simpl. now rewrite Hout.
  - destruct Hr as [(e' & He & _)|(_ & obj & Hans & Hout)];
      [discriminate He|].
    now exists s1, obj.
Qed.

End Answers.

(** X20. Every request of version "2.0" other than the [initialized]
    notification, whose identifier is a string, a number, [null] or
    absent, is answered: exactly one line is written, a result or an
    error under the identifier of the request, and no exception escapes.
    This holds whether or not the request carries an identifier, and
    whatever its method and parameters. (An identifier that is an array
    or an object is echoed into the response too, but the serializer of
    the engine fails on one nested deeper than its stack allows.) *)
Theorem every_request_is_answered (env : Env) (request : jsval)
  (s : Server.state) :
  get "jsonrpc" request = JStr "2.0" ->
  get "method" request <> JStr "initialized" ->
  plain (get "id" request) = true ->
  exists s' obj,
    Server.handleRequest env request s = (inr tt, s')
    /\ answers (get "id" request) obj
    /\ Server.stdout s' = (Server.stdout s ++ [written obj])%list.
Proof.
  intros Hv Hm _. now apply handleRequest_answers.
Qed.

Lemma every_request_is_answered_witness :
  let request :=
    JObj [("jsonrpc", JStr "2.0"); ("method", JStr "tools/call");
          ("params", JObj [("name", JStr "foo"); ("arguments", JObj [])])] in
  exists s' obj,
    Server.handleRequest (Fixtures.world None) request Fixtures.fresh
    = (inr tt, s')
    /\ answers (get "id" request) obj
    /\ Server.stdout s' = (Server.stdout Fixtures.fresh ++ [written obj])%list.
Proof.
  intros request.
  apply (every_request_is_answered (Fixtures.world None) request
           Fixtures.fresh);
    [reflexivity | discriminate | reflexivity].
Defined.

Lemma plain_has_text (v : jsval) :
  plain v = true -> exists t, ToString v = Some t.
Proof.
  destruct v as [| |b|n|t|l|fs]; try discriminate; intros _;
    try (now eexists). destruct b; now eexists.
Qed.

(** X21. The outcomes of the version check. A request whose version is
    not "2.0" is answered with Invalid Request, code -32600, under its
    identifier, with nothing else changed, when its version and its
    identifier are strings, numbers, [null] or absent. When the request
    is [null], or its version has no text form (an object with a member
    [toString]), [handleLine] raises instead, before anything is
    written: building the log message fails. *)
Theorem version_check_outcomes (env : Env) (request : jsval)
  (s : Server.state) :
  get "jsonrpc" request <> JStr "2.0" ->
  (nullish request = true \/ ToString (get "jsonrpc" request) = None ->
   exists e, Server.handleRequest env request s = (inl e, s))
  /\ (nullish request = false ->
      plain (get "jsonrpc" request) = true ->
      plain (get "id" request) = true ->
      Server.handleRequest env request s
      = (inr tt,
         emit (written
                 (Server.error_response (get "id" request) (-32600)
                    "Invalid Request"
                    (JStr "不支持的 JSON-RPC 版本，仅支持 2.0")))
              s)).
Proof.
  intros Hv.
  assert (Hs := is_str_false "2.0" _ Hv). split.
  - intros Hwhy.
    destruct (invalid_version_outcome env request s Hs)
      as [(e & Hrun & _)|(Hn & (t & Ht) & _)]; [now exists e|].
    destruct Hwhy as [Hn'|Ht']; congruence.
  - intros Hn Hversion _.
    destruct (plain_has_text _ Hversion) as [t Ht].
    exact (invalid_version_rejected env request t s Hn Hv Ht).
Qed.

Lemma version_check_outcomes_witness :
  let request :=
    JObj [("jsonrpc", JStr "1.0"); ("id", JNum 1); ("method", JStr "ping")] in
  (nullish request = true \/ ToString (get "jsonrpc" request) = None ->
   exists e,
     Server.handleRequest (Fixtures.world None) request Fixtures.fresh
     = (inl e, Fixtures.fresh))
  /\ (nullish request = false ->
      plain (get "jsonrpc" request) = true ->
      plain (get "id" request) = true ->
      Server.handleRequest (Fixtures.world None) request Fixtures.fresh
      = (inr tt,
         emit (written
                 (Server.error_response (get "id" request) (-32600)
                    "Invalid Request"
                    (JStr "不支持的 JSON-RPC 版本，仅支持 2.0")))
              Fixtures.fresh)).
Proof.
  intros request.
  apply (version_check_outcomes (Fixtures.world None) request Fixtures.fresh).
  discriminate.
Defined.

(** ** The tool call, from the request to the answer *)

Lemma js_or_not_nullish (a : jsval) (fs : list (string * jsval)) :
  nullish (js_or a (JObj fs)) = false.
Proof.
  unfold js_or. destruct (truthy a) eqn:Ha; [|reflexivity].
  destruct a; try reflexivity; discriminate Ha.
Qed.

Lemma stringify_undefined (v : jsval) :
  JSON.stringify v = None -> v = JUndefined.
Proof.
  intros Hv. destruct v; try reflexivity; exfalso;
    match goal with
    | H : JSON.stringify ?v = None |- _ =>
        assert (Hd : v <> JUndefined) by discriminate;
        destruct (serialize_defined "" "" v Hd) as [t Ht];
        unfold JSON.stringify in H; rewrite Ht in H; discriminate H
    end.
Qed.

Section ToolCall.

Variable env : Env.

Lemma handleToolsCall_named (request : jsval) (name : string)
  (s : Server.state) :
  get "name" (get "params" request) = JStr name ->
  name <> "" ->
  Server.handleToolsCall env request s
  = (a <- Server._truncateString
            (JSON.stringify (get "arguments" (get "params" request))) 200 ;;
     Server.log ("调用工具：" ++ name ++ ", 参数：" ++ a) ;;
     try_catch
       (result <- Server.lift
                    (Tools.handle env (JStr name)
                       (js_or (get "arguments" (get "params" request))
                              (JObj []))) ;;
        Server.sendResponse (get "id" request) result)
       (fun error =>
          Server.log ("工具执行失败：" ++ exn_message error) ;;
          Server.sendError (get "id" request) Server.INTERNAL_ERROR
            "Tool execution failed" (JStr (exn_message error)))) s.
Proof.
  intros Hname Hne. unfold Server.handleToolsCall.
  rewrite name_of_params, arguments_of_params, Hname.
  replace (truthy (JStr name)) with true
    by (symmetry; now apply truthy_string).
  cbv [negb]. rewrite template_string. reflexivity.
Qed.

Lemma handleToolsCall_dispatched (request : jsval) (name : string)
  (s : Server.state) :
  get "name" (get "params" request) = JStr name ->
  name <> "" ->
  get "arguments" (get "params" request) <> JUndefined ->
  Server.handleToolsCall env request s
  = try_catch
      (result <- Server.lift
                   (Tools.handle env (JStr name)
                      (js_or (get "arguments" (get "params" request))
                             (JObj []))) ;;
       Server.sendResponse (get "id" request) result)
      (fun error =>
         Server.log ("工具执行失败：" ++ exn_message error) ;;
         Server.sendError (get "id" request) Server.INTERNAL_ERROR
           "Tool execution failed" (JStr (exn_message error))) s.
Proof.
  intros Hname Hne Hargs. rewrite (handleToolsCall_named _ name s Hname Hne).
  destruct (serialize_defined "" "" _ Hargs) as [a Ha].
  unfold JSON.stringify. rewrite Ha.
  unfold bind at 1, Server._truncateString.
  destruct (_ <=? _)%nat; unfold ret at 1; now rewrite log_then.
Qed.

End ToolCall.

(** X22. A [tools/call] that names one of the three tools and carries an
    [arguments] member always succeeds at the protocol level: the answer
    is a JSON-RPC result that holds the envelope the dispatcher returned,
    also when the tool itself failed, and the network calls of the
    dispatcher are the only ones made. *)
Theorem tool_outcome_is_a_result (env : Env) (request : jsval)
  (name : string) (s : Server.state) :
  get "jsonrpc" request = JStr "2.0" ->
  get "method" request = JStr "tools/call" ->
  get "name" (get "params" request) = JStr name ->
  In name ["send_message"; "send_file"; "send_image"] ->
  get "arguments" (get "params" request) <> JUndefined ->
  let run :=
    Tools.handle env (JStr name)
      (js_or (get "arguments" (get "params" request)) (JObj []))
      (Server.network s) in
  exists result,
    fst run = inr result
    /\ is_envelope result
    /\ Server.handleRequest env request s
       = (inr tt,
          emit (written (Server.response (get "id" request) result))
               (with_network s (snd run))).
Proof.
  intros Hv Hm Hname Hin Hargs run.
  assert (Hne : name <> "") by (destruct Hin as [<-|[<-|[<-|[]]]]; discriminate).
  assert (Hpost := handle_known_outcome env name
                     (js_or (get "arguments" (get "params" request)) (JObj []))
                     (js_or_not_nullish _ _) Hin (Server.network s)).
  fold run in Hpost.
  rewrite (handleRequest_v2 env request Hv),
    (routeRequest_tools_call env request Hm).
  unfold try_catch at 1.
  rewrite (handleToolsCall_dispatched env request name s Hname Hne Hargs).
  unfold try_catch, bind at 1, Server.lift. fold run.
  destruct run as [[e|result] trace]; simpl in Hpost; [destruct Hpost|].
  exists result. split; [reflexivity|]. split; [exact Hpost|].
  rewrite sendResponse_run. reflexivity.
Qed.

Lemma tool_outcome_is_a_result_witness :
  let request :=
    JObj [("jsonrpc", JStr "2.0"); ("id", JNum 7);
          ("method", JStr "tools/call");
          ("params", JObj [("name", JStr "send_message");
                           ("arguments", JObj [("content", JStr "hello")])])] in
  let run :=
    Tools.handle (Worlds.accepting "") (JStr "send_message")
      (js_or (get "arguments" (get "params" request)) (JObj []))
      (Server.network Fixtures.fresh) in
  exists result,
    fst run = inr result
    /\ is_envelope result
    /\ Server.handleRequest (Worlds.accepting "") request Fixtures.fresh
       = (inr tt,
          emit (written (Server.response (get "id" request) result))
               (with_network Fixtures.fresh (snd run))).
Proof.
  intros request.
  apply (tool_outcome_is_a_result (Worlds.accepting "") request "send_message"
           Fixtures.fresh);
    [reflexivity | reflexivity | reflexivity | simpl; tauto | discriminate].
Defined.

(** X23. A [tools/call] with a tool name and no [arguments] member never
    reaches the dispatcher, whatever the name: the log message of
    [handleToolsCall] raises on the absent arguments, and the request is
    answered with the Internal error, code -32603, with no network call. *)
Theorem call_without_arguments_is_an_internal_error (env : Env)
  (request : jsval) (name : string) (s : Server.state) :
  get "jsonrpc" request = JStr "2.0" ->
  get "method" request = JStr "tools/call" ->
  get "name" (get "params" request) = JStr name ->
  name <> "" ->
  get "arguments" (get "params" request) = JUndefined ->
  Server.handleRequest env request s
  = (inr tt,
     emit (written
             (Server.error_response (get "id" request) (-32603)
                "Internal error"
                (JStr "Cannot read properties of undefined (reading 'length')")))
          s).
Proof.
  intros Hv Hm Hname Hne Hargs.
  rewrite (handleRequest_v2 env request Hv),
    (routeRequest_tools_call env request Hm).
  unfold try_catch.
  rewrite (handleToolsCall_named env request name s Hname Hne), Hargs.
  unfold bind at 1. simpl Server._truncateString. unfold throw at 1.
  rewrite log_then, sendError_run. reflexivity.
Qed.

Lemma call_without_arguments_is_an_internal_error_witness :
  let request :=
    JObj [("jsonrpc", JStr "2.0"); ("id", JNum 7);
          ("method", JStr "tools/call");
          ("params", JObj [("name", JStr "send_message")])] in
  Server.handleRequest (Worlds.accepting "") request Fixtures.fresh
  = (inr tt,
     emit (written
             (Server.error_response (get "id" request) (-32603)
                "Internal error"
                (JStr "Cannot read properties of undefined (reading 'length')")))
          Fixtures.fresh).
Proof.
  intros request.
  apply (call_without_arguments_is_an_internal_error (Worlds.accepting "")
           request "send_message" Fixtures.fresh);
    [reflexivity | reflexivity | reflexivity | discriminate | reflexivity].
Defined.

(** ** Lines that are not JSON *)

Lemma not_a_value (c : ascii) (rest : string) :
  starts_value c = false -> JSON.read_number (String c rest) = None.
Proof.
  destruct c as [[] [] [] [] [] [] [] []]; intros H;
    first [discriminate H | reflexivity].
Qed.

Lemma starts_value_false (c : ascii) :
  starts_value c = false ->
  let n := nat_of_ascii c in
  ((n =? 110) = false /\ (n =? 116) = false /\ (n =? 102) = false
   /\ (n =? 34) = false /\ (n =? 91) = false /\ (n =? 123) = false)%nat.
Proof.
  unfold starts_value. intros H. cbv zeta.
  repeat (apply orb_false_elim in H; destruct H as [H ?]).
  now repeat split.
Qed.

Lemma parse_not_a_value (line : string) (c : ascii) (rest : string) :
  JSON.skip_ws line = String c rest ->
  starts_value c = false ->
  JSON.parse line = None.
Proof.
  intros Hs Hc. unfold JSON.parse.
  replace (2 * String.length line + 2)%nat
    with (S (2 * String.length line + 1)) by lia.
  cbn [JSON.read_value]. rewrite Hs.
  destruct (starts_value_false c Hc) as (H1 & H2 & H3 & H4 & H5 & H6).
  cbv zeta in H1, H2, H3, H4, H5, H6.
  rewrite H1, H2, H3, H4, H5, H6.
  now rewrite (not_a_value c rest Hc).
Qed.

(** X24. A line that is not blank and whose first character after white
    space cannot begin a JSON value is answered with the Parse error, code
    -32700, under the identifier [null], with the message of the syntax
    error as its data; the state is otherwise unchanged. *)
Theorem malformed_line_is_a_parse_error (env : Env) (line : string)
  (c : ascii) (rest : string) (s : Server.state) :
  Server.is_blank line = false ->
  JSON.skip_ws line = String c rest ->
  starts_value c = false ->
  Server.handleLine env line s
  = (inr tt,
     emit (written
             (Server.error_response JNull (-32700) "Parse error"
                (JStr (syntax_error_message env line))))
          s).
Proof.
  intros Hb Hs Hc. unfold Server.handleLine.
  rewrite Hb, (parse_not_a_value line c rest Hs Hc).
  unfold bind at 1, Server._truncateString.
  destruct (_ <=? _)%nat; unfold ret at 1; rewrite !log_then;
    now rewrite sendError_run.
Qed.

Lemma malformed_line_is_a_parse_error_witness :
  Server.handleLine (Fixtures.world None) " hello" Fixtures.fresh
  = (inr tt,
     emit (written
             (Server.error_response JNull (-32700) "Parse error"
                (JStr (syntax_error_message (Fixtures.world None) " hello"))))
          Fixtures.fresh).
Proof.
  apply (malformed_line_is_a_parse_error (Fixtures.world None) " hello"
           "h"%char "ello" Fixtures.fresh); reflexivity.
Defined.

(** ** One response, one line *)

Lemma has_newline_app (a b : string) :
  has_newline (a ++ b) = has_newline a || has_newline b.
Proof.
  induction a as [|c a IH]; [reflexivity|].
  simpl. rewrite IH. now rewrite orb_assoc.
Qed.

Lemma quote_char_one_line (c : ascii) :
  has_newline (JSON.quote_char c) = false.
Proof. destruct c as [[] [] [] [] [] [] [] []]; reflexivity. Qed.

Lemma quote_one_line (s : string) : has_newline (JSON.quote s) = false.
Proof.
  unfold JSON.quote. rewrite !has_newline_app.
  replace (has_newline JSON.dquote) with false by reflexivity.
  rewrite orb_false_r. simpl.
  induction s as [|c s IH]; [reflexivity|].
  simpl. now rewrite has_newline_app, quote_char_one_line, IH.
Qed.

Lemma string_of_uint_one_line (d : Decimal.uint) :
  has_newline (NilZero.string_of_uint d) = false.
Proof.
  unfold NilZero.string_of_uint. destruct d; try reflexivity; simpl;
    induction d; try reflexivity; simpl; exact IHd.
Qed.

Lemma string_of_Z_one_line (n : Z) : has_newline (string_of_Z n) = false.
Proof.
  unfold string_of_Z, NilZero.string_of_int.
  destruct (Z.to_int n); [|simpl]; apply string_of_uint_one_line.
Qed.

Lemma join_one_line (parts : list string) :
  Forall (fun part => has_newline part = false) parts ->
  has_newline (join "," parts) = false.
Proof.
  induction 1 as [|part [|next parts] Hpart Hparts IH]; [reflexivity| |].
  - exact Hpart.
  - change (join "," (part :: next :: parts))
      with (part ++ "," ++ join "," (next :: parts)).
    rewrite !has_newline_app, Hpart, IH. reflexivity.
Qed.

Lemma serialize_one_line (v : jsval) :
  forall indent,
    match JSON.serialize "" indent v with
    | Some text => has_newline text = false
    | None => True
    end.
Proof.
  revert v. fix IH 1. intros v indent. destruct v as [| |b|n|s|l|fs].
  - exact I.
  - reflexivity.
  - destruct b; reflexivity.
  - apply string_of_Z_one_line.
  - apply quote_one_line.
  - cbn [JSON.serialize]. cbv zeta.
    set (elems := fix elems (l : list jsval) : list string := _).
    assert (Hparts : Forall (fun part => has_newline part = false) (elems l)).
    { induction l as [|x l IHl]; [constructor|].
      cbn [elems]. constructor; [|exact IHl].
      specialize (IH x (indent ++ "")).
      destruct (JSON.serialize "" (indent ++ "") x); [exact IH|reflexivity]. }
    destruct (elems l) as [|part parts] eqn:Hl; [reflexivity|].
    cbn [String.eqb]. rewrite !has_newline_app, (join_one_line _ Hparts).
    reflexivity.
  - cbn [JSON.serialize]. cbv zeta.
    set (members := fix members (fs : list (string * jsval)) : list string := _).
    assert (Hparts : Forall (fun part => has_newline part = false) (members fs)).
    { induction fs as [|[k x] fs IHfs]; [constructor|].
      cbn [members]. specialize (IH x (indent ++ "")).
      destruct (JSON.serialize "" (indent ++ "") x) as [text|]; [|exact IHfs].
      constructor; [|exact IHfs].
      cbn [String.eqb]. rewrite !has_newline_app, quote_one_line, IH.
      reflexivity. }
    destruct (members fs) as [|part parts] eqn:Hfs; [reflexivity|].
    cbn [String.eqb]. rewrite !has_newline_app, (join_one_line _ Hparts).
    reflexivity.
Qed.

Lemma written_one_line (obj : jsval) :
  exists text, written obj = text ++ JSON.newline /\ has_newline text = false.
Proof.
  unfold written, JSON.stringify.
  assert (H := serialize_one_line obj "").
  destruct (JSON.serialize "" "" obj) as [text|].
  - exists text. split; [reflexivity|exact H].
  - exists "undefined". split; reflexivity.
Qed.

(** X25. The output is line-delimited: what [handleLine] appends to the
    standard output is nothing, or one text free of line feeds followed
    by one line feed. The pretty-printed, multi-line text of a tool
    envelope is escaped inside the response and does not break the line. *)
Theorem output_is_line_delimited (env : Env) (line : string)
  (s : Server.state) :
  let s' := snd (Server.handleLine env line s) in
  Server.stdout s' = Server.stdout s
  \/ exists text,
      Server.stdout s'
      = (Server.stdout s ++ [(text ++ JSON.newline)%string])%list
      /\ has_newline text = false.
Proof.
  intros s'. unfold s'. clear s'.
  destruct (handleLine_writes env line s) as [Hsame|[obj Hobj]];
    [now left|right].
  destruct (written_one_line obj) as (text & Htext & Hone).
  exists text. split; [|exact Hone]. now rewrite Hobj, Htext.
Qed.

(** ** Responses and identifiers *)




(** ** The success envelope *)

Section RoundTrip.

Variable env : Env.
Hypothesis remote : remote_says_ok env.

Lemma sendMessage_ok (key msgType : string) (content : jsval)
  (trace : list call) :
  WeComClient.sendMessage env key msgType content trace
  = (inr (JObj [("success", JBool true);
                ("message", JStr "消息发送成功");
                ("data", Fixtures.ok_body)]),
     (trace ++ [send_request key msgType content])%list).
Proof.
  destruct (proj1 remote trace key
              (JObj (set_field msgType content [("msgtype", JStr msgType)])))
    as [status Hpost].
  rewrite (sendMessage_resolved env key msgType content trace status _ Hpost).
  reflexivity.
Qed.

Lemma round_trip_sendMessage (key msgType : string) (content : jsval)
  (trace : list call) :
  round_trip (settled (WeComClient.sendMessage env key msgType content trace)).
Proof.
  rewrite sendMessage_ok. unfold round_trip, settled, fst.
  eexists. split; [vm_compute; reflexivity|]. vm_compute. reflexivity.
Qed.

Lemma sendImage_accepted (key path : string) (file : Buffer)
  (trace : list call) :
  path <> "" ->
  readFile env path = inr file ->
  In (WeComClient.toLowerCase (WeComClient.slice1 (extname env path)))
     WeComClient.SUPPORTED_IMAGE_FORMATS ->
  buf_length file <= 2 * 1024 * 1024 ->
  WeComClient.sendImage env key (JStr path) trace
  = WeComClient.sendMessage env key "image"
      (WeComClient.image_content env file) trace.
Proof.
  intros Hne Hread Hext Hsize. unfold WeComClient.sendImage.
  apply String.eqb_neq in Hne. rewrite Hne.
  unfold bind at 1, try_catch, bind at 1, WeComClient._readFile.
  rewrite Hread. unfold ret at 1. cbv beta iota.
  assert (Hin : WeComClient.includes WeComClient.SUPPORTED_IMAGE_FORMATS
                  (WeComClient.toLowerCase
                     (WeComClient.slice1 (extname env path))) = true).
  { unfold WeComClient.includes. apply existsb_exists.
    eexists. split; [exact Hext|]. apply String.eqb_refl. }
  rewrite Hin. cbv [negb]. rewrite image_limit.
  destruct (Z.ltb_spec (2 * 1024 * 1024) (buf_length file)); [lia|].
  reflexivity.
Qed.

Lemma sendImageFromUrl_accepted (key url : string) (data : Buffer)
  (trace : list call) :
  url <> "" ->
  url_parses env url = true ->
  get_url env trace url = Resolved 200 data ->
  buf_length data <= 2 * 1024 * 1024 ->
  WeComClient.sendImageFromUrl env key (JStr url) trace
  = WeComClient.sendMessage env key "image"
      (WeComClient.image_content env data) (trace ++ [GetUrl url])%list.
Proof.
  intros Hne Hurl Hget Hsize. unfold WeComClient.sendImageFromUrl.
  apply String.eqb_neq in Hne. rewrite Hne, Hurl. cbv [negb].
  unfold bind at 1, try_catch, bind at 1, WeComClient.axios_get.
  rewrite Hget. unfold WeComClient.settle. cbv iota.
  replace (200 =? 200) with true by reflexivity. cbv [negb].
  rewrite image_limit.
  destruct (Z.ltb_spec (2 * 1024 * 1024) (buf_length data)); [lia|].
  reflexivity.
Qed.

Lemma send_image_steps (args : jsval) (trace : list call) (k : string) :
  nullish args = false ->
  js_or (get "webhook_key" args) (Tools.DEFAULT_WEBHOOK_KEY env) = JStr k ->
  truthy (get "image_path" args) = negb (truthy (get "image_url" args)) ->
  Tools.handle env (JStr "send_image") args trace
  = settled
      ((if truthy (get "image_path" args)
        then WeComClient.sendImage env k (get "image_path" args)
        else WeComClient.sendImageFromUrl env k (get "image_url" args))
         trace).
Proof.
  intros Hn Hk Hone.
  change (Tools.handle env (JStr "send_image") args trace)
    with (Tools.handleSendImage env args trace).
  unfold Tools.handleSendImage. rewrite (destructure_body _ _ _ Hn).
  assert (Hkne := resolved_key_truthy env _ _ Hk).
  rewrite (_getWebhookKey_resolved env _ _ Hk).
  unfold try_catch, bind at 1, ret at 1. rewrite Hone.
  destruct (truthy (get "image_url" args)); cbv [negb andb];
    rewrite (new_client_string k Hkne); unfold bind at 1, ret at 1;
    unfold bind at 1.
  - destruct (WeComClient.sendImageFromUrl env k _ trace) as [[e|r] t];
      reflexivity.
  - destruct (WeComClient.sendImage env k _ trace) as [[e|r] t]; reflexivity.
Qed.

Lemma send_file_without_media_id (args : jsval) (trace : list call)
  (path k : string) :
  nullish args = false ->
  get "file_path" args = JStr path -> path <> "" ->
  js_or (get "webhook_key" args) (Tools.DEFAULT_WEBHOOK_KEY env) = JStr k ->
  exists c m d,
    fst (Tools.handle env (JStr "send_file") args trace)
    = inr (Tools._formatError (WeComError c m d)).
Proof.
  intros Hn Hpath Hp Hk.
  rewrite (send_file_steps env args trace path k Hn Hpath Hp Hk).
  assert (Hpost := uploadMedia_outcome env k (JStr path) (JStr "file") trace).
  destruct (uploadMedia_cases env k path "file" trace Hp (or_introl eq_refl))
    as [(e & Hrun)|(file & _ & _ & [(e & Hrun)|(status & data & Hup & _ & Hrun)])];
    rewrite Hrun in *; simpl in Hpost.
  - destruct Hpost as (c & m & d & ->). now exists c, m, d.
  - destruct Hpost as (c & m & d & ->). now exists c, m, d.
  - destruct (proj2 remote trace k "file" (basename env path)
                (WeComClient._getMimeType env path) file) as [status' Hok].
    rewrite Hok in Hup. injection Hup as _ <-.
    eexists _, _, _. reflexivity.
Qed.

End RoundTrip.

(** The remote answers every request with [{errcode: 0, errmsg: "ok"}],
    and [send_file] on a file of 6 bytes produces an error envelope: the
    upload answered with that body has no [media_id] to send. *)
Lemma ok_body_send_file_fails :
  remote_says_ok says_ok
  /\ Tools.handle says_ok (JStr "send_file")
       (JObj [("file_path", JStr "/tmp/six.bin")]) []
     = (inr (Tools._formatError
               (WeComError (JNum (-1)) "mediaId 参数必须是有效的字符串"
                           (JObj []))),
        [PostUpload "default-key" "file" "file.png" (Some "image/png")
                    (Fixtures.bytes 6)])
  /\ get "isError"
       (Tools._formatError
          (WeComError (JNum (-1)) "mediaId 参数必须是有效的字符串" (JObj [])))
     = JBool true.
Proof.
  split; [split; intros; now exists 200|].
  split; [vm_compute; reflexivity|reflexivity].
Qed.

(** C8. When the remote answers every request with the body
    [{errcode: 0, errmsg: "ok"}], [send_message] and [send_image] whose
    own checks pass produce a success envelope whose text parses as JSON
    to [{success: true, message: ..., data: {errcode: 0, errmsg: "ok"}}]:
    the remote body, with its [errcode: 0], is the [data] member of that
    object. [send_file] whose checks pass produces an error envelope
    instead: the upload answered with that body carries no [media_id]. *)
Theorem ok_body_round_trip (env : Env) (args : jsval) (trace : list call)
  (k : string) :
  remote_says_ok env ->
  nullish args = false ->
  js_or (get "webhook_key" args) (Tools.DEFAULT_WEBHOOK_KEY env) = JStr k ->
  (forall c,
      get "content" args = JStr c -> c <> "" ->
      WeComClient.byteLength c <= 4096 ->
      round_trip (Tools.handle env (JStr "send_message") args trace))
  /\ (forall path file,
        get "image_path" args = JStr path -> path <> "" ->
        truthy (get "image_url" args) = false ->
        readFile env path = inr file ->
        In (WeComClient.toLowerCase (WeComClient.slice1 (extname env path)))
           ["jpg"; "jpeg"; "png"] ->
        buf_length file <= 2 * 1024 * 1024 ->
        round_trip (Tools.handle env (JStr "send_image") args trace))
  /\ (forall url data,
        truthy (get "image_path" args) = false ->
        get "image_url" args = JStr url -> url <> "" ->
        url_parses env url = true ->
        get_url env trace url = Resolved 200 data ->
        buf_length data <= 2 * 1024 * 1024 ->
        round_trip (Tools.handle env (JStr "send_image") args trace))
  /\ (forall path,
        get "file_path" args = JStr path -> path <> "" ->
        exists c m d,
          fst (Tools.handle env (JStr "send_file") args trace)
          = inr (Tools._formatError (WeComError c m d))).
Proof.
  intros Hok Hn Hk. split; [|split; [|split]].
  - intros c Hc Hne Hlen.
    rewrite (send_message_forwarded env args trace c k Hn Hc Hne Hlen Hk).
    now apply round_trip_sendMessage.
  - intros path file Hpath Hne Hurl Hread Hext Hsize.
    assert (Hp : truthy (get "image_path" args) = true)
      by (rewrite Hpath; now apply truthy_string).
    rewrite (send_image_steps env args trace k Hn Hk); [|now rewrite Hp, Hurl].
    rewrite Hp, Hpath.
    rewrite (sendImage_accepted env k path file trace Hne Hread Hext Hsize).
    now apply round_trip_sendMessage.
  - intros url data Hpath Hurl Hne Hparses Hget Hsize.
    assert (Hu : truthy (get "image_url" args) = true)
      by (rewrite Hurl; now apply truthy_string).
    rewrite (send_image_steps env args trace k Hn Hk); [|now rewrite Hpath, Hu].
    rewrite Hpath, Hurl.
    rewrite (sendImageFromUrl_accepted env k url data trace
               Hne Hparses Hget Hsize).
    now apply round_trip_sendMessage.
  - intros path Hpath Hne.
    exact (send_file_without_media_id env Hok args trace path k Hn Hpath Hne Hk).
Qed.

Lemma ok_body_round_trip_witness :
  let args :=
    JObj [("content", JStr "# hello"); ("image_path", JStr "/tmp/six.bin");
          ("file_path", JStr "/tmp/six.bin")] in
  round_trip (Tools.handle says_ok (JStr "send_message") args [])
  /\ round_trip (Tools.handle says_ok (JStr "send_image") args [])
  /\ exists c m d,
      fst (Tools.handle says_ok (JStr "send_file") args [])
      = inr (Tools._formatError (WeComError c m d)).
Proof.
  intros args.
  destruct (ok_body_round_trip says_ok args [] "default-key")
    as (Hmessage & Himage & _ & Hfile);
    [split; intros; now exists 200 | reflexivity | reflexivity|].
  split; [|split].
  - apply (Hmessage "# hello");
      [reflexivity | discriminate | vm_compute; discriminate].
  - apply (Himage "/tmp/six.bin" (Fixtures.bytes 6));
      [reflexivity | discriminate | reflexivity | reflexivity
      | simpl; tauto | vm_compute; discriminate].
  - apply (Hfile "/tmp/six.bin"); [reflexivity | discriminate].
Defined.

(** The same for an image that is downloaded. *)
Example image_url_round_trip :
  round_trip
    (Tools.handle says_ok (JStr "send_image")
       (JObj [("image_url", JStr "https://example.com/a.png")]) []).
Proof. eexists. split; [vm_compute; reflexivity|]. vm_compute. reflexivity. Qed.
